(** * NRF24: a shallow embedding of the nRF24L01+ driver (NRF24.cpp)

    The driver is a C++ class that talks to the radio chip over SPI and
    two digital lines (CE, the enable line, and CSN, the select line).
    The embedding keeps the driver's member variables in a record, the
    hardware in a second record, and threads both through a small state
    monad.  The chip is not simulated: every byte it clocks back on MISO
    and every reading of the millisecond timer is taken from an oracle
    stream, so that each statement holds for all chips and all clocks. *)

From Stdlib Require Import ZArith List Bool Lia.
Import ListNotations.
Open Scope Z_scope.

(** ** Machine integers *)

(** [uint8_t] and [uint32_t] values are integers with the wrap-around
    written out. *)
Definition u8 (x : Z) : Z := x mod 256.
Definition u32 (x : Z) : Z := x mod 2 ^ 32.

(** Conversion of an integer to [bool], as in [bool b = status & TX_DS]. *)
Definition to_bool (x : Z) : bool := negb (x =? 0).

(** [!x] on an integer: 1 when [x] is zero, 0 otherwise. *)
Definition lnot_int (x : Z) : Z := if x =? 0 then 1 else 0.

Infix ".&" := Z.land (at level 40, left associativity).
Infix ".|" := Z.lor (at level 45, left associativity).
Infix ".<<" := Z.shiftl (at level 38, left associativity).
Infix ".>>" := Z.shiftr (at level 38, left associativity).
Notation ".~ x" := (Z.lnot x) (at level 35, right associativity).

(** ** The register map (NRF24.h)

    The header that names the registers, commands and bit masks is not
    part of the sources at hand, so the driver is parameterised by it. *)
Record Header : Type := {
  (* registers *)
  CONFIG : Z; EN_AA : Z; EN_RXADDR : Z; SETUP_AW : Z; SETUP_RETR : Z;
  RF_CH : Z; RF_SETUP : Z; STATUS : Z; OBSERVE_TX : Z; RX_ADDR_P0 : Z;
  TX_ADDR : Z; FIFO_STATUS : Z; DYNPD : Z; FEATURE : Z;
  (* commands *)
  R_REGISTER : Z; W_REGISTER : Z; REGISTER_MASK : Z; ACTIVATE : Z;
  R_RX_PL_WID : Z; R_RX_PAYLOAD : Z; W_TX_PAYLOAD : Z;
  W_TX_PAYLOAD_NO_ACK : Z; W_ACK_PAYLOAD : Z; FLUSH_TX : Z; FLUSH_RX : Z;
  NOP : Z;
  (* CONFIG bits *)
  PRIM_RX : Z; PWR_UP : Z; CRCO : Z; EN_CRC : Z;
  (* STATUS bits *)
  RX_DR : Z; TX_DS : Z; MAX_RT : Z; RX_P_NO : Z;
  (* FIFO_STATUS bits *)
  TX_FULL_FIFO : Z; TX_EMPTY : Z;
  (* FEATURE bits *)
  EN_DPL : Z; EN_ACK_PAY : Z; EN_DYN_ACK : Z;
  (* EN_AA and DYNPD bits *)
  ENAA_P0 : Z; ENAA_P1 : Z; ENAA_P2 : Z; ENAA_P3 : Z; ENAA_P4 : Z; ENAA_P5 : Z;
  DPL_P0 : Z; DPL_P1 : Z; DPL_P2 : Z; DPL_P3 : Z; DPL_P4 : Z; DPL_P5 : Z;
  (* RF_SETUP bits *)
  RF_DR_HIGH : Z; RF_DR_LOW : Z; RF_PA_LOW : Z; RF_PA_HIGH : Z
}.

(** Modelled from the spec: the values of NRF24.h, which is missing.  The
    spec names the registers, commands and flags of the chip without
    their numbers; these are the numbers of the nRF24L01+ register map,
    used wherever a statement is evaluated on a concrete run. *)
Definition datasheet : Header := {|
  CONFIG := 0x00; EN_AA := 0x01; EN_RXADDR := 0x02; SETUP_AW := 0x03;
  SETUP_RETR := 0x04; RF_CH := 0x05; RF_SETUP := 0x06; STATUS := 0x07;
  OBSERVE_TX := 0x08; RX_ADDR_P0 := 0x0A; TX_ADDR := 0x10;
  FIFO_STATUS := 0x17; DYNPD := 0x1C; FEATURE := 0x1D;
  R_REGISTER := 0x00; W_REGISTER := 0x20; REGISTER_MASK := 0x1F;
  ACTIVATE := 0x50; R_RX_PL_WID := 0x60; R_RX_PAYLOAD := 0x61;
  W_TX_PAYLOAD := 0xA0; W_TX_PAYLOAD_NO_ACK := 0xB0; W_ACK_PAYLOAD := 0xA8;
  FLUSH_TX := 0xE1; FLUSH_RX := 0xE2; NOP := 0xFF;
  PRIM_RX := 0x01; PWR_UP := 0x02; CRCO := 0x04; EN_CRC := 0x08;
  RX_DR := 0x40; TX_DS := 0x20; MAX_RT := 0x10; RX_P_NO := 1;
  TX_FULL_FIFO := 0x20; TX_EMPTY := 0x10;
  EN_DPL := 0x04; EN_ACK_PAY := 0x02; EN_DYN_ACK := 0x01;
  ENAA_P0 := 0x01; ENAA_P1 := 0x02; ENAA_P2 := 0x04; ENAA_P3 := 0x08;
  ENAA_P4 := 0x10; ENAA_P5 := 0x20;
  DPL_P0 := 0x01; DPL_P1 := 0x02; DPL_P2 := 0x04; DPL_P3 := 0x08;
  DPL_P4 := 0x10; DPL_P5 := 0x20;
  RF_DR_HIGH := 0x08; RF_DR_LOW := 0x20; RF_PA_LOW := 0x02; RF_PA_HIGH := 0x04
|}.

(** ** Enumerations of the driver's interface *)

Inductive nrf24_datarate_e := NRF24_250KBPS | NRF24_1MBPS | NRF24_2MBPS.
Inductive nrf24_pa_level_e := NRF24_PA_MIN | NRF24_PA_MID | NRF24_PA_HIGH | NRF24_PA_MAX.
Inductive nrf24_crc_mode_e := NRF24_NO_CRC | NRF24_CRC_8BIT | NRF24_CRC_16BIT.
Inductive nrf24_mode_e :=
  | NRF24_MODE_POWER_DOWN
  | NRF24_MODE_STANDBY1
  | NRF24_MODE_STANDBY2
  | NRF24_MODE_RX
  | NRF24_MODE_TX.

(** ** The driver object and the hardware *)

(** Member variables of [class NRF24]. *)
Record Driver : Type := {
  cePin : Z;
  csnPin : Z;
  netmask : Z;
  ownAddress : Z;
  previousRXAddress : Z;
  previousTXAddress : Z;
  previousPipe : Z;
  numPipes : Z;
  listening : bool;
  ackEnabled : bool
}.

(** What the driver does to the outside world, in the order it does it.
    A frame is logged each time the select line is released: the bytes
    sent on MOSI since the line was last driven, oldest first. *)
Inductive Event : Type :=
  | EvPinMode (pin : Z)
  | EvSpiBegin
  | EvSpiClockDiv4
  | EvCE (level : bool)
  | EvFrame (mosi : list Z)
  | EvDelay (ms : Z)
  | EvDelayMicroseconds (us : Z).

Record World : Type := {
  ce : bool;                (* level of the enable line *)
  csn : bool;               (* level of the select line; low selects *)
  sel : list Z;             (* bytes of the frame in progress, newest first *)
  log : list Event;         (* newest first *)
  miso : nat -> Z;          (* the chip's answer to the n-th transfer *)
  xfers : nat;              (* transfers made so far *)
  clock : nat -> Z;         (* the n-th reading of the millisecond timer *)
  ticks : nat               (* readings taken so far *)
}.

Record Machine : Type := { obj : Driver; hw : World }.

(** ** A state monad over the machine *)

Definition M (A : Type) : Type := Machine -> A * Machine.

Definition ret {A} (a : A) : M A := fun m => (a, m).

Definition bind {A B} (c : M A) (k : A -> M B) : M B :=
  fun m => let (a, m') := c m in k a m'.

Notation "x <- c ;; k" := (bind c (fun x => k))
  (at level 61, c at next level, right associativity).
Notation "c ;; k" := (bind c (fun _ => k))
  (at level 61, right associativity).

Definition get_obj : M Driver := fun m => (obj m, m).
Definition modify_hw (f : World -> World) : M unit :=
  fun m => (tt, {| obj := obj m; hw := f (hw m) |}).

Definition exec {A} (c : M A) (m : Machine) : Machine := snd (c m).
Definition eval {A} (c : M A) (m : Machine) : A := fst (c m).

(** Assignments to member variables. *)
Definition set_pins (ce_ csn_ : Z) (d : Driver) : Driver :=
  {| cePin := ce_; csnPin := csn_; netmask := netmask d;
     ownAddress := ownAddress d; previousRXAddress := previousRXAddress d;
     previousTXAddress := previousTXAddress d; previousPipe := previousPipe d;
     numPipes := numPipes d; listening := listening d;
     ackEnabled := ackEnabled d |}.
Definition set_netmask (v : Z) (d : Driver) : Driver :=
  {| cePin := cePin d; csnPin := csnPin d; netmask := v;
     ownAddress := ownAddress d; previousRXAddress := previousRXAddress d;
     previousTXAddress := previousTXAddress d; previousPipe := previousPipe d;
     numPipes := numPipes d; listening := listening d;
     ackEnabled := ackEnabled d |}.
Definition set_ownAddress (v : Z) (d : Driver) : Driver :=
  {| cePin := cePin d; csnPin := csnPin d; netmask := netmask d;
     ownAddress := v; previousRXAddress := previousRXAddress d;
     previousTXAddress := previousTXAddress d; previousPipe := previousPipe d;
     numPipes := numPipes d; listening := listening d;
     ackEnabled := ackEnabled d |}.
Definition set_previousRXAddress (v : Z) (d : Driver) : Driver :=
  {| cePin := cePin d; csnPin := csnPin d; netmask := netmask d;
     ownAddress := ownAddress d; previousRXAddress := v;
     previousTXAddress := previousTXAddress d; previousPipe := previousPipe d;
     numPipes := numPipes d; listening := listening d;
     ackEnabled := ackEnabled d |}.
Definition set_previousTXAddress (v : Z) (d : Driver) : Driver :=
  {| cePin := cePin d; csnPin := csnPin d; netmask := netmask d;
     ownAddress := ownAddress d; previousRXAddress := previousRXAddress d;
     previousTXAddress := v; previousPipe := previousPipe d;
     numPipes := numPipes d; listening := listening d;
     ackEnabled := ackEnabled d |}.
Definition set_previousPipe (v : Z) (d : Driver) : Driver :=
  {| cePin := cePin d; csnPin := csnPin d; netmask := netmask d;
     ownAddress := ownAddress d; previousRXAddress := previousRXAddress d;
     previousTXAddress := previousTXAddress d; previousPipe := v;
     numPipes := numPipes d; listening := listening d;
     ackEnabled := ackEnabled d |}.
Definition set_numPipes (v : Z) (d : Driver) : Driver :=
  {| cePin := cePin d; csnPin := csnPin d; netmask := netmask d;
     ownAddress := ownAddress d; previousRXAddress := previousRXAddress d;
     previousTXAddress := previousTXAddress d; previousPipe := previousPipe d;
     numPipes := v; listening := listening d;
     ackEnabled := ackEnabled d |}.
Definition set_listening (v : bool) (d : Driver) : Driver :=
  {| cePin := cePin d; csnPin := csnPin d; netmask := netmask d;
     ownAddress := ownAddress d; previousRXAddress := previousRXAddress d;
     previousTXAddress := previousTXAddress d; previousPipe := previousPipe d;
     numPipes := numPipes d; listening := v;
     ackEnabled := ackEnabled d |}.
Definition set_ackEnabled (v : bool) (d : Driver) : Driver :=
  {| cePin := cePin d; csnPin := csnPin d; netmask := netmask d;
     ownAddress := ownAddress d; previousRXAddress := previousRXAddress d;
     previousTXAddress := previousTXAddress d; previousPipe := previousPipe d;
     numPipes := numPipes d; listening := listening d;
     ackEnabled := v |}.

Definition assign (f : Driver -> Driver) : M unit :=
  fun m => (tt, {| obj := f (obj m); hw := hw m |}).

(** ** The hardware primitives

    Modelled from the spec: [ceLow], [ceHigh], [ceIsHigh], [csnLow] and
    [csnHigh] are inline members declared in the missing header; the spec
    describes one enable line whose electrical state is also readable and
    one select line framing each bus transaction. *)

Definition emit (e : Event) (w : World) : World :=
  {| ce := ce w; csn := csn w; sel := sel w; log := e :: log w;
     miso := miso w; xfers := xfers w; clock := clock w; ticks := ticks w |}.

Definition drive_ce (b : bool) (w : World) : World :=
  {| ce := b; csn := csn w; sel := sel w; log := EvCE b :: log w;
     miso := miso w; xfers := xfers w; clock := clock w; ticks := ticks w |}.

Definition select (w : World) : World :=
  {| ce := ce w; csn := false; sel := []; log := log w;
     miso := miso w; xfers := xfers w; clock := clock w; ticks := ticks w |}.

Definition deselect (w : World) : World :=
  {| ce := ce w; csn := true; sel := [];
     log := EvFrame (rev (sel w)) :: log w;
     miso := miso w; xfers := xfers w; clock := clock w; ticks := ticks w |}.

Definition clock_out (b : Z) (w : World) : World :=
  {| ce := ce w; csn := csn w; sel := b :: sel w; log := log w;
     miso := miso w; xfers := S (xfers w); clock := clock w; ticks := ticks w |}.

Definition tick (w : World) : World :=
  {| ce := ce w; csn := csn w; sel := sel w; log := log w;
     miso := miso w; xfers := xfers w; clock := clock w; ticks := S (ticks w) |}.

Definition ceLow : M unit := modify_hw (drive_ce false).
Definition ceHigh : M unit := modify_hw (drive_ce true).
Definition ceIsHigh : M bool := fun m => (ce (hw m), m).
Definition csnLow : M unit := modify_hw select.
Definition csnHigh : M unit := modify_hw deselect.

(** [SPI.transfer(b)]: sends [b], returns the byte the chip sends back. *)
Definition SPI_transfer (b : Z) : M Z :=
  fun m => (u8 (miso (hw m) (xfers (hw m))),
            {| obj := obj m; hw := clock_out b (hw m) |}).

(** [millis()]: milliseconds since start, a 32-bit counter. *)
Definition millis : M Z :=
  fun m => (u32 (clock (hw m) (ticks (hw m))),
            {| obj := obj m; hw := tick (hw m) |}).

Definition pinMode_OUTPUT (pin : Z) : M unit := modify_hw (emit (EvPinMode pin)).
Definition SPI_begin : M unit := modify_hw (emit EvSpiBegin).
Definition SPI_setClockDivider_DIV4 : M unit := modify_hw (emit EvSpiClockDiv4).
Definition delay (ms : Z) : M unit := modify_hw (emit (EvDelay ms)).
Definition delayMicroseconds (us : Z) : M unit :=
  modify_hw (emit (EvDelayMicroseconds us)).

(** [while (n--) SPI.transfer( *p++ )]: a read past the end of [p] is
    undefined in C and reads 0 here. *)
Fixpoint transferBytes (n : nat) (p : list Z) : M unit :=
  match n with
  | O => ret tt
  | S n' => SPI_transfer (hd 0 p) ;; transferBytes n' (tl p)
  end.

(** [while (n--) *p++ = SPI.transfer(NOP)]: returns the bytes stored. *)
Fixpoint receiveBytes (nop : Z) (n : nat) : M (list Z) :=
  match n with
  | O => ret []
  | S n' => b <- SPI_transfer nop ;; bs <- receiveBytes nop n' ;; ret (b :: bs)
  end.

Section DriverCode.

Variable h : Header.

(** ** Register access (private members) *)

Definition readRegister (reg : Z) : M Z :=
  csnLow ;;
  SPI_transfer (R_REGISTER h .| reg) ;;
  result <- SPI_transfer (NOP h) ;;
  csnHigh ;;
  ret result.

Definition writeRegister (reg value : Z) : M unit :=
  csnLow ;;
  SPI_transfer (W_REGISTER h .| (REGISTER_MASK h .& reg)) ;;
  SPI_transfer value ;;
  csnHigh.

Definition writeRegisterN (reg : Z) (value : list Z) (numBytes : Z) : M unit :=
  csnLow ;;
  SPI_transfer (W_REGISTER h .| (REGISTER_MASK h .& reg)) ;;
  transferBytes (Z.to_nat numBytes) value ;;
  csnHigh.

Definition flushTX : M unit :=
  csnLow ;; SPI_transfer (FLUSH_TX h) ;; csnHigh.

Definition flushRX : M unit :=
  csnLow ;; SPI_transfer (FLUSH_RX h) ;; csnHigh.

(** ** Addressing *)

(** [assembleFullAddress(address, buf)]: the five bytes left in [buf]. *)
Definition assembleFullAddress (nm address : Z) : list Z :=
  [ address;
    (nm .>> 0) .& 0xFF;
    (nm .>> 8) .& 0xFF;
    (nm .>> 16) .& 0xFF;
    (nm .>> 24) .& 0xFF ].

Definition assembleFullAddressM (address : Z) : M (list Z) :=
  d <- get_obj ;; ret (assembleFullAddress (netmask d) address).

(** ** Configuration setters *)

Definition setChannel (channel : Z) : M unit :=
  writeRegister (RF_CH h) (channel .& 0x7F).

Definition getChannel : M Z :=
  v <- readRegister (RF_CH h) ;; ret (v .& 0x7F).

Definition setDataRate (dataRate : nrf24_datarate_e) : M unit :=
  rfSetup <- readRegister (RF_SETUP h) ;;
  let rfSetup := u8 (rfSetup .& .~ (RF_DR_HIGH h .| RF_DR_LOW h)) in
  let rfSetup :=
    match dataRate with
    | NRF24_250KBPS => u8 (rfSetup .| RF_DR_LOW h)
    | NRF24_2MBPS => u8 (rfSetup .| RF_DR_HIGH h)
    | NRF24_1MBPS => rfSetup
    end in
  writeRegister (RF_SETUP h) rfSetup.

Definition setPowerAmplificationLevel (level : nrf24_pa_level_e) : M unit :=
  rfSetup <- readRegister (RF_SETUP h) ;;
  let rfSetup := u8 (rfSetup .& .~ 0x6) in
  let rfSetup :=
    match level with
    | NRF24_PA_MID => u8 (rfSetup .| RF_PA_LOW h)
    | NRF24_PA_HIGH => u8 (rfSetup .| RF_PA_HIGH h)
    | NRF24_PA_MAX => u8 (rfSetup .| (RF_PA_LOW h .| RF_PA_HIGH h))
    | NRF24_PA_MIN => rfSetup
    end in
  writeRegister (RF_SETUP h) rfSetup.

Definition setRetries (delay_ count : Z) : M unit :=
  let delay_ := if 0xF <? delay_ then 0xF else delay_ in
  let count := if 0xF <? count then 0xF else count in
  writeRegister (SETUP_RETR h) (u8 ((delay_ .<< 4) .| count)).

Definition setCRCMode (mode : nrf24_crc_mode_e) : M unit :=
  config <- readRegister (CONFIG h) ;;
  let config := u8 (config .& .~ EN_CRC h) in
  let config := u8 (config .& .~ CRCO h) in
  match mode with
  | NRF24_NO_CRC => ret tt
  | _ =>
      let config := u8 (config .| EN_CRC h) in
      let config :=
        match mode with
        | NRF24_CRC_16BIT => u8 (config .| CRCO h)
        | _ => config
        end in
      writeRegister (CONFIG h) config
  end.

Definition setACKEnabled (ack : bool) : M unit :=
  assign (set_ackEnabled ack).

(** ** Mode control *)

Definition setActive (active : bool) : M unit :=
  config <- readRegister (CONFIG h) ;;
  let config := u8 (config .& .~ PWR_UP h) in
  let config := if active then u8 (config .| PWR_UP h) else config in
  writeRegister (CONFIG h) config ;;
  delayMicroseconds 1500.

Definition getActive : M bool :=
  v <- readRegister (CONFIG h) ;; ret (to_bool (v .& PWR_UP h)).

(** [if (!config & PWR_UP)]: the negation binds tighter than the mask. *)
Definition getCurrentMode : M nrf24_mode_e :=
  config <- readRegister (CONFIG h) ;;
  if to_bool (lnot_int config .& PWR_UP h) then ret NRF24_MODE_POWER_DOWN
  else
    high <- ceIsHigh ;;
    if negb high then ret NRF24_MODE_STANDBY1
    else if to_bool (config .& PRIM_RX h) then ret NRF24_MODE_RX
    else
      fifo <- readRegister (FIFO_STATUS h) ;;
      let fifoEmpty := u8 (fifo .& TX_EMPTY h) in
      if to_bool fifoEmpty then ret NRF24_MODE_STANDBY2
      else ret NRF24_MODE_TX.

Definition startListening : M unit :=
  config <- readRegister (CONFIG h) ;;
  writeRegister (CONFIG h) (u8 (config .| PRIM_RX h .| PWR_UP h)) ;;
  writeRegister (STATUS h) (u8 (RX_DR h .| TX_DS h .| MAX_RT h)) ;;
  d <- get_obj ;;
  (if negb (previousRXAddress d =? ownAddress d) then
     writeRegisterN (RX_ADDR_P0 h)
       (assembleFullAddress (netmask d) (ownAddress d)) 5 ;;
     assign (set_previousRXAddress (ownAddress d))
   else ret tt) ;;
  ceHigh ;;
  flushRX ;;
  flushTX ;;
  assign (set_listening true).

Definition stopListening : M unit :=
  config <- readRegister (CONFIG h) ;;
  writeRegister (CONFIG h) (u8 (config .& .~ PRIM_RX h .& .~ PWR_UP h)) ;;
  ceLow ;;
  flushRX ;;
  flushTX ;;
  assign (set_listening false).

(** ** Pipes *)

Definition setAddress (address : Z) : M unit :=
  assign (set_ownAddress address) ;;
  buf <- assembleFullAddressM address ;;
  writeRegisterN (RX_ADDR_P0 h) buf 5 ;;
  assign (set_previousRXAddress address) ;;
  v <- readRegister (EN_RXADDR h) ;;
  writeRegister (EN_RXADDR h) (u8 (v .| 0x01)).

(** Returns [-1] when all five extra pipes are taken. *)
Definition listenToAddress (address : Z) : M Z :=
  d <- get_obj ;;
  if 5 <=? numPipes d then ret (-1)
  else
    let pipeIndex := u8 (numPipes d + 1) in
    (if pipeIndex <=? 1 then
       buf <- assembleFullAddressM address ;;
       writeRegisterN (RX_ADDR_P0 h + pipeIndex) buf 5
     else
       writeRegister (RX_ADDR_P0 h + pipeIndex) address) ;;
    v <- readRegister (EN_RXADDR h) ;;
    writeRegister (EN_RXADDR h) (u8 (v .| (1 .<< pipeIndex))) ;;
    startListening ;;
    d' <- get_obj ;;
    assign (set_numPipes (numPipes d' + 1)) ;;
    ret (numPipes d').

(** ** Receiving *)

Definition available : M (Z * option Z) :=
  status <- readRegister (STATUS h) ;;
  if to_bool (status .& RX_DR h) then
    n <- readRegister (R_RX_PL_WID h) ;;
    ret (n, Some ((status .>> RX_P_NO h) .& 0x3))
  else ret (0, None).

(** [read(buf, bufferSize)]: the value returned and the bytes stored
    into [buf], in order.  The test [*(buf - payloadSize) == 0] after the
    transfer has an empty body and no effect; it is left out. *)
Definition read (bufferSize : Z) : M (Z * list Z) :=
  ceLow ;;
  payloadSize <- readRegister (R_RX_PL_WID h) ;;
  let bufferSize := if payloadSize <? bufferSize then payloadSize else bufferSize in
  csnLow ;;
  SPI_transfer (R_RX_PAYLOAD h) ;;
  stored <- receiveBytes (NOP h) (Z.to_nat bufferSize) ;;
  csnHigh ;;
  status <- readRegister (STATUS h) ;;
  writeRegister (STATUS h) (u8 (status .| RX_DR h)) ;;
  ceHigh ;;
  ret (payloadSize, stored).

(** ** Acknowledgment payloads *)

Definition queueResponse (data : list Z) (length : Z) : M bool :=
  let length := if 32 <? length then 32 else length in
  d <- get_obj ;;
  let wasListening := listening d in
  (if negb (listening d) then startListening else ret tt) ;;
  fifo <- readRegister (FIFO_STATUS h) ;;
  if to_bool (fifo .& TX_FULL_FIFO h) then ret false
  else
    csnLow ;;
    SPI_transfer (W_ACK_PAYLOAD h) ;;
    transferBytes (Z.to_nat length) data ;;
    csnHigh ;;
    (if negb wasListening then stopListening else ret tt) ;;
    ret true.

(** ** Transmitting *)

Definition timeout : Z := 500.

(** Lines 575-613: addresses, interrupt flags, snapshot of the mode,
    switch to PTX.  Returns [(wasActive, wasListening)]. *)
Definition transmit_setup (targetAddress : Z) (ack : bool) : M (bool * bool) :=
  d <- get_obj ;;
  (if negb (previousTXAddress d =? targetAddress) then
     writeRegisterN (TX_ADDR h) (assembleFullAddress (netmask d) targetAddress) 5 ;;
     assign (set_previousTXAddress targetAddress)
   else ret tt) ;;
  d <- get_obj ;;
  (if ack && negb (previousRXAddress d =? targetAddress) then
     writeRegisterN (RX_ADDR_P0 h) (assembleFullAddress (netmask d) targetAddress) 5 ;;
     assign (set_previousRXAddress targetAddress)
   else ret tt) ;;
  status <- readRegister (STATUS h) ;;
  writeRegister (STATUS h) (u8 (status .| RX_DR h .| TX_DS h .| MAX_RT h)) ;;
  config <- readRegister (CONFIG h) ;;
  let wasActive := to_bool (config .& PWR_UP h) in
  d <- get_obj ;;
  let wasListening := listening d in
  ceLow ;;
  let config := u8 (config .| PWR_UP h) in
  let config := u8 (config .& .~ PRIM_RX h) in
  writeRegister (CONFIG h) config ;;
  (if negb wasActive then delay 2 else ret tt) ;;
  ret (wasActive, wasListening).

(** Lines 616-632: the payload frame, then the enable line goes high. *)
Definition transmit_load (data : list Z) (length : Z) (ack : bool) : M unit :=
  csnLow ;;
  (if ack then SPI_transfer (W_TX_PAYLOAD h)
   else SPI_transfer (W_TX_PAYLOAD_NO_ACK h)) ;;
  transferBytes (Z.to_nat length) data ;;
  csnHigh ;;
  ceHigh.

(** One turn of the [do ... while] body: a status read by a bare NOP. *)
Definition pollOnce : M Z :=
  csnLow ;; status <- SPI_transfer (NOP h) ;; csnHigh ;; ret status.

(** Lines 652-664.  The loop may run for ever, so it is given fuel: at most
    [fuel] status reads.  Returns [(txComplete, maxRetriesPassed)]. *)
Fixpoint pollStatus (fuel : nat) (txStarted : Z) (m : Machine)
  : option (bool * bool * Machine) :=
  match fuel with
  | O => None
  | S fuel' =>
      let (status, m1) := pollOnce m in
      if to_bool (status .& TX_DS h) then Some (true, false, m1)
      else if to_bool (status .& MAX_RT h) then Some (false, true, m1)
      else
        let (now, m2) := millis m1 in
        if now <? u32 (txStarted + timeout) then pollStatus fuel' txStarted m2
        else Some (false, false, m2)
  end.

(** Lines 673-684. *)
Definition transmit_restore (wasActive wasListening : bool) : M unit :=
  ceLow ;;
  if negb wasActive then setActive false
  else if wasListening then startListening
  else ret tt.

Definition transmit (fuel : nat) (targetAddress : Z) (data : list Z)
    (length : Z) (ack : bool) (m : Machine) : option (bool * Machine) :=
  if length =? 0 then Some (false, m)
  else
    let length := if 32 <? length then 32 else length in
    let '(wasActive, wasListening, m1) := transmit_setup targetAddress ack m in
    let m2 := exec (transmit_load data length ack) m1 in
    let (txStarted, m3) := millis m2 in
    match pollStatus fuel txStarted m3 with
    | None => None
    | Some (txComplete, _, m4) =>
        Some (txComplete, exec (transmit_restore wasActive wasListening) m4)
    end.

Definition broadcast (fuel : nat) (data : list Z) (length : Z) (m : Machine)
  : option (bool * Machine) :=
  transmit fuel (ownAddress (obj m)) data length false m.

(** [send] with [numAttempts == NULL]. *)
Definition send (fuel : nat) (targetAddress : Z) (data : list Z) (length : Z)
    (m : Machine) : option (bool * Machine) :=
  transmit fuel targetAddress data length (ackEnabled (obj m)) m.

(** ** Initialisation *)

Definition begin (cePin_ csnPin_ netmask_ : Z) : M bool :=
  pinMode_OUTPUT cePin_ ;;
  pinMode_OUTPUT csnPin_ ;;
  assign (set_pins cePin_ csnPin_) ;;
  SPI_begin ;;
  SPI_setClockDivider_DIV4 ;;
  csnHigh ;;
  ceLow ;;
  assign (set_netmask netmask_) ;;
  delay 100 ;;
  setRetries 15 15 ;;
  setPowerAmplificationLevel NRF24_PA_MAX ;;
  setDataRate NRF24_2MBPS ;;
  setCRCMode NRF24_CRC_16BIT ;;
  setChannel 76 ;;
  writeRegister (ACTIVATE h) 0x73 ;;
  feature <- readRegister (FEATURE h) ;;
  writeRegister (FEATURE h)
    (u8 (feature .| EN_DPL h .| EN_ACK_PAY h .| EN_DYN_ACK h)) ;;
  writeRegister (EN_AA h)
    (u8 (ENAA_P0 h .| ENAA_P1 h .| ENAA_P2 h .| ENAA_P3 h .| ENAA_P4 h .| ENAA_P5 h)) ;;
  writeRegister (DYNPD h)
    (u8 (DPL_P0 h .| DPL_P1 h .| DPL_P2 h .| DPL_P3 h .| DPL_P4 h .| DPL_P5 h)) ;;
  writeRegister (SETUP_AW h) 0x3 ;;
  status <- readRegister (STATUS h) ;;
  writeRegister (STATUS h) (u8 (status .| RX_DR h .| TX_DS h .| MAX_RT h)) ;;
  setActive false ;;
  assign (set_previousPipe (-1)) ;;
  assign (set_numPipes 0) ;;
  assign (set_previousTXAddress 0) ;;
  setACKEnabled true ;;
  flushRX ;;
  flushTX ;;
  ret false.

End DriverCode.

(** ** Reading the log *)

(** The address bytes as the spec describes their decomposition: byte 0 is
    the node address, bytes 1 to 4 the network mask, least significant
    byte first.  The driver has no such function; it is the inverse the
    round-trip property of the spec speaks of. *)
Definition decomposeAddress (buf : list Z) : option (Z * Z) :=
  match buf with
  | [b0; b1; b2; b3; b4] =>
      Some (b0, b1 .| (b2 .<< 8) .| (b3 .<< 16) .| (b4 .<< 24))
  | _ => None
  end.

(** The state table of the spec: the mode as a function of the power
    bit, the enable line, the receive-mode bit and the TX-queue-empty
    flag. *)
Definition mode_table (pwr_up ce_high prim_rx tx_empty : bool) : nrf24_mode_e :=
  if negb pwr_up then NRF24_MODE_POWER_DOWN
  else if negb ce_high then NRF24_MODE_STANDBY1
  else if prim_rx then NRF24_MODE_RX
  else if tx_empty then NRF24_MODE_STANDBY2
  else NRF24_MODE_TX.

(** The bytes [while (n--) ... *p++] reads from [p]. *)
Fixpoint fetch (n : nat) (p : list Z) : list Z :=
  match n with
  | O => []
  | S n' => hd 0 p :: fetch n' (tl p)
  end.

(** The world after one complete bus transaction sending [bytes]. *)
Definition framed (bytes : list Z) (w : World) : World :=
  {| ce := ce w; csn := true; sel := []; log := EvFrame bytes :: log w;
     miso := miso w; xfers := (length bytes + xfers w)%nat;
     clock := clock w; ticks := ticks w |}.

Definition on_hw (f : World -> World) (m : Machine) : Machine :=
  {| obj := obj m; hw := f (hw m) |}.

Definition on_obj (f : Driver -> Driver) (m : Machine) : Machine :=
  {| obj := f (obj m); hw := hw m |}.

(** The chip's answer to the [k]-th transfer from now. *)
Definition answer (m : Machine) (k : nat) : Z :=
  u8 (miso (hw m) (k + xfers (hw m))%nat).

(** A test bench: a driver object with every member zero, an idle bus,
    and a chip and a timer that answer from the given functions. *)
Definition blank : Driver :=
  {| cePin := 0; csnPin := 0; netmask := 0; ownAddress := 0;
     previousRXAddress := 0; previousTXAddress := 0; previousPipe := 0;
     numPipes := 0; listening := false; ackEnabled := false |}.

Definition bench (answers : nat -> Z) (time : nat -> Z) : Machine :=
  {| obj := blank;
     hw := {| ce := false; csn := true; sel := []; log := [];
              miso := answers; xfers := 0; clock := time; ticks := 0 |} |}.

(** A caller that assigns listeners for [addrs] one after the other and
    collects what [listenToAddress] returned. *)
Fixpoint listenAll (h : Header) (addrs : list Z) (m : Machine)
  : list Z * Machine :=
  match addrs with
  | [] => ([], m)
  | a :: rest =>
      let (r, m1) := listenToAddress h a m in
      let (rs, m2) := listenAll h rest m1 in
      (r :: rs, m2)
  end.

(** What [startListening] does to the driver object and to the world when
    CONFIG was read as [config]. *)
Definition listening_obj (d : Driver) : Driver :=
  set_listening true
    (if negb (previousRXAddress d =? ownAddress d)
     then set_previousRXAddress (ownAddress d) d else d).

Definition listening_hw (h : Header) (d : Driver) (config : Z) (w : World) : World :=
  framed [FLUSH_TX h]
    (framed [FLUSH_RX h]
       (drive_ce true
          ((if negb (previousRXAddress d =? ownAddress d)
            then framed ((W_REGISTER h .| (REGISTER_MASK h .& RX_ADDR_P0 h))
                           :: assembleFullAddress (netmask d) (ownAddress d))
            else fun w => w)
             (framed [W_REGISTER h .| (REGISTER_MASK h .& STATUS h);
                      u8 (RX_DR h .| TX_DS h .| MAX_RT h)]
                (framed [W_REGISTER h .| (REGISTER_MASK h .& CONFIG h);
                         u8 (config .| PRIM_RX h .| PWR_UP h)]
                   (framed [R_REGISTER h .| CONFIG h; NOP h] w)))))).

(** *** The polling loop, as seen from outside *)

(** Whether a flag is raised in a status byte. *)
Definition flag (mask status : Z) : bool := to_bool (status .& mask).

(** The status byte of the [i]-th poll and the timer value of the [i]-th
    check of a loop entered in machine [m] (counting from 0). *)
Definition status_at (m : Machine) (i : nat) : Z := answer m i.
Definition time_at (m : Machine) (i : nat) : Z :=
  u32 (clock (hw m) (i + ticks (hw m))%nat).

Inductive ExitCause : Type := TxDone | MaxRetries | Watchdog.

(** The loop goes round again after poll [i]. *)
Definition keeps_polling (h : Header) (m : Machine) (txStarted : Z) (i : nat) : Prop :=
  flag (TX_DS h) (status_at m i) = false /\
  flag (MAX_RT h) (status_at m i) = false /\
  time_at m i < u32 (txStarted + timeout).

(** The loop leaves after poll [n], and why. *)
Definition exits_with (h : Header) (m : Machine) (txStarted : Z) (n : nat)
    (cause : ExitCause) : Prop :=
  match cause with
  | TxDone => flag (TX_DS h) (status_at m n) = true
  | MaxRetries =>
      flag (TX_DS h) (status_at m n) = false /\
      flag (MAX_RT h) (status_at m n) = true
  | Watchdog =>
      flag (TX_DS h) (status_at m n) = false /\
      flag (MAX_RT h) (status_at m n) = false /\
      u32 (txStarted + timeout) <= time_at m n
  end.

Definition poll_run (h : Header) (m : Machine) (txStarted : Z) (n : nat)
    (cause : ExitCause) : Prop :=
  (forall i, (i < n)%nat -> keeps_polling h m txStarted i) /\
  exits_with h m txStarted n cause.

(** The world after [polls] status polls and [checks] timer checks. *)
Definition polled (h : Header) (polls checks : nat) (w : World) : World :=
  {| ce := ce w; csn := (match polls with O => csn w | S _ => true end);
     sel := (match polls with O => sel w | S _ => [] end);
     log := repeat (EvFrame [NOP h]) polls ++ log w;
     miso := miso w; xfers := (polls + xfers w)%nat;
     clock := clock w; ticks := (checks + ticks w)%nat |}.

Definition after_poll (h : Header) (n : nat) (cause : ExitCause) (m : Machine)
  : Machine :=
  on_hw (polled h (S n) (match cause with Watchdog => S n | _ => n end)) m.

Definition txComplete_of (cause : ExitCause) : bool :=
  match cause with TxDone => true | _ => false end.
Definition maxRetriesPassed_of (cause : ExitCause) : bool :=
  match cause with MaxRetries => true | _ => false end.

(** The machine in which [transmit] enters its polling loop, and the
    reading of [millis()] it starts from (payload length between 1
    and 32). *)
Definition poll_entry (h : Header) (targetAddress : Z) (data : list Z)
    (length : Z) (ack : bool) (m : Machine) : Z * Machine :=
  millis (exec (transmit_load h data length ack)
            (snd (transmit_setup h targetAddress ack m))).

(** The loop condition of [transmit] fails after poll [i]. *)
Definition stops (h : Header) (m : Machine) (txStarted : Z) (i : nat) : bool :=
  flag (TX_DS h) (status_at m i) || flag (MAX_RT h) (status_at m i)
  || negb (time_at m i <? u32 (txStarted + timeout)).

(** Why the loop leaves after a poll at which it [stops]. *)
Definition cause_at (h : Header) (m : Machine) (i : nat) : ExitCause :=
  if flag (TX_DS h) (status_at m i) then TxDone
  else if flag (MAX_RT h) (status_at m i) then MaxRetries
  else Watchdog.

(** The machine a call left behind, or [dflt] when it ran out of fuel. *)
Definition machine_of (o : option (bool * Machine)) (dflt : Machine) : Machine :=
  match o with Some (_, m') => m' | None => dflt end.

(** What [stopListening] does to the world when CONFIG was read as
    [config]. *)
Definition stopped_hw (h : Header) (config : Z) (w : World) : World :=
  framed [FLUSH_TX h]
    (framed [FLUSH_RX h]
       (drive_ce false
          (framed [W_REGISTER h .| (REGISTER_MASK h .& CONFIG h);
                   u8 (config .& .~ PRIM_RX h .& .~ PWR_UP h)]
             (framed [R_REGISTER h .| CONFIG h; NOP h] w)))).

(** The machine in which [queueResponse] checks the queue-full flag. *)
Definition queue_entry (h : Header) (m : Machine) : Machine :=
  if listening (obj m) then m else exec (startListening h) m.

(** *** Reading frames back from the log *)

(** The command bytes of register writes and reads. *)
Definition wcmd (h : Header) (reg : Z) : Z :=
  W_REGISTER h .| (REGISTER_MASK h .& reg).
Definition rcmd (h : Header) (reg : Z) : Z := R_REGISTER h .| reg.

(** The bodies of the frames whose command byte satisfies [p], newest
    first. *)
Fixpoint frames_where (p : Z -> bool) (l : list Event) : list (list Z) :=
  match l with
  | [] => []
  | EvFrame (c :: body) :: l' =>
      if p c then body :: frames_where p l' else frames_where p l'
  | _ :: l' => frames_where p l'
  end.

(** The payloads loaded into the transmit queue, newest first. *)
Definition is_tx_payload (h : Header) (c : Z) : bool :=
  (c =? W_TX_PAYLOAD h) || (c =? W_TX_PAYLOAD_NO_ACK h).
Definition payloads (h : Header) (l : list Event) : list (list Z) :=
  frames_where (is_tx_payload h) l.

(** The bytes last written to register [reg], if it was written. *)
Definition programmed (h : Header) (reg : Z) (l : list Event) : option (list Z) :=
  hd_error (frames_where (fun c => c =? wcmd h reg) l).

(** The command bytes [transmit] sends besides the payload command. *)
Definition transmit_commands (h : Header) : list Z :=
  [ wcmd h (TX_ADDR h); wcmd h (RX_ADDR_P0 h);
    rcmd h (STATUS h); wcmd h (STATUS h);
    rcmd h (CONFIG h); wcmd h (CONFIG h);
    NOP h; FLUSH_RX h; FLUSH_TX h ].

(** No other command of [transmit] can be taken for a payload command. *)
Definition payload_commands_apart (h : Header) : bool :=
  forallb (fun c => negb (is_tx_payload h c)) (transmit_commands h).

(** What [transmit_setup] does to the driver object and to the world. *)
Definition setup_obj (targetAddress : Z) (ack : bool) (d : Driver) : Driver :=
  let d1 := if negb (previousTXAddress d =? targetAddress)
            then set_previousTXAddress targetAddress d else d in
  if ack && negb (previousRXAddress d =? targetAddress)
  then set_previousRXAddress targetAddress d1 else d1.

Definition setup_addresses (h : Header) (targetAddress : Z) (ack : bool)
    (d : Driver) (w : World) : World :=
  (if ack && negb (previousRXAddress d =? targetAddress)
   then framed (wcmd h (RX_ADDR_P0 h)
                  :: assembleFullAddress (netmask d) targetAddress)
   else fun w => w)
    ((if negb (previousTXAddress d =? targetAddress)
      then framed (wcmd h (TX_ADDR h)
                     :: assembleFullAddress (netmask d) targetAddress)
      else fun w => w) w).

Definition setup_mode (h : Header) (status config : Z) (w : World) : World :=
  (if negb (to_bool (config .& PWR_UP h)) then emit (EvDelay 2) else fun w => w)
    (framed [wcmd h (CONFIG h); u8 (u8 (config .| PWR_UP h) .& .~ PRIM_RX h)]
       (drive_ce false
          (framed [rcmd h (CONFIG h); NOP h]
             (framed [wcmd h (STATUS h);
                      u8 (status .| RX_DR h .| TX_DS h .| MAX_RT h)]
                (framed [rcmd h (STATUS h); NOP h] w))))).

(** What [transmit_load] does to the world. *)
Definition loaded_hw (h : Header) (data : list Z) (length : Z) (ack : bool)
    (w : World) : World :=
  drive_ce true
    (framed ((if ack then W_TX_PAYLOAD h else W_TX_PAYLOAD_NO_ACK h)
               :: fetch (Z.to_nat length) data) w).

(** What [setActive false] does to the world when CONFIG was read as
    [config]. *)
Definition inactive_hw (h : Header) (config : Z) (w : World) : World :=
  emit (EvDelayMicroseconds 1500)
    (framed [wcmd h (CONFIG h); u8 (config .& .~ PWR_UP h)]
       (framed [rcmd h (CONFIG h); NOP h] w)).

(** ** The remaining members of the driver *)

(** [getPowerAmplificationLevel]: the integer that the source casts to
    [nrf24_pa_level_e]; the values of the enumerators are in the missing
    header. *)
Definition getPowerAmplificationLevel (h : Header) : M Z :=
  v <- readRegister h (RF_SETUP h) ;; ret ((v .>> 1) .& 0x3).

(** [send(targetAddress, data, length, numAttempts)] with a non-null
    [numAttempts]: the result and the value stored through the pointer. *)
Definition send_attempts (h : Header) (fuel : nat) (targetAddress : Z)
    (data : list Z) (length : Z) (m : Machine)
  : option (bool * Z * Machine) :=
  match transmit h fuel targetAddress data length (ackEnabled (obj m)) m with
  | None => None
  | Some (sent, m1) =>
      let (observe, m2) := readRegister h (OBSERVE_TX h) m1 in
      Some (sent, u8 (observe .& 0xF), m2)
  end.

(** Conversion of a [uint8_t] to [int8_t]. *)
Definition to_int8 (x : Z) : Z :=
  if u8 x <? 128 then u8 x else u8 x - 256.

(** [send(targetAddress, data, length, responseBuffer, bufferSize,
    numAttempts)]: the result and the bytes stored into
    [responseBuffer].  The source passes NULL on to the inner [send],
    so [numAttempts] is never written. *)
Definition send_response (h : Header) (fuel : nat) (targetAddress : Z)
    (data : list Z) (length : Z) (bufferSize : Z) (m : Machine)
  : option (Z * list Z * Machine) :=
  let m0 := exec (flushRX h) m in
  match send h fuel targetAddress data length m0 with
  | None => None
  | Some (sent, m1) =>
      if negb sent then Some (-1, [], m1)
      else if ackEnabled (obj m1) then
        let (status, m2) := pollOnce h m1 in
        let ackPayloadAvailable := to_bool (status .& RX_DR h) in
        if negb ackPayloadAvailable then Some (0, [], m2)
        else
          let '(n, stored, m3) := read h bufferSize m2 in
          Some (to_int8 n, stored, m3)
      else Some (0, [], m1)
  end.

(** [strlen]: the characters before the first zero.  A string with no
    terminator makes the C function read on past its end; here the count
    stops with the list. *)
Fixpoint strlen (s : list Z) : Z :=
  match s with
  | [] => 0
  | c :: s' => if c =? 0 then 0 else 1 + strlen s'
  end.

(** [send(targetAddress, message)] and [broadcast(message)] for a C
    string: the length, [strlen(message) + 1], is passed as a
    [uint8_t]. *)
Definition send_str (h : Header) (fuel : nat) (targetAddress : Z)
    (message : list Z) (m : Machine) : option (bool * Machine) :=
  send h fuel targetAddress message (u8 (strlen message + 1)) m.

Definition broadcast_str (h : Header) (fuel : nat) (message : list Z)
    (m : Machine) : option (bool * Machine) :=
  broadcast h fuel message (u8 (strlen message + 1)) m.

(** [buf[i] = v]; a store outside the buffer is undefined in C and does
    nothing here. *)
Fixpoint store_at (i : nat) (v : Z) (buf : list Z) : list Z :=
  match buf, i with
  | [], _ => []
  | _ :: rest, O => v :: rest
  | x :: rest, S i' => x :: store_at i' v rest
  end.

(** The buffer after [stored] has been written from its start; what
    would land behind its end is not kept. *)
Definition overlay (stored buf : list Z) : list Z :=
  firstn (List.length buf) stored ++ skipn (List.length stored) buf.

(** [read(char *buf, bufferSize)]: the value returned and the buffer
    afterwards. *)
Definition read_str (h : Header) (buf : list Z) (bufferSize : Z)
  : M (Z * list Z) :=
  r <- read h (u8 (bufferSize - 1)) ;;
  let bytesRead := fst r in
  let buf1 := overlay (snd r) buf in
  ret (bytesRead,
       if 0 <=? bufferSize - 1
       then store_at (Z.to_nat (bufferSize - 1)) 0 buf1 else buf1).

(** [broadcast_P(message)]: the 32 bytes at [message] in program memory
    are copied into a local buffer ([message] lists them; a byte the list
    does not reach is read as 0), and the buffer is broadcast as a string.
    A string of 32 characters or more leaves the buffer without a
    terminator, and [strlen] runs on behind it, which is undefined in C:
    [beyond] lists the bytes it finds there. *)
Definition broadcast_P (h : Header) (fuel : nat) (message beyond : list Z)
    (m : Machine) : option (bool * Machine) :=
  broadcast_str h fuel (fetch 32 message ++ beyond) m.

(** *** Pipe 0 *)

(** The chip's pipe-0 address agrees with the driver's cache of it. *)
Definition pipe0_in_sync (h : Header) (m : Machine) : Prop :=
  programmed h (RX_ADDR_P0 h) (log (hw m)) =
  Some (assembleFullAddress (netmask (obj m)) (previousRXAddress (obj m))).

(** Pipe 0 is programmed, and cached, as the driver's own address. *)
Definition pipe0_is_own (h : Header) (m : Machine) : Prop :=
  programmed h (RX_ADDR_P0 h) (log (hw m)) =
  Some (assembleFullAddress (netmask (obj m)) (ownAddress (obj m))) /\
  previousRXAddress (obj m) = ownAddress (obj m).

(** The command bytes the driver sends other than the write to pipe 0's
    address register. *)
Definition other_commands (h : Header) : list Z :=
  [ rcmd h (CONFIG h); wcmd h (CONFIG h);
    rcmd h (STATUS h); wcmd h (STATUS h);
    rcmd h (EN_RXADDR h); wcmd h (EN_RXADDR h);
    rcmd h (RF_SETUP h); wcmd h (RF_SETUP h);
    rcmd h (RF_CH h); wcmd h (RF_CH h); wcmd h (SETUP_RETR h);
    rcmd h (FIFO_STATUS h); rcmd h (R_RX_PL_WID h);
    wcmd h (TX_ADDR h);
    NOP h; FLUSH_RX h; FLUSH_TX h;
    W_TX_PAYLOAD h; W_TX_PAYLOAD_NO_ACK h; W_ACK_PAYLOAD h; R_RX_PAYLOAD h;
    wcmd h (RX_ADDR_P0 h + 1); wcmd h (RX_ADDR_P0 h + 2);
    wcmd h (RX_ADDR_P0 h + 3); wcmd h (RX_ADDR_P0 h + 4);
    wcmd h (RX_ADDR_P0 h + 5) ].

(** None of them can be taken for a write to pipe 0's address. *)
Definition pipe0_command_apart (h : Header) : bool :=
  forallb (fun c => negb (c =? wcmd h (RX_ADDR_P0 h))) (other_commands h).

(** The calls a program makes on the driver: its public members, and
    [transmit]. *)
Inductive Call : Type :=
  | CallSetAddress (address : Z)
  | CallListenToAddress (address : Z)
  | CallSetChannel (channel : Z)
  | CallGetChannel
  | CallSetDataRate (dataRate : nrf24_datarate_e)
  | CallSetPowerAmplificationLevel (level : nrf24_pa_level_e)
  | CallSetRetries (delay_ count : Z)
  | CallSetCRCMode (mode : nrf24_crc_mode_e)
  | CallSetACKEnabled (ack : bool)
  | CallSetActive (active : bool)
  | CallGetActive
  | CallGetCurrentMode
  | CallStartListening
  | CallStopListening
  | CallBroadcast (fuel : nat) (data : list Z) (length : Z)
  | CallSend (fuel : nat) (targetAddress : Z) (data : list Z) (length : Z)
  | CallTransmit (fuel : nat) (targetAddress : Z) (data : list Z) (length : Z)
      (ack : bool)
  | CallQueueResponse (data : list Z) (length : Z)
  | CallAvailable
  | CallRead (bufferSize : Z)
  | CallBegin (cePin_ csnPin_ netmask_ : Z)
  | CallGetPowerAmplificationLevel
  | CallBroadcastStr (fuel : nat) (message : list Z)
  | CallBroadcastP (fuel : nat) (message beyond : list Z)
  | CallSendAttempts (fuel : nat) (targetAddress : Z) (data : list Z) (length : Z)
  | CallSendResponse (fuel : nat) (targetAddress : Z) (data : list Z)
      (length bufferSize : Z)
  | CallSendStr (fuel : nat) (targetAddress : Z) (message : list Z)
  | CallReadStr (buf : list Z) (bufferSize : Z).

(** The machine after a call; [None] when a transmission ran out of
    fuel. *)
Definition call (h : Header) (c : Call) (m : Machine) : option Machine :=
  match c with
  | CallSetAddress a => Some (exec (setAddress h a) m)
  | CallListenToAddress a => Some (exec (listenToAddress h a) m)
  | CallSetChannel ch => Some (exec (setChannel h ch) m)
  | CallGetChannel => Some (exec (getChannel h) m)
  | CallSetDataRate r => Some (exec (setDataRate h r) m)
  | CallSetPowerAmplificationLevel l =>
      Some (exec (setPowerAmplificationLevel h l) m)
  | CallSetRetries d c => Some (exec (setRetries h d c) m)
  | CallSetCRCMode mode => Some (exec (setCRCMode h mode) m)
  | CallSetACKEnabled b => Some (exec (setACKEnabled b) m)
  | CallSetActive b => Some (exec (setActive h b) m)
  | CallGetActive => Some (exec (getActive h) m)
  | CallGetCurrentMode => Some (exec (getCurrentMode h) m)
  | CallStartListening => Some (exec (startListening h) m)
  | CallStopListening => Some (exec (stopListening h) m)
  | CallBroadcast fuel data len => option_map snd (broadcast h fuel data len m)
  | CallSend fuel t data len => option_map snd (send h fuel t data len m)
  | CallTransmit fuel t data len ack =>
      option_map snd (transmit h fuel t data len ack m)
  | CallQueueResponse data len => Some (exec (queueResponse h data len) m)
  | CallAvailable => Some (exec (available h) m)
  | CallRead n => Some (exec (read h n) m)
  | CallBegin cePin_ csnPin_ netmask_ =>
      Some (exec (begin h cePin_ csnPin_ netmask_) m)
  | CallGetPowerAmplificationLevel =>
      Some (exec (getPowerAmplificationLevel h) m)
  | CallBroadcastStr fuel message =>
      option_map snd (broadcast_str h fuel message m)
  | CallBroadcastP fuel message beyond =>
      option_map snd (broadcast_P h fuel message beyond m)
  | CallSendAttempts fuel t data len =>
      option_map snd (send_attempts h fuel t data len m)
  | CallSendResponse fuel t data len bufferSize =>
      option_map snd (send_response h fuel t data len bufferSize m)
  | CallSendStr fuel t message => option_map snd (send_str h fuel t message m)
  | CallReadStr buf bufferSize => Some (exec (read_str h buf bufferSize) m)
  end.

Fixpoint calls (h : Header) (cs : list Call) (m : Machine) : option Machine :=
  match cs with
  | [] => Some m
  | c :: cs' =>
      match call h c m with
      | Some m' => calls h cs' m'
      | None => None
      end
  end.

(** Pipe 0 agrees with its cache, the count of pipes is not negative and
    the network mask is [nm]. *)
Definition synced (h : Header) (nm : Z) (m : Machine) : Prop :=
  pipe0_in_sync h m /\ 0 <= numPipes (obj m) /\ netmask (obj m) = nm.

(** What every call keeps true once [setAddress] has run, as long as
    [begin] does not change the network mask: the driver is [synced], and
    no bus transaction is left open. *)
Definition steady (h : Header) (nm : Z) (m : Machine) : Prop :=
  synced h nm m /\ sel (hw m) = [].

(** The command bytes of [begin] and of [send] with an attempt count that
    are not among [other_commands]. *)
Definition setup_commands (h : Header) : list Z :=
  [ wcmd h (ACTIVATE h); rcmd h (FEATURE h); wcmd h (FEATURE h);
    wcmd h (EN_AA h); wcmd h (DYNPD h); wcmd h (SETUP_AW h);
    rcmd h (OBSERVE_TX h) ].

(** None of them can be taken for a write to pipe 0's address either. *)
Definition setup_commands_apart (h : Header) : bool :=
  forallb (fun c => negb (c =? wcmd h (RX_ADDR_P0 h))) (setup_commands h).

(** Every [begin] among the calls [cs] gives the network mask [nm]. *)
Definition keeps_mask (nm : Z) (cs : list Call) : bool :=
  forallb (fun c => match c with
                    | CallBegin _ _ netmask_ => netmask_ =? nm
                    | _ => true
                    end) cs.

(** The machine a sequence of calls left behind, or [dflt] when a
    transmission ran out of fuel. *)
Definition after_calls (h : Header) (cs : list Call) (dflt : Machine) : Machine :=
  match calls h cs dflt with Some m' => m' | None => dflt end.

(** The command byte of a write to pipe 0's address register. *)
Definition is_pipe0_write (h : Header) (c : Z) : bool :=
  c =? wcmd h (RX_ADDR_P0 h).

(** A step from [m] to [m'] that writes nothing to pipe 0's address and
    keeps the members the address depends on. *)
Definition pipe0_quiet (h : Header) (m m' : Machine) : Prop :=
  frames_where (is_pipe0_write h) (log (hw m')) =
    frames_where (is_pipe0_write h) (log (hw m)) /\
  netmask (obj m') = netmask (obj m) /\
  ownAddress (obj m') = ownAddress (obj m) /\
  previousRXAddress (obj m') = previousRXAddress (obj m) /\
  numPipes (obj m') = numPipes (obj m).

(** *** Observations used in the statements *)

(** All byte values. *)
Definition bytes256 : list Z := map Z.of_nat (seq 0 256).

(** The byte last written to a one-byte register. *)
Definition written (h : Header) (reg : Z) (m : Machine) : option Z :=
  match programmed h reg (log (hw m)) with
  | Some [v] => Some v
  | _ => None
  end.

(** The number of [listenToAddress] calls in a sequence. *)
Fixpoint listen_calls (cs : list Call) : Z :=
  match cs with
  | [] => 0
  | CallListenToAddress _ :: cs' => 1 + listen_calls cs'
  | _ :: cs' => listen_calls cs'
  end.

(** The calls made after the last [begin] of a sequence, if there is
    one. *)
Fixpoint since_begin (cs : list Call) : option (list Call) :=
  match cs with
  | [] => None
  | c :: cs' =>
      match since_begin cs', c with
      | Some rest, _ => Some rest
      | None, CallBegin _ _ _ => Some cs'
      | None, _ => None
      end
  end.

(** The two-bit code [setPowerAmplificationLevel] stores for a level. *)
Definition pa_code (level : nrf24_pa_level_e) : Z :=
  match level with
  | NRF24_PA_MIN => 0
  | NRF24_PA_MID => 1
  | NRF24_PA_HIGH => 2
  | NRF24_PA_MAX => 3
  end.

(** The snapshot [wasActive] that [transmit] takes of the power bit. *)
Definition was_active (h : Header) (targetAddress : Z) (ack : bool)
    (m : Machine) : bool :=
  fst (fst (transmit_setup h targetAddress ack m)).

(** The driver object after a transmission that found the chip active or
    not ([wa]) and the driver listening or not ([wl]). *)
Definition transmitted_obj (targetAddress : Z) (ack wa wl : bool)
    (d : Driver) : Driver :=
  if wa && wl then listening_obj (setup_obj targetAddress ack d)
  else setup_obj targetAddress ack d.

(** The command bytes [transmit] sends besides the write to TX_ADDR. *)
Definition tx_addr_command_apart (h : Header) : bool :=
  forallb (fun c => negb (c =? wcmd h (TX_ADDR h)))
    [ wcmd h (RX_ADDR_P0 h);
      rcmd h (STATUS h); wcmd h (STATUS h);
      rcmd h (CONFIG h); wcmd h (CONFIG h);
      NOP h; FLUSH_RX h; FLUSH_TX h;
      W_TX_PAYLOAD h; W_TX_PAYLOAD_NO_ACK h ].


(** The members of the driver object that no transmission touches. *)
Definition same_settings (d d' : Driver) : Prop :=
  listening d' = listening d /\
  numPipes d' = numPipes d /\
  ownAddress d' = ownAddress d /\
  netmask d' = netmask d /\
  ackEnabled d' = ackEnabled d.

(** * Properties *)

(** ** Bit-level facts *)

Lemma land_0xFF (x : Z) : x .& 0xFF = x mod 256.
Proof. change 0xFF with (Z.ones 8). now rewrite Z.land_ones. Qed.

Lemma lor_shiftl_add (lo hi k : Z) :
  0 <= k -> 0 <= lo < 2 ^ k -> lo .| (hi .<< k) = lo + hi * 2 ^ k.
Proof.
  intros Hk Hlo.
  assert (Hdisj : lo .& (hi .<< k) = 0).
  { apply Z.bits_inj'; intros n Hn.
    rewrite Z.land_spec, Z.bits_0.
    destruct (Z.lt_ge_cases n k) as [Hlt | Hge].
    - rewrite Z.shiftl_spec_low by assumption. apply andb_false_r.
    - rewrite <- (Z.mod_small lo (2 ^ k)) by assumption.
      rewrite Z.mod_pow2_bits_high by lia. reflexivity. }
  rewrite <- Z.lxor_lor, <- Z.add_nocarry_lxor by assumption.
  now rewrite Z.shiftl_mul_pow2.
Qed.

(** ** Addressing *)

Lemma assembleFullAddress_bytes (m a : Z) :
  assembleFullAddress m a =
  [a; m mod 256; (m / 2 ^ 8) mod 256; (m / 2 ^ 16) mod 256; (m / 2 ^ 24) mod 256].
Proof.
  unfold assembleFullAddress.
  rewrite !land_0xFF, !Z.shiftr_div_pow2 by lia.
  now rewrite Z.pow_0_r, Z.div_1_r.
Qed.

Lemma decompose_assemble (m a : Z) :
  0 <= m < 2 ^ 32 ->
  decomposeAddress (assembleFullAddress m a) = Some (a, m).
Proof.
  intros Hm. rewrite assembleFullAddress_bytes. unfold decomposeAddress.
  do 2 f_equal.
  assert (H0 : 0 <= m mod 256 < 2 ^ 8) by (apply Z.mod_pos_bound; lia).
  assert (H1 : 0 <= (m / 2 ^ 8) mod 256 < 2 ^ 8) by (apply Z.mod_pos_bound; lia).
  assert (H2 : 0 <= (m / 2 ^ 16) mod 256 < 2 ^ 8) by (apply Z.mod_pos_bound; lia).
  assert (H3 : 0 <= (m / 2 ^ 24) mod 256 < 2 ^ 8) by (apply Z.mod_pos_bound; lia).
  rewrite (lor_shiftl_add (m mod 256)) by lia.
  rewrite (lor_shiftl_add _ _ 16) by lia.
  rewrite (lor_shiftl_add _ _ 24) by lia.
  change (2 ^ 8) with 256 in *. change (2 ^ 16) with 65536 in *.
  change (2 ^ 24) with 16777216 in *. change (2 ^ 32) with 4294967296 in *.
  clear H0 H1 H2 H3. Z.div_mod_to_equations. lia.
Qed.

Lemma assemble_decompose (b0 b1 b2 b3 b4 : Z) :
  0 <= b1 < 256 -> 0 <= b2 < 256 -> 0 <= b3 < 256 -> 0 <= b4 < 256 ->
  exists a m, decomposeAddress [b0; b1; b2; b3; b4] = Some (a, m) /\
              0 <= m < 2 ^ 32 /\
              assembleFullAddress m a = [b0; b1; b2; b3; b4].
Proof.
  intros H1 H2 H3 H4. eexists. eexists. split; [reflexivity|].
  rewrite assembleFullAddress_bytes.
  rewrite (lor_shiftl_add b1) by lia.
  rewrite (lor_shiftl_add _ _ 16) by lia.
  rewrite (lor_shiftl_add _ _ 24) by lia.
  change (2 ^ 8) with 256 in *. change (2 ^ 16) with 65536 in *.
  change (2 ^ 24) with 16777216 in *. change (2 ^ 32) with 4294967296 in *.
  split; [lia|].
  repeat f_equal; Z.div_mod_to_equations; lia.
Qed.

(** C2.  For every node address [a] and every 32-bit network mask [m],
    [assembleFullAddress] yields five bytes: byte 0 is [a] and bytes 1 to 4
    are the bytes of [m], least significant first; mask 0xAABBCCDD with
    node 0x02 gives [0x02,0xDD,0xCC,0xBB,0xAA]; and decomposing the five
    bytes gives back the node address and the mask. *)
Theorem assembleFullAddress_layout_roundtrip (a m : Z) :
  0 <= m < 2 ^ 32 ->
  length (assembleFullAddress m a) = 5%nat /\
  nth 0 (assembleFullAddress m a) 0 = a /\
  (forall i : nat, (i < 4)%nat ->
     nth (S i) (assembleFullAddress m a) 0 = (m / 256 ^ Z.of_nat i) mod 256) /\
  assembleFullAddress 0xAABBCCDD 0x02 = [0x02; 0xDD; 0xCC; 0xBB; 0xAA] /\
  decomposeAddress (assembleFullAddress m a) = Some (a, m).
Proof.
  intros Hm. split; [reflexivity|]. split; [reflexivity|].
  split; [|split; [reflexivity | now apply decompose_assemble]].
  intros i Hi. rewrite assembleFullAddress_bytes.
  destruct i as [|[|[|[|i]]]]; try lia; cbn [nth Z.of_nat].
  - now rewrite Z.pow_0_r, Z.div_1_r.
  - reflexivity.
  - reflexivity.
  - reflexivity.
Qed.

Lemma assembleFullAddress_layout_roundtrip_witness :
  0 <= 0xAABBCCDD < 2 ^ 32 /\
  decomposeAddress (assembleFullAddress 0xAABBCCDD 0x02) = Some (0x02, 0xAABBCCDD).
Proof.
  split; [lia|].
  apply (assembleFullAddress_layout_roundtrip 0x02 0xAABBCCDD). lia.
Defined.

(** ** Running the bus primitives *)

Section Runs.

Variable h : Header.

Lemma readRegister_run (reg : Z) (m : Machine) :
  readRegister h reg m =
  (answer m 1, on_hw (framed [R_REGISTER h .| reg; NOP h]) m).
Proof. reflexivity. Qed.

Lemma writeRegister_run (reg value : Z) (m : Machine) :
  writeRegister h reg value m =
  (tt, on_hw (framed [W_REGISTER h .| (REGISTER_MASK h .& reg); value]) m).
Proof. reflexivity. Qed.

Lemma flushRX_run (m : Machine) :
  flushRX h m = (tt, on_hw (framed [FLUSH_RX h]) m).
Proof. reflexivity. Qed.

Lemma flushTX_run (m : Machine) :
  flushTX h m = (tt, on_hw (framed [FLUSH_TX h]) m).
Proof. reflexivity. Qed.

Lemma fetch_firstn (n : nat) (p : list Z) :
  (n <= length p)%nat -> fetch n p = firstn n p.
Proof.
  revert p. induction n as [|n IH]; intros [|x p] Hn; cbn in *;
    try reflexivity; try lia.
  f_equal. apply IH. lia.
Qed.

Lemma fetch_length (n : nat) (p : list Z) : length (fetch n p) = n.
Proof. revert p. induction n; intros p; cbn; auto. Qed.

Lemma transferBytes_run (n : nat) (p : list Z) (m : Machine) :
  transferBytes n p m =
  (tt, on_hw (fun w =>
         {| ce := ce w; csn := csn w; sel := rev (fetch n p) ++ sel w;
            log := log w; miso := miso w; xfers := (n + xfers w)%nat;
            clock := clock w; ticks := ticks w |}) m).
Proof.
  revert p m. induction n as [|n IH]; intros p m.
  - destruct m as [d w]. destruct w. reflexivity.
  - cbn [transferBytes fetch]. unfold bind at 1.
    cbv beta iota delta [SPI_transfer]. rewrite IH.
    unfold on_hw, clock_out. cbn [hw obj ce csn sel log miso xfers clock ticks rev].
    rewrite <- app_assoc, Nat.add_succ_r. reflexivity.
Qed.

Lemma writeRegisterN_run (reg : Z) (value : list Z) (numBytes : Z) (m : Machine) :
  writeRegisterN h reg value numBytes m =
  (tt, on_hw (framed ((W_REGISTER h .| (REGISTER_MASK h .& reg))
                        :: fetch (Z.to_nat numBytes) value)) m).
Proof.
  unfold writeRegisterN, bind, csnLow, csnHigh, modify_hw, SPI_transfer.
  rewrite transferBytes_run.
  unfold on_hw, framed, select, deselect, clock_out.
  cbn [hw obj ce csn sel log miso xfers clock ticks length].
  rewrite rev_app_distr, rev_involutive, fetch_length, Nat.add_succ_r.
  reflexivity.
Qed.

End Runs.

(** ** Mode derivation *)

Lemma lnot_int_land_even (x p : Z) : Z.testbit p 0 = false -> lnot_int x .& p = 0.
Proof.
  intros Hp. unfold lnot_int. destruct (x =? 0).
  - apply Z.bits_inj'; intros n Hn. rewrite Z.land_spec, Z.bits_0.
    destruct (Z.eq_dec n 0) as [-> | Hne].
    + rewrite Hp. apply andb_false_r.
    + change 1 with (2 ^ 0). rewrite Z.pow2_bits_eqb by lia.
      destruct (Z.eqb_spec 0 n); [lia | reflexivity].
  - apply Z.land_0_l.
Qed.

Lemma getCurrentMode_falls_through (h : Header) (m : Machine) :
  Z.testbit (PWR_UP h) 0 = false ->
  eval (getCurrentMode h) m =
  mode_table true (ce (hw m))
    (to_bool (answer m 1 .& PRIM_RX h))
    (to_bool (u8 (answer m 3 .& TX_EMPTY h))).
Proof.
  intros Hp. unfold eval, getCurrentMode, bind at 1.
  rewrite readRegister_run, lnot_int_land_even by assumption.
  cbn [to_bool Z.eqb negb]. unfold bind at 1, ceIsHigh, mode_table.
  cbn [on_hw hw framed ce negb].
  destruct (ce (hw m)); cbn [negb]; [|reflexivity].
  destruct (to_bool (answer m 1 .& PRIM_RX h)); [reflexivity|].
  unfold bind. rewrite readRegister_run.
  unfold answer at 1. cbn [on_hw hw framed xfers miso length].
  replace (1 + (2 + xfers (hw m)))%nat with (3 + xfers (hw m))%nat by lia.
  fold (answer m 3).
  destruct (to_bool (u8 (answer m 3 .& TX_EMPTY h))); reflexivity.
Qed.

(** Whatever mask the header gives the power bit, a CONFIG value other
    than zero is never reported as power-down. *)
Lemma getCurrentMode_nonzero_config (h : Header) (m : Machine) :
  answer m 1 <> 0 -> eval (getCurrentMode h) m <> NRF24_MODE_POWER_DOWN.
Proof.
  intros Hc. unfold eval, getCurrentMode, bind at 1.
  rewrite readRegister_run. unfold lnot_int.
  destruct (Z.eqb_spec (answer m 1) 0) as [|_]; [contradiction|].
  rewrite Z.land_0_l. cbn [to_bool Z.eqb negb].
  unfold bind at 1, ceIsHigh. cbn [on_hw hw framed ce].
  destruct (ce (hw m)); cbn [negb fst ret]; [|discriminate].
  destruct (to_bool _); cbn [fst ret]; [discriminate|].
  unfold bind. rewrite readRegister_run.
  destruct (to_bool _); discriminate.
Qed.

(** C1.  With the power bit at its place in the register map (mask 0x02),
    [getCurrentMode] never reports power-down: [!config & PWR_UP] is zero
    for every CONFIG value, so the mode is the one the state table gives
    for a set power bit, whatever the power bit is.  With CONFIG read as
    0x00 (power bit clear) and the enable line low it reports Standby-I
    where the table says power-down. *)
Theorem getCurrentMode_never_power_down :
  (forall m : Machine,
     eval (getCurrentMode datasheet) m <> NRF24_MODE_POWER_DOWN /\
     eval (getCurrentMode datasheet) m =
       mode_table true (ce (hw m))
         (to_bool (answer m 1 .& PRIM_RX datasheet))
         (to_bool (u8 (answer m 3 .& TX_EMPTY datasheet)))) /\
  (let m := bench (fun _ => 0x00) (fun _ => 0) in
   to_bool (answer m 1 .& PWR_UP datasheet) = false /\
   eval (getCurrentMode datasheet) m = NRF24_MODE_STANDBY1 /\
   mode_table (to_bool (answer m 1 .& PWR_UP datasheet)) (ce (hw m))
     (to_bool (answer m 1 .& PRIM_RX datasheet))
     (to_bool (u8 (answer m 3 .& TX_EMPTY datasheet))) = NRF24_MODE_POWER_DOWN).
Proof.
  split.
  - intros m.
    assert (E := getCurrentMode_falls_through datasheet m eq_refl).
    split; [|exact E]. rewrite E. unfold mode_table. cbn [negb].
    destruct (ce (hw m)); cbn [negb]; [|discriminate].
    destruct (to_bool _); [discriminate|].
    destruct (to_bool _); discriminate.
  - repeat split.
Qed.

(** ** Listening *)

Lemma startListening_run (h : Header) (m : Machine) :
  startListening h m =
  (tt, {| obj := listening_obj (obj m);
          hw := listening_hw h (obj m) (answer m 1) (hw m) |}).
Proof.
  unfold startListening, listening_obj, listening_hw.
  unfold bind at 1. rewrite readRegister_run.
  unfold bind at 1. rewrite writeRegister_run.
  unfold bind at 1. rewrite writeRegister_run.
  unfold bind at 1, get_obj. cbn [on_hw obj hw].
  destruct (negb (previousRXAddress (obj m) =? ownAddress (obj m))).
  - unfold bind at 1. unfold bind at 1. rewrite writeRegisterN_run.
    reflexivity.
  - reflexivity.
Qed.

Lemma numPipes_listening_obj (d : Driver) :
  numPipes (listening_obj d) = numPipes d.
Proof. unfold listening_obj. now destruct (negb _). Qed.

(** ** Pipe assignment *)

Lemma listenToAddress_full (h : Header) (a : Z) (m : Machine) :
  5 <= numPipes (obj m) -> listenToAddress h a m = (-1, m).
Proof.
  intros H. unfold listenToAddress, bind, get_obj.
  destruct (Z.leb_spec 5 (numPipes (obj m))); [reflexivity | lia].
Qed.

Lemma listenToAddress_free (h : Header) (a : Z) (m : Machine) :
  numPipes (obj m) < 5 ->
  exists m', listenToAddress h a m = (numPipes (obj m), m') /\
             numPipes (obj m') = numPipes (obj m) + 1.
Proof.
  intros H. unfold listenToAddress.
  unfold bind at 1. unfold get_obj at 1. cbv beta iota.
  destruct (Z.leb_spec 5 (numPipes (obj m))); [lia|].
  unfold bind at 1.
  set (c := if u8 (numPipes (obj m) + 1) <=? 1 then _ else _).
  assert (Hc : obj (snd (c m)) = obj m).
  { subst c. destruct (_ <=? 1).
    - cbv beta iota delta [bind assembleFullAddressM get_obj ret].
      rewrite writeRegisterN_run. reflexivity.
    - rewrite writeRegister_run. reflexivity. }
  destruct (c m) as [[] m1]. cbn [snd] in Hc.
  unfold bind at 1. rewrite readRegister_run.
  unfold bind at 1. rewrite writeRegister_run.
  unfold bind at 1. rewrite startListening_run.
  cbv beta iota delta [bind get_obj assign ret].
  cbn [obj on_hw hw set_numPipes numPipes].
  rewrite numPipes_listening_obj, Hc. eexists. split; reflexivity.
Qed.

(** C3.  On a freshly initialised driver the first five calls of
    [listenToAddress] return 0, 1, 2, 3, 4 in this order; every later call
    returns -1 and changes nothing: the five pipes stay assigned and the
    bus sees no further traffic. *)
Theorem listenToAddress_five_pipes (h : Header) (cePin_ csnPin_ netmask_ : Z)
    (m0 : Machine) (a1 a2 a3 a4 a5 : Z) (later : list Z) :
  let fresh := exec (begin h cePin_ csnPin_ netmask_) m0 in
  let five := listenAll h [a1; a2; a3; a4; a5] fresh in
  fst five = [0; 1; 2; 3; 4] /\
  numPipes (obj (snd five)) = 5 /\
  listenAll h later (snd five) = (repeat (-1) (length later), snd five) /\
  listenAll h ([a1; a2; a3; a4; a5] ++ later) fresh =
    ([0; 1; 2; 3; 4] ++ repeat (-1) (length later), snd five).
Proof.
  intros fresh five.
  assert (Hfresh : numPipes (obj fresh) = 0) by reflexivity.
  assert (Hfull : forall l m, numPipes (obj m) = 5 ->
            listenAll h l m = (repeat (-1) (length l), m)).
  { induction l as [|a l IH]; intros m Hm; cbn [listenAll repeat length].
    - reflexivity.
    - rewrite listenToAddress_full by lia. now rewrite IH. }
  subst five. cbn [listenAll app].
  destruct (listenToAddress_free h a1 fresh) as (m1 & E1 & N1); [lia|].
  rewrite E1.
  destruct (listenToAddress_free h a2 m1) as (m2 & E2 & N2); [lia|].
  rewrite E2.
  destruct (listenToAddress_free h a3 m2) as (m3 & E3 & N3); [lia|].
  rewrite E3.
  destruct (listenToAddress_free h a4 m3) as (m4 & E4 & N4); [lia|].
  rewrite E4.
  destruct (listenToAddress_free h a5 m4) as (m5 & E5 & N5); [lia|].
  rewrite E5.
  rewrite Hfresh in *. rewrite N1 in *. rewrite N2 in *. rewrite N3 in *.
  rewrite N4 in *. cbn [fst snd Z.add Pos.add Pos.succ] in *.
  rewrite (Hfull later m5) by exact N5.
  repeat split. exact N5.
Qed.

(** ** Initialisation *)

Lemma begin_obj (h : Header) (cePin_ csnPin_ netmask_ : Z) (m : Machine) :
  obj (exec (begin h cePin_ csnPin_ netmask_) m) =
  {| cePin := cePin_; csnPin := csnPin_; netmask := netmask_;
     ownAddress := ownAddress (obj m);
     previousRXAddress := previousRXAddress (obj m);
     previousTXAddress := 0; previousPipe := -1; numPipes := 0;
     listening := listening (obj m); ackEnabled := true |}.
Proof. reflexivity. Qed.

(** C10.  [begin] runs the whole initialisation sequence - pins, bus
    clock, deselect, enable line low, network mask, the 100 ms wait, the
    default retry, power, data-rate, CRC and channel settings, the feature
    unlock, dynamic payloads and auto-acknowledge on all pipes, 5-byte
    addresses, cleared interrupt flags, power-down, no pipes, acknowledgment
    on, both queues flushed - and then returns [false], whatever the pins,
    the mask, the prior state of the object and the answers of the chip. *)
Theorem begin_returns_false (h : Header) (cePin_ csnPin_ netmask_ : Z)
    (m : Machine) :
  let w := W_REGISTER h in
  let r := R_REGISTER h in
  let k := REGISTER_MASK h in
  let pa := u8 (u8 (answer m 3 .& .~ 0x6) .| (RF_PA_LOW h .| RF_PA_HIGH h)) in
  let dr := u8 (u8 (answer m 7 .& .~ (RF_DR_HIGH h .| RF_DR_LOW h)) .| RF_DR_HIGH h) in
  let crc := u8 (u8 (u8 (u8 (answer m 11 .& .~ EN_CRC h) .& .~ CRCO h)
                       .| EN_CRC h) .| CRCO h) in
  eval (begin h cePin_ csnPin_ netmask_) m = false /\
  obj (exec (begin h cePin_ csnPin_ netmask_) m) =
    {| cePin := cePin_; csnPin := csnPin_; netmask := netmask_;
       ownAddress := ownAddress (obj m);
       previousRXAddress := previousRXAddress (obj m);
       previousTXAddress := 0; previousPipe := -1; numPipes := 0;
       listening := listening (obj m); ackEnabled := true |} /\
  ce (hw (exec (begin h cePin_ csnPin_ netmask_) m)) = false /\
  csn (hw (exec (begin h cePin_ csnPin_ netmask_) m)) = true /\
  log (hw (exec (begin h cePin_ csnPin_ netmask_) m)) =
    rev [ EvPinMode cePin_; EvPinMode csnPin_; EvSpiBegin; EvSpiClockDiv4;
          EvFrame (rev (sel (hw m))); EvCE false; EvDelay 100;
          EvFrame [w .| (k .& SETUP_RETR h); u8 ((15 .<< 4) .| 15)];
          EvFrame [r .| RF_SETUP h; NOP h];
          EvFrame [w .| (k .& RF_SETUP h); pa];
          EvFrame [r .| RF_SETUP h; NOP h];
          EvFrame [w .| (k .& RF_SETUP h); dr];
          EvFrame [r .| CONFIG h; NOP h];
          EvFrame [w .| (k .& CONFIG h); crc];
          EvFrame [w .| (k .& RF_CH h); 76 .& 0x7F];
          EvFrame [w .| (k .& ACTIVATE h); 0x73];
          EvFrame [r .| FEATURE h; NOP h];
          EvFrame [w .| (k .& FEATURE h);
                   u8 (answer m 19 .| EN_DPL h .| EN_ACK_PAY h .| EN_DYN_ACK h)];
          EvFrame [w .| (k .& EN_AA h);
                   u8 (ENAA_P0 h .| ENAA_P1 h .| ENAA_P2 h .| ENAA_P3 h
                       .| ENAA_P4 h .| ENAA_P5 h)];
          EvFrame [w .| (k .& DYNPD h);
                   u8 (DPL_P0 h .| DPL_P1 h .| DPL_P2 h .| DPL_P3 h
                       .| DPL_P4 h .| DPL_P5 h)];
          EvFrame [w .| (k .& SETUP_AW h); 0x3];
          EvFrame [r .| STATUS h; NOP h];
          EvFrame [w .| (k .& STATUS h);
                   u8 (answer m 29 .| RX_DR h .| TX_DS h .| MAX_RT h)];
          EvFrame [r .| CONFIG h; NOP h];
          EvFrame [w .| (k .& CONFIG h); u8 (answer m 33 .& .~ PWR_UP h)];
          EvDelayMicroseconds 1500;
          EvFrame [FLUSH_RX h]; EvFrame [FLUSH_TX h] ]
    ++ log (hw m).
Proof.
  repeat split.
Qed.

(** ** The polling loop *)

Section Polling.

Variable h : Header.

Lemma pollOnce_run (m : Machine) :
  pollOnce h m = (answer m 0, on_hw (framed [NOP h]) m).
Proof. reflexivity. Qed.

Lemma millis_run (m : Machine) :
  millis m = (time_at m 0, on_hw tick m).
Proof. reflexivity. Qed.

Lemma status_at_next (m : Machine) (i : nat) :
  status_at (on_hw tick (on_hw (framed [NOP h]) m)) i = status_at m (S i).
Proof.
  unfold status_at, answer. cbn [on_hw hw tick framed miso xfers length].
  do 2 f_equal. lia.
Qed.

Lemma time_at_next (m : Machine) (i : nat) :
  time_at (on_hw tick (on_hw (framed [NOP h]) m)) i = time_at m (S i).
Proof.
  unfold time_at. cbn [on_hw hw tick framed clock ticks].
  do 2 f_equal. lia.
Qed.

Lemma repeat_shift {A} (x : A) (n : nat) (l : list A) :
  repeat x n ++ x :: l = x :: repeat x n ++ l.
Proof. induction n as [|n IH]; cbn; [reflexivity | now rewrite IH]. Qed.

Lemma after_poll_next (m : Machine) (n : nat) (cause : ExitCause) :
  after_poll h n cause (on_hw tick (on_hw (framed [NOP h]) m)) =
  after_poll h (S n) cause m.
Proof.
  unfold after_poll, on_hw, polled, tick, framed.
  cbn [hw obj ce csn sel log miso xfers clock ticks length repeat app].
  f_equal. f_equal.
  - f_equal. apply repeat_shift.
  - lia.
  - destruct cause; lia.
Qed.

(** The loop, once it returns, has run as [poll_run] describes. *)
Lemma pollStatus_sound (fuel : nat) (txStarted : Z) (m : Machine)
    (tx mr : bool) (m' : Machine) :
  pollStatus h fuel txStarted m = Some (tx, mr, m') ->
  exists n cause,
    (n < fuel)%nat /\ poll_run h m txStarted n cause /\
    tx = txComplete_of cause /\ mr = maxRetriesPassed_of cause /\
    m' = after_poll h n cause m.
Proof.
  revert m. induction fuel as [|fuel IH]; intros m; cbn [pollStatus];
    [discriminate|].
  rewrite pollOnce_run. fold (status_at m 0). fold (flag (TX_DS h) (status_at m 0)).
  fold (flag (MAX_RT h) (status_at m 0)).
  destruct (flag (TX_DS h) (status_at m 0)) eqn:Hds.
  { intros [= <- <- <-]. exists 0%nat, TxDone.
    split; [lia|]. split; [split; [intros i Hi; lia | exact Hds]|].
    repeat split. }
  destruct (flag (MAX_RT h) (status_at m 0)) eqn:Hrt.
  { intros [= <- <- <-]. exists 0%nat, MaxRetries.
    split; [lia|]. split; [split; [intros i Hi; lia | split; assumption]|].
    repeat split. }
  rewrite millis_run.
  replace (time_at (on_hw (framed [NOP h]) m) 0) with (time_at m 0) by reflexivity.
  destruct (Z.ltb_spec (time_at m 0) (u32 (txStarted + timeout))) as [Hlt | Hge].
  - intros Hrec. apply IH in Hrec.
    destruct Hrec as (n & cause & Hn & [Hkeep Hexit] & -> & -> & ->).
    exists (S n), cause. split; [lia|]. split; [split|].
    + intros [|i] Hi.
      * repeat split; assumption.
      * specialize (Hkeep i ltac:(lia)). unfold keeps_polling in *.
        now rewrite !status_at_next, time_at_next in Hkeep.
    + unfold exits_with in *.
      destruct cause; now rewrite ?status_at_next, ?time_at_next in Hexit.
    + repeat split. apply after_poll_next.
  - intros [= <- <- <-]. exists 0%nat, Watchdog.
    split; [lia|].
    split; [split; [intros i Hi; lia | repeat split; assumption]|].
    repeat split.
Qed.

(** A run described by [poll_run] is the one the loop takes, given fuel
    for its polls. *)
Lemma pollStatus_complete (fuel : nat) (txStarted : Z) (m : Machine)
    (n : nat) (cause : ExitCause) :
  poll_run h m txStarted n cause -> (n < fuel)%nat ->
  pollStatus h fuel txStarted m =
  Some (txComplete_of cause, maxRetriesPassed_of cause, after_poll h n cause m).
Proof.
  revert fuel m. induction n as [|n IH]; intros fuel m [Hkeep Hexit] Hfuel;
    (destruct fuel as [|fuel]; [lia|]); cbn [pollStatus];
    rewrite pollOnce_run; fold (status_at m 0);
    fold (flag (TX_DS h) (status_at m 0));
    fold (flag (MAX_RT h) (status_at m 0)).
  - destruct cause; cbn [exits_with] in Hexit.
    + now rewrite Hexit.
    + destruct Hexit as [-> ->]. reflexivity.
    + destruct Hexit as (-> & -> & Hge). rewrite millis_run.
      replace (time_at (on_hw (framed [NOP h]) m) 0) with (time_at m 0)
        by reflexivity.
      destruct (Z.ltb_spec (time_at m 0) (u32 (txStarted + timeout))); [lia|].
      reflexivity.
  - destruct (Hkeep 0%nat ltac:(lia)) as (-> & -> & Hlt).
    rewrite millis_run.
    replace (time_at (on_hw (framed [NOP h]) m) 0) with (time_at m 0)
      by reflexivity.
    destruct (Z.ltb_spec (time_at m 0) (u32 (txStarted + timeout))); [|lia].
    rewrite (IH fuel (on_hw tick (on_hw (framed [NOP h]) m))).
    + now rewrite after_poll_next.
    + split.
      * intros i Hi. specialize (Hkeep (S i) ltac:(lia)).
        unfold keeps_polling in *.
        now rewrite !status_at_next, time_at_next.
      * unfold exits_with in *.
        destruct cause; now rewrite ?status_at_next, ?time_at_next.
    + lia.
Qed.

End Polling.

(** ** The result of a transmission *)

(** C5.  Whenever [transmit] returns, its result is [true] exactly when a
    status byte read by the polling loop had the transmit-done flag
    raised.  A loop left because the max-retries flag was seen and a loop
    left because the timer check failed both give [false], so the result
    alone does not tell the two apart.  (An empty payload gives [false]
    with no polling at all.) *)
Theorem transmit_true_iff_tx_done (h : Header) (fuel : nat)
    (targetAddress : Z) (data : list Z) (len : Z) (ack : bool)
    (m : Machine) (result : bool) (m' : Machine) :
  transmit h fuel targetAddress data len ack m = Some (result, m') ->
  (len = 0 /\ result = false /\ m' = m) \/
  (len <> 0 /\
   let entry := poll_entry h targetAddress data
                  (if 32 <? len then 32 else len) ack m in
   exists n cause,
     (n < fuel)%nat /\
     poll_run h (snd entry) (fst entry) n cause /\
     (result = true <->
      exists i, (i <= n)%nat /\ flag (TX_DS h) (status_at (snd entry) i) = true) /\
     (result = true <-> cause = TxDone) /\
     (cause = MaxRetries -> result = false) /\
     (cause = Watchdog -> result = false)).
Proof.
  unfold transmit, poll_entry.
  destruct (Z.eqb_spec len 0) as [-> | Hlen].
  { intros [= <- <-]. left. repeat split. }
  intros Hrun. right. split; [assumption|].
  destruct (transmit_setup h targetAddress ack m) as [[wasActive wasListening] m1].
  cbn [snd]. unfold exec in *.
  destruct (millis _) as [txStarted m3]. cbn [fst snd].
  destruct (pollStatus h fuel txStarted m3) as [[[tx mr] m4]|] eqn:Hpoll;
    [|discriminate].
  injection Hrun as <- <-.
  apply pollStatus_sound in Hpoll.
  destruct Hpoll as (n & cause & Hn & Hpoll & -> & -> & ->).
  exists n, cause. split; [assumption|]. split; [assumption|].
  destruct Hpoll as [Hkeep Hexit].
  assert (Hiff : txComplete_of cause = true <-> cause = TxDone)
    by (destruct cause; cbn; split; congruence).
  split; [|split; [exact Hiff|split; intros ->; reflexivity]].
  rewrite Hiff. split.
  - intros ->. exists n. split; [lia | exact Hexit].
  - intros (i & Hi & Hds).
    destruct (Nat.eq_dec i n) as [-> | Hne].
    + destruct cause; cbn [exits_with] in Hexit;
        [reflexivity | destruct Hexit | destruct Hexit]; congruence.
    + destruct (Hkeep i ltac:(lia)) as [Hno _]. congruence.
Qed.

Lemma transmit_true_iff_tx_done_witness :
  let m := bench (fun _ => 0x2E) (fun _ => 0) in
  let out := transmit datasheet 5 2 [104; 105; 0] 3 true m in
  out = Some (true, machine_of out m) /\
  exists n,
    poll_run datasheet (snd (poll_entry datasheet 2 [104; 105; 0] 3 true m))
      (fst (poll_entry datasheet 2 [104; 105; 0] 3 true m)) n TxDone.
Proof.
  intros m out.
  assert (E : out = Some (true, machine_of out m)) by (vm_compute; reflexivity).
  split; [exact E|].
  destruct (transmit_true_iff_tx_done datasheet 5 2 [104; 105; 0] 3 true m
              true (machine_of out m) E)
    as [(H0 & _) | (_ & n & cause & _ & Hrun & _ & Hdone & _)].
  - discriminate H0.
  - exists n. destruct Hdone as [Hdone _]. now rewrite <- (Hdone eq_refl).
Defined.

(** ** Termination of the polling loop *)

Section Watchdog.

Variable h : Header.

Lemma first_stop (m : Machine) (txStarted : Z) (n : nat) :
  stops h m txStarted n = true ->
  exists k, (k <= n)%nat /\ stops h m txStarted k = true /\
            forall i, (i < k)%nat -> stops h m txStarted i = false.
Proof.
  induction n as [n IH] using lt_wf_ind. intros Hn.
  destruct (existsb (stops h m txStarted) (seq 0 n)) eqn:Hex.
  - apply existsb_exists in Hex. destruct Hex as (j & Hj & Hstop).
    apply in_seq in Hj.
    destruct (IH j ltac:(lia) Hstop) as (k & Hk & Hks & Hbefore).
    exists k. repeat split; [lia | assumption | assumption].
  - exists n. repeat split; [lia | assumption |].
    intros i Hi. destruct (stops h m txStarted i) eqn:Hs; [|reflexivity].
    assert (existsb (stops h m txStarted) (seq 0 n) = true); [|congruence].
    apply existsb_exists. exists i. split; [apply in_seq; lia | assumption].
Qed.

Lemma stops_false (m : Machine) (txStarted : Z) (i : nat) :
  stops h m txStarted i = false -> keeps_polling h m txStarted i.
Proof.
  unfold stops, keeps_polling. intros H.
  apply orb_false_elim in H. destruct H as [H Ht].
  apply orb_false_elim in H. destruct H as [Hds Hrt].
  apply negb_false_iff, Z.ltb_lt in Ht. auto.
Qed.

Lemma stops_true (m : Machine) (txStarted : Z) (n : nat) :
  stops h m txStarted n = true ->
  exits_with h m txStarted n (cause_at h m n).
Proof.
  unfold stops, exits_with, cause_at. intros H.
  destruct (flag (TX_DS h) (status_at m n)); [reflexivity|].
  destruct (flag (MAX_RT h) (status_at m n)); [split; reflexivity|].
  cbn [orb] in H. apply negb_true_iff, Z.ltb_ge in H. auto.
Qed.

(** As soon as the loop condition fails at some poll, the loop returns:
    at the first such poll, with fuel for that many polls. *)
Lemma pollStatus_terminates (m : Machine) (txStarted : Z) (n : nat) :
  stops h m txStarted n = true ->
  exists k, (k <= n)%nat /\
    (forall i, (i < k)%nat -> stops h m txStarted i = false) /\
    stops h m txStarted k = true /\
    forall fuel, (k < fuel)%nat ->
      pollStatus h fuel txStarted m =
      Some (txComplete_of (cause_at h m k), maxRetriesPassed_of (cause_at h m k),
            after_poll h k (cause_at h m k) m).
Proof.
  intros Hn. destruct (first_stop m txStarted n Hn) as (k & Hk & Hks & Hbefore).
  exists k. repeat split; try assumption.
  intros fuel Hfuel. apply pollStatus_complete; [|assumption].
  split.
  - intros i Hi. apply stops_false. now apply Hbefore.
  - now apply stops_true.
Qed.

(** When the deadline [txStarted + 500] fits in 32 bits, the timer check
    fails exactly when 500 ms have gone by on the timer. *)
Lemma deadline_no_wrap (m : Machine) (txStarted : Z) (i : nat) :
  0 <= txStarted -> txStarted + timeout < 2 ^ 32 ->
  (negb (time_at m i <? u32 (txStarted + timeout)) = true <->
   timeout <= time_at m i - txStarted).
Proof.
  intros H0 H1. unfold u32 at 1. rewrite Z.mod_small by (unfold timeout in *; lia).
  rewrite negb_true_iff, Z.ltb_ge. lia.
Qed.

(** Off the wrap-around of the timer the loop is the watchdog the spec
    describes: it returns at the first poll that sees the transmit-done
    flag, sees the max-retries flag, or finds 500 ms gone. *)
Lemma pollStatus_first_event (m : Machine) (txStarted : Z) (n : nat) :
  0 <= txStarted -> txStarted + timeout < 2 ^ 32 ->
  (flag (TX_DS h) (status_at m n) = true \/
   flag (MAX_RT h) (status_at m n) = true \/
   timeout <= time_at m n - txStarted) ->
  exists k, (k <= n)%nat /\
    (forall i, (i < k)%nat ->
       flag (TX_DS h) (status_at m i) = false /\
       flag (MAX_RT h) (status_at m i) = false /\
       time_at m i - txStarted < timeout) /\
    (flag (TX_DS h) (status_at m k) = true \/
     flag (MAX_RT h) (status_at m k) = true \/
     timeout <= time_at m k - txStarted) /\
    forall fuel, (k < fuel)%nat ->
      pollStatus h fuel txStarted m =
      Some (txComplete_of (cause_at h m k), maxRetriesPassed_of (cause_at h m k),
            after_poll h k (cause_at h m k) m).
Proof.
  intros H0 H1 Hev.
  assert (Hn : stops h m txStarted n = true).
  { unfold stops. destruct Hev as [-> | [-> | Ht]]; [reflexivity | |].
    - now rewrite orb_true_r.
    - apply (deadline_no_wrap m txStarted n H0 H1) in Ht. rewrite Ht.
      apply orb_true_r. }
  destruct (pollStatus_terminates m txStarted n Hn) as (k & Hk & Hbefore & Hks & Hrun).
  exists k. split; [assumption|]. split; [|split; [|assumption]].
  - intros i Hi. specialize (Hbefore i Hi). unfold stops in Hbefore.
    apply orb_false_elim in Hbefore. destruct Hbefore as [Hb Ht].
    apply orb_false_elim in Hb. destruct Hb as [Hds Hrt].
    repeat split; try assumption.
    destruct (Z.lt_ge_cases (time_at m i - txStarted) timeout) as [|Hge];
      [assumption|].
    apply (deadline_no_wrap m txStarted i H0 H1) in Hge. congruence.
  - unfold stops in Hks.
    destruct (flag (TX_DS h) (status_at m k)); [now left|].
    destruct (flag (MAX_RT h) (status_at m k)); [now right; left|].
    right; right. cbn [orb] in Hks.
    now apply (deadline_no_wrap m txStarted k H0 H1).
Qed.

(** While the loop condition holds the loop goes on. *)
Lemma pollStatus_out_of_fuel (m : Machine) (txStarted : Z) (fuel : nat) :
  (forall i, (i < fuel)%nat -> stops h m txStarted i = false) ->
  pollStatus h fuel txStarted m = None.
Proof.
  revert m. induction fuel as [|fuel IH]; intros m Hgo; [reflexivity|].
  cbn [pollStatus]. rewrite pollOnce_run.
  destruct (stops_false m txStarted 0 (Hgo 0%nat ltac:(lia))) as (Hds & Hrt & Hlt).
  unfold flag, status_at in Hds, Hrt. rewrite Hds, Hrt, millis_run.
  replace (time_at (on_hw (framed [NOP h]) m) 0) with (time_at m 0) by reflexivity.
  destruct (Z.ltb_spec (time_at m 0) (u32 (txStarted + timeout))); [|lia].
  apply IH. intros i Hi. specialize (Hgo (S i) ltac:(lia)).
  unfold stops in *. now rewrite status_at_next, time_at_next.
Qed.

End Watchdog.

(** A timer that is read every 3 ms steps over the one value, 2^32 - 1,
    at which a loop started at 4294966795 would stop: after 1000 polls,
    three seconds, the loop is still running. *)
Lemma pollStatus_steps_over_deadline :
  let m := bench (fun _ => 0x0E) (fun n => 4294966798 + 3 * Z.of_nat n) in
  u32 (4294966795 + timeout) = 4294967295 /\
  pollStatus datasheet 1000 4294966795 m = None.
Proof.
  intros m. split; [reflexivity|].
  apply pollStatus_out_of_fuel. intros i Hi.
  assert (Hall : forallb (fun i => negb (stops datasheet m 4294966795 i))
                   (seq 0 1000) = true) by (vm_compute; reflexivity).
  rewrite forallb_forall in Hall.
  apply negb_true_iff, Hall, in_seq. lia.
Qed.

(** C9.  The watchdog compares [millis()] with the 32-bit sum
    [txStarted + timeout].  When the loop starts within 500 ms of the
    timer's wrap-around the sum wraps: started at 4294967196 the deadline
    is 400, the first check (1 ms later, no flag raised) already fails and
    [transmit] gives up after a single poll.  The loop has left although
    neither flag was seen and 500 ms have not gone by. *)
Theorem transmit_watchdog_wraps :
  let m := bench (fun _ => 0x0E) (fun n => 4294967196 + Z.of_nat n) in
  let entry := poll_entry datasheet 2 [104; 105; 0] 3 true m in
  fst entry = 4294967196 /\
  u32 (fst entry + timeout) = 400 /\
  flag (TX_DS datasheet) (status_at (snd entry) 0) = false /\
  flag (MAX_RT datasheet) (status_at (snd entry) 0) = false /\
  time_at (snd entry) 0 - fst entry = 1 /\
  (forall fuel,
     pollStatus datasheet (S fuel) (fst entry) (snd entry) =
     Some (false, false, after_poll datasheet 0 Watchdog (snd entry))) /\
  (forall fuel,
     transmit datasheet (S fuel) 2 [104; 105; 0] 3 true m =
     Some (false,
           exec (transmit_restore datasheet true false)
                (after_poll datasheet 0 Watchdog (snd entry)))).
Proof.
  intros m entry.
  assert (Hpoll : forall fuel,
     pollStatus datasheet (S fuel) (fst entry) (snd entry) =
     Some (false, false, after_poll datasheet 0 Watchdog (snd entry))).
  { intros fuel.
    apply (pollStatus_complete datasheet (S fuel) (fst entry) (snd entry) 0 Watchdog);
      [|lia].
    split; [intros i Hi; lia|].
    repeat split. vm_compute. discriminate. }
  do 5 (split; [vm_compute; reflexivity|]).
  split; [exact Hpoll|].
  intros fuel. specialize (Hpoll fuel).
  unfold transmit. change (3 =? 0) with false. cbv beta iota.
  change (32 <? 3) with false. cbv beta iota.
  unfold entry, poll_entry in Hpoll.
  destruct (transmit_setup datasheet 2 true m) as [[wa wl] m1] eqn:Hsetup.
  assert (Hwa : (wa, wl) = (true, false)).
  { change (wa, wl) with (fst (wa, wl, m1)). rewrite <- Hsetup.
    vm_compute. reflexivity. }
  injection Hwa as -> ->.
  cbn [snd] in Hpoll. unfold entry, poll_entry. rewrite Hsetup. cbn [snd].
  destruct (millis _) as [t0 m3]. cbn [fst snd] in *.
  rewrite Hpoll. reflexivity.
Qed.

(** ** Receiving a payload *)

Lemma receiveBytes_run (nop : Z) (n : nat) (m : Machine) :
  receiveBytes nop n m =
  (map (answer m) (seq 0 n),
   on_hw (fun w =>
     {| ce := ce w; csn := csn w; sel := repeat nop n ++ sel w;
        log := log w; miso := miso w; xfers := (n + xfers w)%nat;
        clock := clock w; ticks := ticks w |}) m).
Proof.
  revert m. induction n as [|n IH]; intros m.
  - destruct m as [d w]. destruct w. reflexivity.
  - cbn [receiveBytes]. unfold bind at 1.
    cbv beta iota delta [SPI_transfer].
    unfold bind at 1. rewrite IH. unfold ret.
    cbn [seq map]. f_equal.
    + f_equal. rewrite <- seq_shift, map_map. apply map_ext. intros i.
      unfold answer. cbn [hw clock_out miso xfers]. do 2 f_equal. lia.
    + unfold on_hw, clock_out.
      cbn [hw obj ce csn sel log miso xfers clock ticks repeat app].
      rewrite repeat_shift, Nat.add_succ_r. reflexivity.
Qed.

Lemma map_seq_shifted {A} (f g : nat -> A) (a b n : nat) :
  (forall i, f (a + i)%nat = g (b + i)%nat) ->
  map f (seq a n) = map g (seq b n).
Proof.
  revert a b. induction n as [|n IH]; intros a b Hfg; cbn [seq map].
  - reflexivity.
  - f_equal.
    + specialize (Hfg 0%nat). now rewrite !Nat.add_0_r in Hfg.
    + apply IH. intros i. specialize (Hfg (S i)).
      now rewrite !Nat.add_succ_r in Hfg.
Qed.

Lemma read_run (h : Header) (bufferSize : Z) (m : Machine) :
  let payloadSize := answer m 1 in
  let n := Z.to_nat (if payloadSize <? bufferSize then payloadSize else bufferSize) in
  read h bufferSize m =
  (payloadSize, map (answer m) (seq 3 n),
   on_hw (fun w =>
     drive_ce true
       (framed [W_REGISTER h .| (REGISTER_MASK h .& STATUS h);
                u8 (answer m (4 + n) .| RX_DR h)]
          (framed [R_REGISTER h .| STATUS h; NOP h]
             (framed (R_RX_PAYLOAD h :: repeat (NOP h) n)
                (framed [R_REGISTER h .| R_RX_PL_WID h; NOP h]
                   (drive_ce false w)))))) m).
Proof.
  intros payloadSize n. unfold read.
  unfold bind at 1. cbv beta iota delta [ceLow modify_hw].
  unfold bind at 1. rewrite readRegister_run.
  change (answer {| obj := obj m; hw := drive_ce false (hw m) |} 1)
    with payloadSize.
  fold n.
  unfold bind at 1, csnLow at 1, modify_hw at 1.
  unfold bind at 1, SPI_transfer at 1. cbn [obj hw].
  unfold bind at 1. rewrite receiveBytes_run. cbn [obj hw on_hw].
  unfold bind at 1, csnHigh at 1, modify_hw at 1. cbn [obj hw].
  unfold bind at 1. rewrite readRegister_run.
  unfold bind at 1. rewrite writeRegister_run.
  unfold bind at 1, ceHigh at 1, modify_hw at 1, ret. cbn [obj hw on_hw].
  f_equal.
  - f_equal. apply map_seq_shifted. intros i. unfold answer.
    cbn [hw obj clock_out select framed drive_ce miso xfers length].
    do 2 f_equal. lia.
  - cbv beta iota delta [on_hw answer framed drive_ce select deselect clock_out
                         hw obj ce csn sel log miso xfers clock ticks].
    rewrite rev_app_distr, rev_repeat. cbn [rev app length].
    rewrite repeat_length.
    repeat (f_equal; try lia).
Qed.

(** C7.  [read] clocks out and stores min(w, capacity) bytes, where [w] is
    the declared width of the pending payload, but what it returns is [w]
    itself.  With a 5-byte payload pending and room for 3 bytes it stores
    3 bytes and returns 5. *)
Theorem read_returns_declared_width :
  (forall (h : Header) (capacity : Z) (m : Machine),
     let w := answer m 1 in
     fst (eval (read h capacity) m) = w /\
     length (snd (eval (read h capacity) m)) = Z.to_nat (Z.min w capacity) /\
     log (hw (exec (read h capacity) m)) =
       let k := Z.to_nat (Z.min w capacity) in
       [ EvCE true;
         EvFrame [W_REGISTER h .| (REGISTER_MASK h .& STATUS h);
                  u8 (answer m (4 + k) .| RX_DR h)];
         EvFrame [R_REGISTER h .| STATUS h; NOP h];
         EvFrame (R_RX_PAYLOAD h :: repeat (NOP h) k);
         EvFrame [R_REGISTER h .| R_RX_PL_WID h; NOP h];
         EvCE false ] ++ log (hw m)) /\
  (let m := bench (fun n => if (n =? 1)%nat then 5 else 0x41) (fun _ => 0) in
   eval (read datasheet 3) m = (5, [0x41; 0x41; 0x41])).
Proof.
  split.
  - intros h capacity m w. unfold eval, exec. rewrite read_run.
    fold w. cbn [fst snd]. rewrite length_map, length_seq.
    assert (Hmin : (if w <? capacity then w else capacity) = Z.min w capacity).
    { destruct (Z.ltb_spec w capacity); lia. }
    rewrite Hmin. split; [reflexivity|]. split; reflexivity.
  - vm_compute. reflexivity.
Qed.

(** ** Queueing an acknowledgment payload *)

Lemma stopListening_run (h : Header) (m : Machine) :
  stopListening h m =
  (tt, {| obj := set_listening false (obj m);
          hw := stopped_hw h (answer m 1) (hw m) |}).
Proof. reflexivity. Qed.

(** A frame sent inline: select, command byte, [n] bytes of [data],
    deselect. *)
Lemma frame_run {A} (c : Z) (n : nat) (data : list Z) (k : M A) (m : Machine) :
  (csnLow ;; SPI_transfer c ;; transferBytes n data ;; csnHigh ;; k) m =
  k (on_hw (framed (c :: fetch n data)) m).
Proof.
  unfold bind at 1, csnLow at 1, modify_hw at 1.
  unfold bind at 1, SPI_transfer at 1. cbn [obj hw].
  unfold bind at 1. rewrite transferBytes_run.
  unfold bind at 1, csnHigh at 1, modify_hw at 1. f_equal.
  unfold on_hw, framed, select, deselect, clock_out.
  cbn [hw obj ce csn sel log miso xfers clock ticks].
  rewrite rev_app_distr, rev_involutive. cbn [rev app List.length].
  rewrite fetch_length, Nat.add_succ_r. reflexivity.
Qed.

Lemma queueResponse_run (h : Header) (data : list Z) (len : Z) (m : Machine) :
  let m1 := queue_entry h m in
  let m2 := on_hw (framed [R_REGISTER h .| FIFO_STATUS h; NOP h]) m1 in
  queueResponse h data len m =
  if flag (TX_FULL_FIFO h) (answer m1 1) then (false, m2)
  else
    let m3 :=
      on_hw (framed (W_ACK_PAYLOAD h
                       :: fetch (Z.to_nat (if 32 <? len then 32 else len))
                            data)) m2 in
    (true, if negb (listening (obj m)) then exec (stopListening h) m3 else m3).
Proof.
  intros m1 m2. unfold queueResponse.
  unfold bind at 1. unfold get_obj at 1. cbv beta iota.
  unfold bind at 1.
  assert (Hentry : (if negb (listening (obj m)) then startListening h else ret tt) m
                   = (tt, m1)).
  { subst m1. unfold queue_entry, exec.
    destruct (listening (obj m)); cbn [negb]; [reflexivity|].
    now rewrite startListening_run. }
  rewrite Hentry. unfold bind at 1. rewrite readRegister_run. fold m2.
  fold (flag (TX_FULL_FIFO h) (answer m1 1)).
  destruct (flag (TX_FULL_FIFO h) (answer m1 1)); [reflexivity|].
  rewrite frame_run. cbv zeta.
  set (m3 := on_hw (framed _) m2).
  unfold bind at 1.
  destruct (listening (obj m)); cbn [negb]; [reflexivity|].
  unfold exec. destruct (stopListening h m3). reflexivity.
Qed.

(** C8.  With the queue-full flag raised [queueResponse] returns [false]
    and the read of FIFO_STATUS is the last thing the bus sees; otherwise
    it clocks the payload in, returns [true] and, when the driver was not
    listening before, stops listening again.  The early return on a full
    queue skips that last step: a driver that was not listening is left
    listening, with the enable line high. *)
Theorem queueResponse_full_not_restored :
  (forall (h : Header) (data : list Z) (len : Z) (m : Machine),
     let m1 := queue_entry h m in
     let m2 := on_hw (framed [R_REGISTER h .| FIFO_STATUS h; NOP h]) m1 in
     let payload :=
       W_ACK_PAYLOAD h :: fetch (Z.to_nat (if 32 <? len then 32 else len)) data in
     queueResponse h data len m =
     if flag (TX_FULL_FIFO h) (answer m1 1) then (false, m2)
     else (true,
           if negb (listening (obj m))
           then exec (stopListening h) (on_hw (framed payload) m2)
           else on_hw (framed payload) m2)) /\
  (forall (h : Header) (m : Machine),
     listening (obj (queue_entry h m)) = true /\
     ce (hw (queue_entry h m)) = if listening (obj m) then ce (hw m) else true) /\
  (let m := bench (fun _ => 0x20) (fun _ => 0) in
   let m' := exec (queueResponse datasheet [1; 2; 3] 3) m in
   listening (obj m) = false /\ ce (hw m) = false /\
   eval (queueResponse datasheet [1; 2; 3] 3) m = false /\
   hd (EvCE false) (log (hw m')) =
     EvFrame [R_REGISTER datasheet .| FIFO_STATUS datasheet; NOP datasheet] /\
   listening (obj m') = true /\ ce (hw m') = true).
Proof.
  split; [|split].
  - intros h data len m. apply queueResponse_run.
  - intros h m. unfold queue_entry, exec.
    destruct (listening (obj m)) eqn:Hl; [split; [exact Hl | reflexivity]|].
    rewrite startListening_run. split; reflexivity.
  - vm_compute. repeat split.
Qed.

(** ** The phases of a transmission *)

(** Unfolds the driver's code and the hardware primitives down to records
    and integer operations, which are left alone. *)
Ltac unfold_driver :=
  cbv beta iota zeta delta
    [bind ret get_obj modify_hw assign exec eval on_hw on_obj
     ceLow ceHigh ceIsHigh csnLow csnHigh SPI_transfer millis
     pinMode_OUTPUT SPI_begin SPI_setClockDivider_DIV4 delay delayMicroseconds
     emit drive_ce select deselect clock_out tick framed
     transferBytes fetch
     readRegister writeRegister writeRegisterN flushTX flushRX
     assembleFullAddressM assembleFullAddress
     set_pins set_netmask set_ownAddress set_previousRXAddress
     set_previousTXAddress set_previousPipe set_numPipes set_listening
     set_ackEnabled
     obj hw ce csn sel log miso xfers clock ticks
     cePin csnPin netmask ownAddress previousRXAddress previousTXAddress
     previousPipe numPipes listening ackEnabled
     answer status_at time_at wcmd rcmd
     fst snd hd tl rev app length Nat.add
     startListening stopListening setActive setAddress
     transmit_setup transmit_restore
     setup_obj setup_addresses setup_mode inactive_hw
     listening_obj listening_hw stopped_hw].

Ltac split_ifs :=
  repeat match goal with
         | |- context [if ?c then _ else _] => destruct c
         end.

Section Transmit.

Variable h : Header.

Lemma transmit_setup_run (targetAddress : Z) (ack : bool) (m : Machine) :
  let m1 := {| obj := setup_obj targetAddress ack (obj m);
               hw := setup_addresses h targetAddress ack (obj m) (hw m) |} in
  transmit_setup h targetAddress ack m =
  (to_bool (answer m1 5 .& PWR_UP h), listening (obj m),
   on_hw (setup_mode h (answer m1 1) (answer m1 5)) m1).
Proof.
  change (Z.to_nat 5) with 5%nat.
  unfold_driver. change (Z.to_nat 5) with 5%nat. unfold_driver.
  destruct (negb (previousTXAddress (obj m) =? targetAddress));
    destruct (ack && negb (previousRXAddress (obj m) =? targetAddress));
    unfold_driver; split_ifs; reflexivity.
Qed.

Lemma transmit_load_run (data : list Z) (len : Z) (ack : bool) (m : Machine) :
  exec (transmit_load h data len ack) m = on_hw (loaded_hw h data len ack) m.
Proof.
  unfold exec, transmit_load.
  replace (if ack then SPI_transfer (W_TX_PAYLOAD h)
           else SPI_transfer (W_TX_PAYLOAD_NO_ACK h))
    with (SPI_transfer (if ack then W_TX_PAYLOAD h else W_TX_PAYLOAD_NO_ACK h))
    by now destruct ack.
  rewrite frame_run. reflexivity.
Qed.

Lemma transmit_restore_run (wasActive wasListening : bool) (m : Machine) :
  exec (transmit_restore h wasActive wasListening) m =
  if negb wasActive then
    on_hw (fun w => inactive_hw h (answer m 1) (drive_ce false w)) m
  else if wasListening then
    {| obj := listening_obj (obj m);
       hw := listening_hw h (obj m) (answer m 1) (drive_ce false (hw m)) |}
  else on_hw (drive_ce false) m.
Proof.
  unfold transmit_restore, exec. unfold bind at 1, ceLow, modify_hw.
  destruct wasActive; cbn [negb]; [destruct wasListening|].
  - rewrite startListening_run. reflexivity.
  - reflexivity.
  - reflexivity.
Qed.

(** The machine a completed [transmit] leaves, phase by phase. *)
Lemma transmit_run (fuel : nat) (targetAddress : Z) (data : list Z)
    (length : Z) (ack : bool) (m : Machine) (result : bool) (m' : Machine) :
  length <> 0 ->
  transmit h fuel targetAddress data length ack m = Some (result, m') ->
  let length' := if 32 <? length then 32 else length in
  let m1 := {| obj := setup_obj targetAddress ack (obj m);
               hw := setup_addresses h targetAddress ack (obj m) (hw m) |} in
  let m2 := on_hw (setup_mode h (answer m1 1) (answer m1 5)) m1 in
  let m3 := on_hw tick (on_hw (loaded_hw h data length' ack) m2) in
  exists n cause,
    (n < fuel)%nat /\
    poll_run h m3 (time_at (on_hw (loaded_hw h data length' ack) m2) 0) n cause /\
    result = txComplete_of cause /\
    m' = exec (transmit_restore h (to_bool (answer m1 5 .& PWR_UP h))
                 (listening (obj m)))
              (after_poll h n cause m3).
Proof.
  intros Hlen Hrun length' m1 m2 m3. unfold transmit in Hrun.
  destruct (Z.eqb_spec length 0) as [|_]; [contradiction|].
  fold length' in Hrun.
  rewrite transmit_setup_run in Hrun. fold m1 m2 in Hrun.
  rewrite transmit_load_run, millis_run in Hrun. fold m3 in Hrun.
  destruct (pollStatus h fuel _ m3) as [[[tx mr] m4]|] eqn:Hpoll; [|discriminate].
  injection Hrun as <- <-.
  apply pollStatus_sound in Hpoll.
  destruct Hpoll as (n & cause & Hn & Hpoll & -> & -> & ->).
  exists n, cause. split; [exact Hn|]. split; [exact Hpoll|].
  split; reflexivity.
Qed.

(** With fuel for its polls [transmit] returns, and returns
    [txComplete]. *)
Lemma transmit_returns (fuel : nat) (targetAddress : Z) (data : list Z)
    (len : Z) (ack : bool) (m : Machine) (n : nat) (cause : ExitCause) :
  len <> 0 ->
  let entry := poll_entry h targetAddress data
                 (if 32 <? len then 32 else len) ack m in
  poll_run h (snd entry) (fst entry) n cause ->
  (n < fuel)%nat ->
  exists m',
    transmit h fuel targetAddress data len ack m =
    Some (txComplete_of cause, m').
Proof.
  intros Hlen entry Hrun Hfuel. unfold transmit.
  destruct (Z.eqb_spec len 0) as [|_]; [contradiction|].
  subst entry. unfold poll_entry in Hrun.
  destruct (transmit_setup h targetAddress ack m) as [[wa wl] m1].
  cbn [snd] in Hrun.
  destruct (millis _) as [t0 m3]. cbn [fst snd] in Hrun.
  rewrite (pollStatus_complete h fuel t0 m3 n cause Hrun Hfuel).
  eexists. reflexivity.
Qed.

End Transmit.

(** ** Frames in the log *)

Lemma frames_where_app (p : Z -> bool) (a b : list Event) :
  frames_where p (a ++ b) = frames_where p a ++ frames_where p b.
Proof.
  induction a as [|e a IH]; [reflexivity|].
  destruct e as [| | | |[|c body]| |]; cbn [app frames_where]; try exact IH.
  destruct (p c); [cbn [app]; f_equal|]; exact IH.
Qed.

Lemma frames_where_repeat (p : Z -> bool) (c : Z) (n : nat) :
  p c = false -> frames_where p (repeat (EvFrame [c]) n) = [].
Proof.
  intros Hc. induction n as [|n IH]; [reflexivity|].
  cbn [repeat frames_where]. now rewrite Hc.
Qed.

Section Frames.

Variable h : Header.
Variable p : Z -> bool.

Hypothesis p_read_config : p (R_REGISTER h .| CONFIG h) = false.
Hypothesis p_write_config :
  p (W_REGISTER h .| (REGISTER_MASK h .& CONFIG h)) = false.
Hypothesis p_read_status : p (R_REGISTER h .| STATUS h) = false.
Hypothesis p_write_status :
  p (W_REGISTER h .| (REGISTER_MASK h .& STATUS h)) = false.
Hypothesis p_nop : p (NOP h) = false.
Hypothesis p_flush_rx : p (FLUSH_RX h) = false.
Hypothesis p_flush_tx : p (FLUSH_TX h) = false.

Ltac drop_frames :=
  cbn [frames_where];
  rewrite ?p_read_config, ?p_write_config, ?p_read_status, ?p_write_status,
    ?p_nop, ?p_flush_rx, ?p_flush_tx;
  cbn [frames_where].

Lemma listening_hw_frames (d : Driver) (config : Z) (w : World) :
  frames_where p (log (listening_hw h d config w)) =
  (if negb (previousRXAddress d =? ownAddress d) && p (wcmd h (RX_ADDR_P0 h))
   then [assembleFullAddress (netmask d) (ownAddress d)] else [])
  ++ frames_where p (log w).
Proof.
  unfold listening_hw, wcmd.
  destruct (negb (previousRXAddress d =? ownAddress d));
    cbn [log framed drive_ce andb]; drop_frames; [|reflexivity].
  destruct (p (W_REGISTER h .| (REGISTER_MASK h .& RX_ADDR_P0 h)));
    drop_frames; reflexivity.
Qed.

Lemma stopped_hw_frames (config : Z) (w : World) :
  frames_where p (log (stopped_hw h config w)) = frames_where p (log w).
Proof.
  unfold stopped_hw, wcmd. cbn [log framed drive_ce]. drop_frames. reflexivity.
Qed.

Lemma inactive_hw_frames (config : Z) (w : World) :
  frames_where p (log (inactive_hw h config w)) = frames_where p (log w).
Proof.
  unfold inactive_hw, wcmd, rcmd. cbn [log framed emit]. drop_frames.
  reflexivity.
Qed.

Lemma setup_mode_frames (status config : Z) (w : World) :
  frames_where p (log (setup_mode h status config w)) = frames_where p (log w).
Proof.
  unfold setup_mode, wcmd, rcmd.
  destruct (negb _); cbn [log framed emit drive_ce]; drop_frames; reflexivity.
Qed.

Lemma setup_addresses_frames (targetAddress : Z) (ack : bool) (d : Driver)
    (w : World) :
  frames_where p (log (setup_addresses h targetAddress ack d w)) =
  (if ack && negb (previousRXAddress d =? targetAddress)
      && p (wcmd h (RX_ADDR_P0 h))
   then [assembleFullAddress (netmask d) targetAddress] else [])
  ++ (if negb (previousTXAddress d =? targetAddress) && p (wcmd h (TX_ADDR h))
      then [assembleFullAddress (netmask d) targetAddress] else [])
  ++ frames_where p (log w).
Proof.
  unfold setup_addresses.
  destruct (ack && negb (previousRXAddress d =? targetAddress));
    destruct (negb (previousTXAddress d =? targetAddress));
    cbn [log framed andb frames_where app];
    destruct (p (wcmd h (RX_ADDR_P0 h)));
    destruct (p (wcmd h (TX_ADDR h))); reflexivity.
Qed.

Lemma loaded_hw_frames (data : list Z) (length : Z) (ack : bool) (w : World) :
  frames_where p (log (loaded_hw h data length ack w)) =
  (if p (if ack then W_TX_PAYLOAD h else W_TX_PAYLOAD_NO_ACK h)
   then [fetch (Z.to_nat length) data] else [])
  ++ frames_where p (log w).
Proof.
  unfold loaded_hw. cbn [log framed drive_ce frames_where].
  destruct (p (if ack then W_TX_PAYLOAD h else W_TX_PAYLOAD_NO_ACK h));
    reflexivity.
Qed.

Lemma after_poll_frames (n : nat) (cause : ExitCause) (m : Machine) :
  frames_where p (log (hw (after_poll h n cause m))) =
  frames_where p (log (hw m)).
Proof.
  unfold after_poll, on_hw, polled. cbn [hw log].
  rewrite frames_where_app, frames_where_repeat by exact p_nop. reflexivity.
Qed.

Lemma transmit_restore_frames (wasActive wasListening : bool) (m : Machine) :
  frames_where p (log (hw (exec (transmit_restore h wasActive wasListening) m))) =
  (if wasActive && wasListening
      && negb (previousRXAddress (obj m) =? ownAddress (obj m))
      && p (wcmd h (RX_ADDR_P0 h))
   then [assembleFullAddress (netmask (obj m)) (ownAddress (obj m))] else [])
  ++ frames_where p (log (hw m)).
Proof.
  rewrite transmit_restore_run.
  destruct wasActive; cbn [negb andb]; [destruct wasListening; cbn [andb]|].
  - cbn [hw]. rewrite listening_hw_frames. reflexivity.
  - reflexivity.
  - cbn [on_hw hw]. rewrite inactive_hw_frames. reflexivity.
Qed.

End Frames.

(** ** Payload length *)

Lemma transmit_payloads (h : Header) (fuel : nat) (targetAddress : Z)
    (data : list Z) (len : Z) (ack : bool) (m : Machine)
    (result : bool) (m' : Machine) :
  payload_commands_apart h = true ->
  len <> 0 ->
  transmit h fuel targetAddress data len ack m = Some (result, m') ->
  payloads h (log (hw m')) =
  fetch (Z.to_nat (if 32 <? len then 32 else len)) data
    :: payloads h (log (hw m)).
Proof.
  intros Hapart Hlen Hrun.
  unfold payload_commands_apart, transmit_commands, wcmd, rcmd in Hapart.
  cbn [forallb] in Hapart.
  repeat (apply andb_prop in Hapart; destruct Hapart as [?H Hapart]).
  repeat match goal with
         | H : negb _ = true |- _ => apply negb_true_iff in H
         end.
  destruct (transmit_run h fuel targetAddress data len ack m result m' Hlen Hrun)
    as (n & cause & _ & _ & _ & ->).
  unfold payloads.
  rewrite transmit_restore_frames by assumption.
  rewrite after_poll_frames by assumption.
  cbn [on_hw hw log tick].
  rewrite loaded_hw_frames, setup_mode_frames by assumption.
  rewrite setup_addresses_frames. unfold wcmd.
  repeat match goal with
         | H : is_tx_payload h ?c = false |- _ => rewrite H; clear H
         end.
  rewrite !andb_false_r. cbn [app].
  replace (is_tx_payload h (if ack then W_TX_PAYLOAD h else W_TX_PAYLOAD_NO_ACK h))
    with true; [reflexivity|].
  unfold is_tx_payload. destruct ack; rewrite Z.eqb_refl;
    [reflexivity | now rewrite orb_true_r].
Qed.

(** C4.  [transmit] with an empty payload returns [false] and leaves the
    machine untouched: nothing is written and no register changes.  With
    more than 32 bytes it behaves exactly as with the first 32, so that no
    error comes back for the truncation, and the one payload it loads into
    the transmit queue is those 32 bytes. *)
Theorem transmit_length_guard (h : Header) (fuel : nat) (targetAddress : Z)
    (data : list Z) (len : Z) (ack : bool) (m : Machine) :
  payload_commands_apart h = true ->
  (32 <= length data)%nat ->
  transmit h fuel targetAddress data 0 ack m = Some (false, m) /\
  (32 < len ->
   transmit h fuel targetAddress data len ack m =
     transmit h fuel targetAddress data 32 ack m /\
   forall result m',
     transmit h fuel targetAddress data len ack m = Some (result, m') ->
     payloads h (log (hw m')) = firstn 32 data :: payloads h (log (hw m))).
Proof.
  intros Hapart Hdata. split; [reflexivity|].
  intros Hlen. split.
  - unfold transmit.
    destruct (Z.eqb_spec len 0) as [|_]; [lia|].
    destruct (Z.ltb_spec 32 len) as [_|]; [|lia].
    reflexivity.
  - intros result m' Hrun.
    rewrite (transmit_payloads h fuel targetAddress data len ack m result m')
      by (assumption || lia).
    destruct (Z.ltb_spec 32 len) as [_|]; [|lia].
    change (Z.to_nat 32) with 32%nat. now rewrite fetch_firstn.
Qed.

Lemma transmit_length_guard_witness :
  let data := map Z.of_nat (seq 1 40) in
  let m := bench (fun _ => 0x2E) (fun _ => 0) in
  let out := transmit datasheet 5 2 data 40 true m in
  transmit datasheet 5 2 data 0 true m = Some (false, m) /\
  out = transmit datasheet 5 2 data 32 true m /\
  payloads datasheet (log (hw (machine_of out m))) = [firstn 32 data].
Proof.
  intros data m out.
  assert (Hapart : payload_commands_apart datasheet = true) by reflexivity.
  assert (Hdata : (32 <= length data)%nat) by (cbn; lia).
  destruct (transmit_length_guard datasheet 5 2 data 40 true m Hapart Hdata)
    as [Hzero Hlong].
  destruct (Hlong ltac:(lia)) as [Hsame Hpay].
  split; [exact Hzero|]. split; [exact Hsame|].
  apply (Hpay true). vm_compute. reflexivity.
Defined.

(** ** Pipe 0 follows the driver's own address *)

Ltac unfold_calls :=
  cbv beta iota zeta delta
    [setChannel getChannel setDataRate setPowerAmplificationLevel setRetries
     setCRCMode setACKEnabled getActive getCurrentMode available exec eval];
  unfold_driver.

Section Pipe0.

Variable h : Header.
Hypothesis apart : pipe0_command_apart h = true.

Local Notation p0 := (is_pipe0_write h).
Local Notation quiet := (pipe0_quiet h).

Lemma apart_all :
  Forall (fun c => (c =? wcmd h (RX_ADDR_P0 h)) = false) (other_commands h).
Proof.
  apply Forall_forall. intros c Hc. apply negb_true_iff.
  exact (proj1 (forallb_forall _ _) apart c Hc).
Qed.

Ltac apart_facts :=
  let F := fresh "F" in
  pose proof apart_all as F;
  unfold other_commands, wcmd, rcmd in F;
  repeat (apply Forall_cons_iff in F; destruct F as [?F F]);
  clear F.

Ltac drop_others :=
  cbn [frames_where];
  repeat match goal with
         | H : (?x =? ?y) = false |- context [?x =? ?y] => rewrite H
         end;
  cbn [frames_where].

Ltac quiet_by_unfolding :=
  intros; unfold pipe0_quiet, is_pipe0_write, wcmd; apart_facts; unfold_calls; split_ifs;
  drop_others; repeat split.

Lemma setChannel_quiet ch m : quiet m (exec (setChannel h ch) m).
Proof. quiet_by_unfolding. Qed.

Lemma getChannel_quiet m : quiet m (exec (getChannel h) m).
Proof. quiet_by_unfolding. Qed.

Lemma setDataRate_quiet r m : quiet m (exec (setDataRate h r) m).
Proof. destruct r; quiet_by_unfolding. Qed.

Lemma setPowerAmplificationLevel_quiet l m :
  quiet m (exec (setPowerAmplificationLevel h l) m).
Proof. destruct l; quiet_by_unfolding. Qed.

Lemma setRetries_quiet d c m : quiet m (exec (setRetries h d c) m).
Proof. quiet_by_unfolding. Qed.

Lemma setCRCMode_quiet mode m : quiet m (exec (setCRCMode h mode) m).
Proof. destruct mode; quiet_by_unfolding. Qed.

Lemma setACKEnabled_quiet b m : quiet m (exec (setACKEnabled b) m).
Proof. quiet_by_unfolding. Qed.

Lemma setActive_quiet b m : quiet m (exec (setActive h b) m).
Proof. destruct b; quiet_by_unfolding. Qed.

Lemma getActive_quiet m : quiet m (exec (getActive h) m).
Proof. quiet_by_unfolding. Qed.

Lemma getCurrentMode_quiet m : quiet m (exec (getCurrentMode h) m).
Proof. quiet_by_unfolding. Qed.

Lemma stopListening_quiet m : quiet m (exec (stopListening h) m).
Proof. quiet_by_unfolding. Qed.

Lemma available_quiet m : quiet m (exec (available h) m).
Proof. quiet_by_unfolding. Qed.

Lemma read_quiet n m : quiet m (exec (read h n) m).
Proof.
  unfold pipe0_quiet, is_pipe0_write, wcmd, exec. rewrite read_run. apart_facts.
  cbn [snd on_hw hw obj log framed drive_ce]. drop_others. repeat split.
Qed.

Lemma quiet_refl m : quiet m m.
Proof. repeat split. Qed.

Lemma quiet_trans m1 m2 m3 : quiet m1 m2 -> quiet m2 m3 -> quiet m1 m3.
Proof.
  unfold pipe0_quiet. intros (A1 & B1 & C1 & D1 & E1) (A2 & B2 & C2 & D2 & E2).
  repeat split; congruence.
Qed.

Lemma quiet_sync m m' : quiet m m' -> pipe0_in_sync h m -> pipe0_in_sync h m'.
Proof.
  unfold pipe0_quiet, pipe0_in_sync, programmed. fold (is_pipe0_write h).
  intros (-> & -> & _ & -> & _) Hs. exact Hs.
Qed.

Lemma p0_self : p0 (wcmd h (RX_ADDR_P0 h)) = true.
Proof. apply Z.eqb_refl. Qed.

(** [startListening] leaves pipe 0 at the own address whenever the cache
    was right before. *)
Lemma startListening_own m :
  pipe0_in_sync h m ->
  pipe0_is_own h (exec (startListening h) m) /\
  netmask (obj (exec (startListening h) m)) = netmask (obj m) /\
  ownAddress (obj (exec (startListening h) m)) = ownAddress (obj m) /\
  numPipes (obj (exec (startListening h) m)) = numPipes (obj m).
Proof.
  unfold pipe0_in_sync, pipe0_is_own, programmed, exec.
  fold (is_pipe0_write h).
  rewrite startListening_run. cbn [snd obj hw]. intros Hsync.
  apart_facts. rewrite listening_hw_frames by assumption.
  rewrite p0_self, andb_true_r. unfold listening_obj.
  destruct (Z.eqb_spec (previousRXAddress (obj m)) (ownAddress (obj m)))
    as [Heq | Hne]; cbn [negb app].
  - rewrite Hsync, Heq. repeat split. cbn. exact Heq.
  - repeat split.
Qed.

Lemma own_sync m : pipe0_is_own h m -> pipe0_in_sync h m.
Proof. unfold pipe0_is_own, pipe0_in_sync. intros [-> ->]. reflexivity. Qed.

(** [setAddress] programs pipe 0 and the cache together. *)
Lemma setAddress_own a m :
  pipe0_is_own h (exec (setAddress h a) m) /\
  numPipes (obj (exec (setAddress h a) m)) = numPipes (obj m) /\
  netmask (obj (exec (setAddress h a) m)) = netmask (obj m).
Proof.
  unfold pipe0_is_own, programmed. apart_facts. unfold wcmd.
  change (Z.to_nat 5) with 5%nat.
  unfold_calls. change (Z.to_nat 5) with 5%nat. unfold_calls.
  drop_others. rewrite Z.eqb_refl. repeat split.
Qed.

Lemma queueResponse_sync data len m :
  pipe0_in_sync h m ->
  pipe0_in_sync h (exec (queueResponse h data len) m) /\
  numPipes (obj (exec (queueResponse h data len) m)) = numPipes (obj m) /\
  netmask (obj (exec (queueResponse h data len) m)) = netmask (obj m).
Proof.
  intros Hsync. unfold exec. rewrite queueResponse_run.
  assert (Hentry : pipe0_in_sync h (queue_entry h m) /\
                   numPipes (obj (queue_entry h m)) = numPipes (obj m) /\
                   netmask (obj (queue_entry h m)) = netmask (obj m)).
  { unfold queue_entry. destruct (listening (obj m)); [now repeat split|].
    destruct (startListening_own m Hsync) as (Hown & Hnm & _ & Hn).
    split; [now apply own_sync | split; assumption]. }
  destruct Hentry as (Hentry & Hn & Hnm).
  set (m2 := on_hw (framed [R_REGISTER h .| FIFO_STATUS h; NOP h]) (queue_entry h m)).
  assert (Hq2 : quiet (queue_entry h m) m2).
  { subst m2. unfold pipe0_quiet, is_pipe0_write, wcmd. apart_facts.
    cbn [on_hw hw obj log framed]. drop_others. repeat split. }
  destruct (flag _ _); cbn [snd].
  - split; [exact (quiet_sync _ _ Hq2 Hentry)|].
    destruct Hq2 as (_ & -> & _ & _ & ->). split; assumption.
  - set (m3 := on_hw (framed _) m2).
    assert (Hq3 : quiet m2 m3).
    { subst m3. unfold pipe0_quiet, is_pipe0_write, wcmd. apart_facts.
      cbn [on_hw hw obj log framed]. drop_others. repeat split. }
    assert (Hq : quiet (queue_entry h m)
                   (if negb (listening (obj m)) then exec (stopListening h) m3 else m3)).
    { destruct (negb _).
      - exact (quiet_trans _ _ _ Hq2 (quiet_trans _ _ _ Hq3 (stopListening_quiet m3))).
      - exact (quiet_trans _ _ _ Hq2 Hq3). }
    split; [exact (quiet_sync _ _ Hq Hentry)|].
    destruct Hq as (_ & -> & _ & _ & ->). split; assumption.
Qed.

Lemma quiet_on_hw (f : World -> World) m :
  frames_where p0 (log (f (hw m))) = frames_where p0 (log (hw m)) ->
  quiet m (on_hw f m).
Proof. intros Hf. repeat split. exact Hf. Qed.

Lemma transmit_sync fuel t data len ack m result m' :
  pipe0_in_sync h m ->
  transmit h fuel t data len ack m = Some (result, m') ->
  pipe0_in_sync h m' /\
  netmask (obj m') = netmask (obj m) /\
  ownAddress (obj m') = ownAddress (obj m) /\
  numPipes (obj m') = numPipes (obj m).
Proof.
  intros Hsync Hrun.
  destruct (Z.eq_dec len 0) as [-> | Hlen].
  { injection Hrun as _ <-. repeat split. exact Hsync. }
  destruct (transmit_run h fuel t data len ack m result m' Hlen Hrun)
    as (n & cause & _ & _ & _ & ->).
  set (m1 := {| obj := setup_obj t ack (obj m);
                hw := setup_addresses h t ack (obj m) (hw m) |}).
  set (m2 := on_hw (setup_mode h (answer m1 1) (answer m1 5)) m1).
  set (m3 := on_hw tick (on_hw (loaded_hw h data _ ack) m2)).
  set (m4 := after_poll h n cause m3).
  apart_facts.
  assert (H1 : pipe0_in_sync h m1 /\ netmask (obj m1) = netmask (obj m) /\
               ownAddress (obj m1) = ownAddress (obj m) /\
               numPipes (obj m1) = numPipes (obj m)).
  { subst m1. unfold pipe0_in_sync, programmed in Hsync |- *.
    fold (is_pipe0_write h) in Hsync |- *.
    cbn [obj hw]. rewrite setup_addresses_frames.
    assert (Htx : p0 (wcmd h (TX_ADDR h)) = false)
      by (unfold is_pipe0_write, wcmd; assumption).
    rewrite p0_self, andb_true_r, Htx, andb_false_r. unfold setup_obj.
    destruct (negb (previousTXAddress (obj m) =? t));
      destruct (ack && negb (previousRXAddress (obj m) =? t));
      cbn [app hd_error netmask previousRXAddress ownAddress numPipes
           set_previousRXAddress set_previousTXAddress];
      repeat split; assumption. }
  assert (H12 : quiet m1 m2).
  { apply quiet_on_hw. now apply setup_mode_frames. }
  assert (H23 : quiet m2 m3).
  { subst m3. unfold pipe0_quiet. cbn [on_hw hw obj log tick].
    rewrite loaded_hw_frames. unfold is_pipe0_write at 1.
    assert (Hcmd : ((if ack then W_TX_PAYLOAD h else W_TX_PAYLOAD_NO_ACK h)
                    =? wcmd h (RX_ADDR_P0 h)) = false)
      by (unfold wcmd; destruct ack; assumption).
    rewrite Hcmd. repeat split. }
  assert (H34 : quiet m3 m4).
  { apply quiet_on_hw. now apply (after_poll_frames h p0). }
  assert (H14 : quiet m1 m4)
    by exact (quiet_trans _ _ _ H12 (quiet_trans _ _ _ H23 H34)).
  assert (H4 : pipe0_in_sync h m4) by exact (quiet_sync _ _ H14 (proj1 H1)).
  destruct H1 as (_ & Hnm & Hown & Hnp).
  destruct H14 as (_ & Hnm4 & Hown4 & _ & Hnp4).
  rewrite transmit_restore_run.
  destruct (negb (to_bool _)); [|destruct (listening (obj m))].
  - assert (Hq : quiet m4 (on_hw (fun w => inactive_hw h (answer m4 1)
                                            (drive_ce false w)) m4)).
    { apply quiet_on_hw. now rewrite inactive_hw_frames. }
    split; [exact (quiet_sync _ _ Hq H4)|].
    cbn [on_hw obj]. repeat split; congruence.
  - assert (Hq : quiet m4 (on_hw (drive_ce false) m4)) by now apply quiet_on_hw.
    destruct (startListening_own _ (quiet_sync _ _ Hq H4)) as (Hso & Hsn & Hsa & Hsp).
    unfold exec in *. rewrite startListening_run in *. cbn [snd] in *.
    cbn [on_hw obj hw] in *.
    change (answer {| obj := obj m4; hw := drive_ce false (hw m4) |} 1)
      with (answer m4 1) in *.
    split; [now apply own_sync|]. repeat split; congruence.
  - assert (Hq : quiet m4 (on_hw (drive_ce false) m4)) by now apply quiet_on_hw.
    split; [exact (quiet_sync _ _ Hq H4)|].
    cbn [on_hw obj]. repeat split; congruence.
Qed.

Lemma listenToAddress_sync a m :
  pipe0_in_sync h m -> 0 <= numPipes (obj m) ->
  pipe0_in_sync h (exec (listenToAddress h a) m) /\
  0 <= numPipes (obj (exec (listenToAddress h a) m)) /\
  netmask (obj (exec (listenToAddress h a) m)) = netmask (obj m).
Proof.
  intros Hsync Hnp.
  destruct (Z.le_gt_cases 5 (numPipes (obj m))) as [Hfull | Hfree].
  { unfold exec. rewrite listenToAddress_full by assumption.
    now repeat split. }
  assert (E : exists ms,
             listenToAddress h a m =
               (numPipes (obj ms),
                on_obj (set_numPipes (numPipes (obj ms) + 1)) ms) /\
             pipe0_is_own h ms /\
             netmask (obj ms) = netmask (obj m) /\
             numPipes (obj ms) = numPipes (obj m)).
  { unfold listenToAddress.
    unfold bind at 1. unfold get_obj at 1. cbv beta iota.
    destruct (Z.leb_spec 5 (numPipes (obj m))); [lia|].
    unfold bind at 1.
    set (c := if u8 (numPipes (obj m) + 1) <=? 1 then _ else _).
    assert (Hc : quiet m (snd (c m))).
    { assert (Hk : numPipes (obj m) = 0 \/ numPipes (obj m) = 1 \/
                   numPipes (obj m) = 2 \/ numPipes (obj m) = 3 \/
                   numPipes (obj m) = 4) by lia.
      subst c. apart_facts. unfold pipe0_quiet, is_pipe0_write, wcmd.
      destruct Hk as [Hk | [Hk | [Hk | [Hk | Hk]]]]; rewrite Hk;
        match goal with
        | |- context [u8 ?x] =>
            let v := eval vm_compute in (u8 x) in change (u8 x) with v
        end;
        match goal with
        | |- context [?x <=? 1] =>
            let v := eval vm_compute in (x <=? 1) in change (x <=? 1) with v
        end;
        cbv beta iota; unfold_calls; change (Z.to_nat 5) with 5%nat;
        unfold_calls; drop_others; repeat split; exact Hk. }
    destruct (c m) as [[] ma]. cbn [snd] in Hc.
    unfold bind at 1. rewrite readRegister_run.
    unfold bind at 1. rewrite writeRegister_run.
    set (mb := on_hw _ (on_hw _ ma)).
    assert (Hb : quiet ma mb).
    { subst mb. unfold pipe0_quiet, is_pipe0_write, wcmd. apart_facts.
      cbn [on_hw hw obj log framed]. drop_others. repeat split. }
    pose proof (quiet_trans _ _ _ Hc Hb) as Hmb.
    destruct (startListening_own mb (quiet_sync _ _ Hmb Hsync))
      as (Hown & Hnm & Hoa & Hn).
    unfold exec in *. unfold bind at 1.
    destruct (startListening h mb) as [[] ms]. cbn [snd] in *.
    cbv beta iota delta [bind get_obj assign ret].
    exists ms. split; [reflexivity|]. split; [exact Hown|].
    destruct Hmb as (_ & Hnm' & _ & _ & Hn'). split; congruence. }
  destruct E as (ms & E & Hown & Hnm & Hn).
  unfold exec. rewrite E. cbn [snd on_obj obj hw].
  split; [|split].
  - apply own_sync in Hown. exact Hown.
  - cbn [set_numPipes numPipes]. lia.
  - cbn [set_numPipes netmask]. exact Hnm.
Qed.

End Pipe0.

(** ** No call leaves a bus transaction open *)

Lemma transmit_idle (h : Header) (fuel : nat) (t : Z) (data : list Z)
    (len : Z) (ack : bool) (m : Machine) (result : bool) (m' : Machine) :
  transmit h fuel t data len ack m = Some (result, m') ->
  sel (hw m) = [] -> sel (hw m') = [].
Proof.
  intros Hrun Hidle.
  destruct (Z.eq_dec len 0) as [-> | Hlen]; [now injection Hrun as _ <-|].
  destruct (transmit_run h fuel t data len ack m result m' Hlen Hrun)
    as (n & cause & _ & _ & _ & ->).
  rewrite transmit_restore_run.
  destruct (negb _); [reflexivity|]. destruct (listening (obj m)); reflexivity.
Qed.

Lemma listenToAddress_idle (h : Header) (a : Z) (m : Machine) :
  sel (hw m) = [] -> sel (hw (exec (listenToAddress h a) m)) = [].
Proof.
  intros Hidle.
  destruct (Z.le_gt_cases 5 (numPipes (obj m))) as [Hfull | Hfree].
  { unfold exec. now rewrite listenToAddress_full. }
  unfold exec, listenToAddress.
  unfold bind at 1. unfold get_obj at 1. cbv beta iota.
  destruct (Z.leb_spec 5 (numPipes (obj m))); [lia|].
  unfold bind at 1.
  set (c := if u8 (numPipes (obj m) + 1) <=? 1 then _ else _).
  destruct (c m) as [[] m1].
  unfold bind at 1. rewrite readRegister_run.
  unfold bind at 1. rewrite writeRegister_run.
  unfold bind at 1. rewrite startListening_run.
  reflexivity.
Qed.

Lemma send_response_idle (h : Header) (fuel : nat) (t : Z) (data : list Z)
    (len bufferSize : Z) (m : Machine) (r : Z * list Z) (m' : Machine) :
  send_response h fuel t data len bufferSize m = Some (r, m') ->
  sel (hw m') = [].
Proof.
  unfold send_response, send. intros Hrun.
  destruct (transmit h fuel t data len _ (exec (flushRX h) m))
    as [[sent m1]|] eqn:Hsend; [|discriminate].
  assert (H1 : sel (hw m1) = [])
    by exact (transmit_idle h _ _ _ _ _ _ _ _ Hsend eq_refl).
  destruct sent; cbn [negb] in Hrun; [|now injection Hrun as _ <-].
  destruct (ackEnabled (obj m1)); [|now injection Hrun as _ <-].
  rewrite pollOnce_run in Hrun.
  destruct (negb _); [now injection Hrun as _ <-|].
  rewrite read_run in Hrun. now injection Hrun as _ <-.
Qed.

Lemma some_eq {A} (x y : A) : Some x = Some y -> x = y.
Proof. now intros [=]. Qed.

Lemma call_idle (h : Header) (c : Call) (m m' : Machine) :
  call h c m = Some m' -> sel (hw m) = [] -> sel (hw m') = [].
Proof.
  intros Hcall Hidle.
  assert (Htx : forall fuel t data len ack,
            option_map snd (transmit h fuel t data len ack m) = Some m' ->
            sel (hw m') = []).
  { intros fuel t data len ack H.
    destruct (transmit h fuel t data len ack m) as [[r m1]|] eqn:Hrun;
      [|discriminate].
    apply some_eq in H. cbn [snd] in H. subst m'.
    exact (transmit_idle h _ _ _ _ _ _ _ _ Hrun Hidle). }
  destruct c; cbn [call] in Hcall.
  1, 3-7, 9-14, 19, 22:
    apply some_eq in Hcall; subst m'; unfold_calls; split_ifs;
    first [reflexivity | exact Hidle].
  - apply some_eq in Hcall. subst m'. now apply listenToAddress_idle.
  - apply some_eq in Hcall. subst m'.
    destruct mode; unfold_calls; split_ifs; reflexivity.
  - exact (Htx _ _ _ _ _ Hcall).
  - exact (Htx _ _ _ _ _ Hcall).
  - exact (Htx _ _ _ _ _ Hcall).
  - apply some_eq in Hcall. subst m'. unfold exec. rewrite queueResponse_run.
    destruct (flag _ _); cbn [snd]; [reflexivity|].
    destruct (negb _); reflexivity.
  - apply some_eq in Hcall. subst m'. unfold exec. rewrite read_run. reflexivity.
  - apply some_eq in Hcall. subst m'. reflexivity.
  - exact (Htx _ _ _ _ _ Hcall).
  - exact (Htx _ _ _ _ _ Hcall).
  - destruct (send_attempts h fuel targetAddress data length m)
      as [[[sent n] m1]|] eqn:Hrun; [|discriminate].
    apply some_eq in Hcall. cbn [snd] in Hcall. subst m'.
    unfold send_attempts in Hrun.
    destruct (transmit h fuel targetAddress data length _ m) as [[s1 m2]|];
      [|discriminate].
    rewrite readRegister_run in Hrun. apply some_eq in Hrun.
    injection Hrun as _ _ <-. reflexivity.
  - destruct (send_response h fuel targetAddress data length bufferSize m)
      as [[r m1]|] eqn:Hrun; [|discriminate].
    apply some_eq in Hcall. cbn [snd] in Hcall. subst m'.
    exact (send_response_idle h _ _ _ _ _ _ _ _ Hrun).
  - exact (Htx _ _ _ _ _ Hcall).
  - apply some_eq in Hcall. subst m'. unfold exec, read_str, bind.
    rewrite read_run. reflexivity.
Qed.

Lemma frames_where_skip (p : Z -> bool) (c : Z) (body : list Z) (l : list Event) :
  p c = false -> frames_where p (EvFrame (c :: body) :: l) = frames_where p l.
Proof. intros H. cbn [frames_where]. now rewrite H. Qed.

Lemma frames_where_event (p : Z -> bool) (e : Event) (l : list Event) :
  match e with EvFrame (_ :: _) => False | _ => True end ->
  frames_where p (e :: l) = frames_where p l.
Proof. destruct e as [| | | |[|c body]| |]; intros H; now try reflexivity. Qed.

(** The trace of [begin]. *)
Lemma begin_log (h : Header) (cePin_ csnPin_ netmask_ : Z) (m : Machine) :
  let w := W_REGISTER h in
  let r := R_REGISTER h in
  let k := REGISTER_MASK h in
  let pa := u8 (u8 (answer m 3 .& .~ 0x6) .| (RF_PA_LOW h .| RF_PA_HIGH h)) in
  let dr := u8 (u8 (answer m 7 .& .~ (RF_DR_HIGH h .| RF_DR_LOW h)) .| RF_DR_HIGH h) in
  let crc := u8 (u8 (u8 (u8 (answer m 11 .& .~ EN_CRC h) .& .~ CRCO h)
                       .| EN_CRC h) .| CRCO h) in
  log (hw (exec (begin h cePin_ csnPin_ netmask_) m)) =
    [ EvFrame [FLUSH_TX h]; EvFrame [FLUSH_RX h];
      EvDelayMicroseconds 1500;
      EvFrame [w .| (k .& CONFIG h); u8 (answer m 33 .& .~ PWR_UP h)];
      EvFrame [r .| CONFIG h; NOP h];
      EvFrame [w .| (k .& STATUS h);
               u8 (answer m 29 .| RX_DR h .| TX_DS h .| MAX_RT h)];
      EvFrame [r .| STATUS h; NOP h];
      EvFrame [w .| (k .& SETUP_AW h); 0x3];
      EvFrame [w .| (k .& DYNPD h);
               u8 (DPL_P0 h .| DPL_P1 h .| DPL_P2 h .| DPL_P3 h
                   .| DPL_P4 h .| DPL_P5 h)];
      EvFrame [w .| (k .& EN_AA h);
               u8 (ENAA_P0 h .| ENAA_P1 h .| ENAA_P2 h .| ENAA_P3 h
                   .| ENAA_P4 h .| ENAA_P5 h)];
      EvFrame [w .| (k .& FEATURE h);
               u8 (answer m 19 .| EN_DPL h .| EN_ACK_PAY h .| EN_DYN_ACK h)];
      EvFrame [r .| FEATURE h; NOP h];
      EvFrame [w .| (k .& ACTIVATE h); 0x73];
      EvFrame [w .| (k .& RF_CH h); 76 .& 0x7F];
      EvFrame [w .| (k .& CONFIG h); crc];
      EvFrame [r .| CONFIG h; NOP h];
      EvFrame [w .| (k .& RF_SETUP h); dr];
      EvFrame [r .| RF_SETUP h; NOP h];
      EvFrame [w .| (k .& RF_SETUP h); pa];
      EvFrame [r .| RF_SETUP h; NOP h];
      EvFrame [w .| (k .& SETUP_RETR h); u8 ((15 .<< 4) .| 15)];
      EvDelay 100; EvCE false; EvFrame (rev (sel (hw m)));
      EvSpiClockDiv4; EvSpiBegin; EvPinMode csnPin_; EvPinMode cePin_ ]
    ++ log (hw m).
Proof. reflexivity. Qed.

(** ** What the calls keep true *)

Section Reachable.

Variable h : Header.
Hypothesis apart : pipe0_command_apart h = true.
Hypothesis apart_setup : setup_commands_apart h = true.

Variable nm : Z.

Lemma apart_setup_all :
  Forall (fun c => (c =? wcmd h (RX_ADDR_P0 h)) = false) (setup_commands h).
Proof.
  apply Forall_forall. intros c Hc. apply negb_true_iff.
  exact (proj1 (forallb_forall _ _) apart_setup c Hc).
Qed.

Ltac known_command :=
  solve
    [ apply (proj1 (Forall_forall _ _) (apart_all h apart));
      unfold other_commands; cbn [In];
      repeat (first [left; reflexivity | right])
    | apply (proj1 (Forall_forall _ _) apart_setup_all);
      unfold setup_commands; cbn [In];
      repeat (first [left; reflexivity | right]) ].

Lemma frame_quiet (c : Z) (rest : list Z) (m : Machine) :
  (c =? wcmd h (RX_ADDR_P0 h)) = false ->
  pipe0_quiet h m (on_hw (framed (c :: rest)) m).
Proof.
  intros Hc. unfold pipe0_quiet, is_pipe0_write.
  cbn [on_hw hw obj log framed frames_where]. rewrite Hc. repeat split.
Qed.

Lemma quiet_synced m m' :
  pipe0_quiet h m m' -> synced h nm m -> synced h nm m'.
Proof.
  intros Hq (Hs & Hn & Hnm). split; [exact (quiet_sync h m m' Hq Hs)|].
  destruct Hq as (_ & -> & _ & _ & ->). now split.
Qed.

Lemma transmit_synced fuel t data len ack m result m' :
  synced h nm m ->
  transmit h fuel t data len ack m = Some (result, m') ->
  synced h nm m'.
Proof.
  intros (Hs & Hn & Hnm) Hrun.
  destruct (transmit_sync h apart _ _ _ _ _ _ _ _ Hs Hrun) as (H1 & H2 & _ & H3).
  unfold synced. rewrite H2, H3. now repeat split.
Qed.

(** [begin] with the mask in force writes nothing to pipe 0's address. *)
Lemma begin_synced cePin_ csnPin_ m :
  sel (hw m) = [] -> synced h nm m ->
  synced h nm (exec (begin h cePin_ csnPin_ nm) m).
Proof.
  intros Hidle (Hs & Hn & Hnm).
  assert (Hlog : frames_where (is_pipe0_write h)
                   (log (hw (exec (begin h cePin_ csnPin_ nm) m))) =
                 frames_where (is_pipe0_write h) (log (hw m))).
  { rewrite begin_log, Hidle. cbv zeta. cbn [rev app].
    repeat first
      [ rewrite frames_where_event by exact I
      | rewrite frames_where_skip by (unfold is_pipe0_write; known_command) ].
    reflexivity. }
  unfold synced, pipe0_in_sync, programmed. fold (is_pipe0_write h).
  rewrite Hlog, begin_obj. cbn [netmask previousRXAddress numPipes].
  unfold pipe0_in_sync, programmed in Hs. fold (is_pipe0_write h) in Hs.
  rewrite Hnm in Hs. split; [exact Hs|]. split; [lia | reflexivity].
Qed.

Lemma send_response_synced fuel t data len bufferSize m r m' :
  synced h nm m ->
  send_response h fuel t data len bufferSize m = Some (r, m') ->
  synced h nm m'.
Proof.
  unfold send_response, send. intros Hst Hrun.
  assert (H0 : synced h nm (exec (flushRX h) m)).
  { refine (quiet_synced _ _ _ Hst). unfold exec. rewrite flushRX_run.
    apply frame_quiet. known_command. }
  destruct (transmit h fuel t data len _ (exec (flushRX h) m))
    as [[sent m1]|] eqn:Hsend; [|discriminate].
  pose proof (transmit_synced _ _ _ _ _ _ _ _ H0 Hsend) as H1.
  destruct sent; cbn [negb] in Hrun; [|now injection Hrun as _ <-].
  destruct (ackEnabled (obj m1)); [|now injection Hrun as _ <-].
  rewrite pollOnce_run in Hrun.
  assert (H2 : synced h nm (on_hw (framed [NOP h]) m1)).
  { refine (quiet_synced _ _ _ H1). apply frame_quiet. known_command. }
  destruct (negb _); [now injection Hrun as _ <-|].
  destruct (read h bufferSize (on_hw (framed [NOP h]) m1)) as [[n stored] m3] eqn:Hread.
  injection Hrun as _ <-.
  refine (quiet_synced _ _ _ H2).
  replace m3 with (exec (read h bufferSize) (on_hw (framed [NOP h]) m1))
    by (unfold exec; now rewrite Hread).
  apply (read_quiet h apart).
Qed.

Lemma call_synced (c : Call) (m m' : Machine) :
  keeps_mask nm [c] = true -> sel (hw m) = [] ->
  synced h nm m -> call h c m = Some m' -> synced h nm m'.
Proof.
  intros Hmask Hidle Hst Hcall. pose proof Hst as (Hs & Hn & Hnm).
  assert (Htx : forall fuel t data len ack,
            option_map snd (transmit h fuel t data len ack m) = Some m' ->
            synced h nm m').
  { intros fuel t data len ack H.
    destruct (transmit h fuel t data len ack m) as [[r m1]|] eqn:Hrun;
      [|discriminate].
    apply some_eq in H. cbn [snd] in H. subst m'.
    exact (transmit_synced _ _ _ _ _ _ _ _ Hst Hrun). }
  destruct c; cbn [call] in Hcall.
  3-12, 14, 19-20:
    apply some_eq in Hcall; subst m'; refine (quiet_synced _ _ _ Hst);
    auto using setChannel_quiet, getChannel_quiet, setDataRate_quiet,
      setPowerAmplificationLevel_quiet, setRetries_quiet, setCRCMode_quiet,
      setACKEnabled_quiet, setActive_quiet, getActive_quiet,
      getCurrentMode_quiet, stopListening_quiet, available_quiet,
      read_quiet.
  - apply some_eq in Hcall. subst m'.
    destruct (setAddress_own h apart address m) as (Hown & H2 & H3).
    unfold synced. rewrite H2, H3. split; [now apply own_sync | now split].
  - apply some_eq in Hcall. subst m'.
    destruct (listenToAddress_sync h apart address m Hs Hn) as (H1 & H2 & H3).
    unfold synced. rewrite H3. now repeat split.
  - apply some_eq in Hcall. subst m'.
    destruct (startListening_own h apart m Hs) as (Hown & H2 & _ & H3).
    unfold synced. rewrite H2, H3. split; [now apply own_sync | now split].
  - exact (Htx _ _ _ _ _ Hcall).
  - exact (Htx _ _ _ _ _ Hcall).
  - exact (Htx _ _ _ _ _ Hcall).
  - apply some_eq in Hcall. subst m'.
    destruct (queueResponse_sync h apart data length m Hs) as (H1 & H2 & H3).
    unfold synced. rewrite H2, H3. now repeat split.
  - apply some_eq in Hcall. subst m'.
    cbn [keeps_mask forallb] in Hmask. rewrite andb_true_r in Hmask.
    apply Z.eqb_eq in Hmask. subst netmask_.
    now apply begin_synced.
  - apply some_eq in Hcall. subst m'. refine (quiet_synced _ _ _ Hst).
    unfold exec, getPowerAmplificationLevel, bind. rewrite readRegister_run.
    apply frame_quiet. known_command.
  - exact (Htx _ _ _ _ _ Hcall).
  - exact (Htx _ _ _ _ _ Hcall).
  - destruct (send_attempts h fuel targetAddress data length m)
      as [[[sent n] m1]|] eqn:Hrun; [|discriminate].
    apply some_eq in Hcall. cbn [snd] in Hcall. subst m'.
    unfold send_attempts in Hrun.
    destruct (transmit h fuel targetAddress data length _ m) as [[s1 m2]|] eqn:Htr;
      [|discriminate].
    rewrite readRegister_run in Hrun. apply some_eq in Hrun.
    injection Hrun as _ _ <-.
    refine (quiet_synced _ _ _ (transmit_synced _ _ _ _ _ _ _ _ Hst Htr)).
    apply frame_quiet. known_command.
  - destruct (send_response h fuel targetAddress data length bufferSize m)
      as [[r m1]|] eqn:Hrun; [|discriminate].
    apply some_eq in Hcall. cbn [snd] in Hcall. subst m'.
    exact (send_response_synced _ _ _ _ _ _ _ _ Hst Hrun).
  - exact (Htx _ _ _ _ _ Hcall).
  - apply some_eq in Hcall. subst m'. refine (quiet_synced _ _ _ Hst).
    replace (exec (read_str h buf bufferSize) m)
      with (exec (read h (u8 (bufferSize - 1))) m)
      by (unfold exec, read_str, bind;
          now destruct (read h (u8 (bufferSize - 1)) m)).
    apply (read_quiet h apart).
Qed.

Lemma calls_steady (cs : list Call) (m m' : Machine) :
  keeps_mask nm cs = true ->
  steady h nm m -> calls h cs m = Some m' -> steady h nm m'.
Proof.
  revert m. induction cs as [|c cs IH]; intros m Hmask Hst Hcalls;
    cbn [calls] in Hcalls.
  - now apply some_eq in Hcalls; subst m'.
  - destruct (call h c m) as [m1|] eqn:Hcall; [|discriminate].
    cbn [keeps_mask forallb] in Hmask. apply andb_prop in Hmask.
    destruct Hmask as [Hc Hcs]. destruct Hst as [Hsync Hidle].
    apply (IH m1); [exact Hcs | | exact Hcalls].
    split.
    + apply (call_synced c m m1); try assumption.
      cbn [keeps_mask forallb]. now rewrite Hc.
    + exact (call_idle h c m m1 Hcall Hidle).
Qed.

Lemma steady_listening (m : Machine) :
  steady h nm m ->
  pipe0_is_own h (exec (startListening h) m) /\
  ownAddress (obj (exec (startListening h) m)) = ownAddress (obj m) /\
  netmask (obj (exec (startListening h) m)) = nm.
Proof.
  intros ((Hs & _ & Hnm) & _).
  destruct (startListening_own h apart m Hs) as (Hown & H2 & H3 & _).
  rewrite H2, H3. split; [exact Hown | split; [reflexivity | exact Hnm]].
Qed.

End Reachable.

(** C6.  Once [setAddress] has been called - on a driver whose count of
    pipes is not negative, as it is after [begin] - and as long as every
    later [begin] gives the network mask again, whatever calls were made
    since, [startListening] leaves pipe 0 programmed with the five bytes
    assembled from the driver's own address, and the cache of pipe 0's
    address equal to the own address.  This holds in particular right
    after an acknowledged transmission, which may have left pipe 0 at the
    target's address. *)
Theorem startListening_restores_pipe0 (h : Header) (m0 : Machine)
    (address : Z) (cs : list Call) (m : Machine) :
  pipe0_command_apart h = true ->
  setup_commands_apart h = true ->
  0 <= numPipes (obj m0) ->
  keeps_mask (netmask (obj m0)) cs = true ->
  calls h (CallSetAddress address :: cs) m0 = Some m ->
  (pipe0_is_own h (exec (startListening h) m) /\
   ownAddress (obj (exec (startListening h) m)) = ownAddress (obj m) /\
   netmask (obj (exec (startListening h) m)) = netmask (obj m0)) /\
  (forall fuel targetAddress data length result m1,
     transmit h fuel targetAddress data length true m = Some (result, m1) ->
     pipe0_is_own h (exec (startListening h) m1) /\
     ownAddress (obj (exec (startListening h) m1)) = ownAddress (obj m) /\
     netmask (obj (exec (startListening h) m1)) = netmask (obj m0)).
Proof.
  intros Hapart Hsetup Hpipes Hmask Hcalls.
  set (nm := netmask (obj m0)) in *.
  assert (Hst0 : steady h nm (exec (setAddress h address) m0)).
  { destruct (setAddress_own h Hapart address m0) as (Hown & Hnp & Hnm).
    split; [|change (Z.to_nat 5) with 5%nat; unfold_calls; reflexivity].
    split; [now apply own_sync|]. rewrite Hnp, Hnm.
    split; [exact Hpipes | reflexivity]. }
  assert (Hcs : calls h cs (exec (setAddress h address) m0) = Some m)
    by exact Hcalls.
  pose proof (calls_steady h Hapart Hsetup nm cs _ m Hmask Hst0 Hcs) as Hst.
  split; [now apply steady_listening|].
  intros fuel targetAddress data length result m1 Hrun.
  destruct Hst as [Hsync Hidle].
  assert (Hst1 : steady h nm m1).
  { split; [exact (transmit_synced h Hapart nm _ _ _ _ _ _ _ _ Hsync Hrun)|].
    exact (transmit_idle h _ _ _ _ _ _ _ _ Hrun Hidle). }
  destruct (steady_listening h Hapart nm m1 Hst1) as (Hown & Hoa & Hnm).
  repeat split; try apply Hown; try assumption.
  rewrite Hoa. destruct Hsync as (Hs & _ & _).
  now destruct (transmit_sync h Hapart _ _ _ _ _ _ _ _ Hs Hrun) as (_ & _ & -> & _).
Qed.

Lemma startListening_restores_pipe0_witness :
  let m0 := exec (begin datasheet 9 10 0xAABBCCDD)
              (bench (fun _ => 0x2E) (fun _ => 0)) in
  let cs := [CallBegin 9 10 0xAABBCCDD; CallSend 5 2 [104; 105; 0] 3] in
  let m := after_calls datasheet (CallSetAddress 1 :: cs) m0 in
  calls datasheet (CallSetAddress 1 :: cs) m0 = Some m /\
  previousRXAddress (obj m) = 2 /\
  programmed datasheet (RX_ADDR_P0 datasheet) (log (hw m)) =
    Some [2; 0xDD; 0xCC; 0xBB; 0xAA] /\
  pipe0_is_own datasheet (exec (startListening datasheet) m) /\
  programmed datasheet (RX_ADDR_P0 datasheet)
    (log (hw (exec (startListening datasheet) m))) =
    Some [1; 0xDD; 0xCC; 0xBB; 0xAA].
Proof.
  intros m0 cs m.
  assert (Hcalls : calls datasheet (CallSetAddress 1 :: cs) m0 = Some m)
    by (vm_compute; reflexivity).
  split; [exact Hcalls|].
  split; [vm_compute; reflexivity|].
  split; [vm_compute; reflexivity|].
  split; [|vm_compute; reflexivity].
  exact (proj1 (proj1 (startListening_restores_pipe0 datasheet m0 1 cs m
                  eq_refl eq_refl
                  ltac:(vm_compute; discriminate)
                  ltac:(vm_compute; reflexivity)
                  Hcalls))).
Defined.

(** Without [setAddress], or after a [begin] that changes the network
    mask, [startListening] does not leave pipe 0 at the driver's own
    address.  On a zeroed driver [begin] and [startListening] write
    nothing to RX_ADDR_P0, since the cache already equals the own address
    0: the chip keeps the address it had.  After [begin], [setAddress 1]
    and a second [begin] with another mask, the cache still equals the
    own address, so [startListening] leaves pipe 0 at the address built
    with the first mask. *)
Lemma startListening_pipe0_not_own :
  (let m := exec (begin datasheet 9 10 0xAABBCCDD)
              (bench (fun _ => 0x2E) (fun _ => 0)) in
   let m' := exec (startListening datasheet) m in
   programmed datasheet (RX_ADDR_P0 datasheet) (log (hw m')) = None /\
   ~ pipe0_is_own datasheet m') /\
  (let m := after_calls datasheet
              [CallBegin 9 10 0xAABBCCDD; CallSetAddress 1;
               CallBegin 9 10 0x11223344]
              (bench (fun _ => 0x2E) (fun _ => 0)) in
   let m' := exec (startListening datasheet) m in
   programmed datasheet (RX_ADDR_P0 datasheet) (log (hw m')) =
     Some [1; 0xDD; 0xCC; 0xBB; 0xAA] /\
   assembleFullAddress (netmask (obj m')) (ownAddress (obj m')) =
     [1; 0x44; 0x33; 0x22; 0x11] /\
   ~ pipe0_is_own datasheet m').
Proof.
  split.
  - intros m m'. split; [vm_compute; reflexivity|].
    intros [H _]. vm_compute in H. discriminate.
  - intros m m'. split; [vm_compute; reflexivity|].
    split; [vm_compute; reflexivity|].
    intros [H _]. vm_compute in H. discriminate.
Qed.

(** * Further properties of the driver *)


(** ** Byte-wise facts *)

Lemma u8_range (x : Z) : 0 <= u8 x < 256.
Proof. unfold u8. apply Z.mod_pos_bound. lia. Qed.

Lemma answer_range (m : Machine) (k : nat) : 0 <= answer m k < 256.
Proof. apply u8_range. Qed.

(** A boolean property checked on all 256 bytes holds of every byte. *)
Lemma bytes256_forall (P : Z -> bool) :
  forallb P bytes256 = true -> forall x, 0 <= x < 256 -> P x = true.
Proof.
  intros Hall x Hx. rewrite forallb_forall in Hall. apply Hall.
  unfold bytes256. apply in_map_iff. exists (Z.to_nat x).
  split; [lia | apply in_seq; lia].
Qed.

(** ** Addresses do not collide *)

(** X1.  Two nodes never share a 5-byte address: with network masks
    that fit in 32 bits, [assembleFullAddress] gives different byte
    sequences as soon as the masks or the node bytes differ. *)
Theorem assembleFullAddress_injective (m m' a a' : Z) :
  0 <= m < 2 ^ 32 -> 0 <= m' < 2 ^ 32 ->
  m <> m' \/ a <> a' ->
  assembleFullAddress m a <> assembleFullAddress m' a'.
Proof.
  intros Hm Hm' Hne Heq.
  pose proof (decompose_assemble m a Hm) as E.
  rewrite Heq, (decompose_assemble m' a' Hm') in E.
  injection E as -> ->. destruct Hne as [Hne | Hne]; now apply Hne.
Qed.

Lemma assembleFullAddress_injective_witness :
  assembleFullAddress 0xAABBCCDD 1 <> assembleFullAddress 0xAABBCCDD 2.
Proof.
  apply (assembleFullAddress_injective 0xAABBCCDD 0xAABBCCDD 1 2);
    [lia | lia | right; discriminate].
Defined.

(** ** Configuration setters *)

(** X2.  [setRetries] clamps the delay and the count to 15 each and
    writes one byte to SETUP_RETR: the clamped delay in the high nibble,
    the clamped count in the low one.  It reads nothing and does nothing
    else. *)
Theorem setRetries_clamps (h : Header) (delay_ count : Z) (m : Machine) :
  0 <= delay_ < 256 -> 0 <= count < 256 ->
  exec (setRetries h delay_ count) m =
    on_hw (framed [wcmd h (SETUP_RETR h);
                   16 * Z.min delay_ 15 + Z.min count 15]) m /\
  0 <= 16 * Z.min delay_ 15 + Z.min count 15 < 256.
Proof.
  intros Hd Hc. split; [|lia].
  unfold exec, setRetries. rewrite writeRegister_run. cbn [snd].
  unfold wcmd. do 3 f_equal.
  assert (Hd' : (if 15 <? delay_ then 15 else delay_) = Z.min delay_ 15)
    by (destruct (Z.ltb_spec 15 delay_); lia).
  assert (Hc' : (if 15 <? count then 15 else count) = Z.min count 15)
    by (destruct (Z.ltb_spec 15 count); lia).
  rewrite Hd', Hc', (Z.lor_comm (Z.min delay_ 15 .<< 4)).
  clear Hd' Hc'.
  rewrite lor_shiftl_add by (change (2 ^ 4) with 16; lia).
  change (2 ^ 4) with 16. unfold u8. rewrite Z.mod_small by lia.
  f_equal. lia.
Qed.

Lemma setRetries_clamps_witness :
  exec (setRetries datasheet 200 3) (bench (fun _ => 0) (fun _ => 0)) =
  on_hw (framed [0x24; 0xF3]) (bench (fun _ => 0) (fun _ => 0)).
Proof.
  exact (proj1 (setRetries_clamps datasheet 200 3
                  (bench (fun _ => 0) (fun _ => 0))
                  ltac:(lia) ltac:(lia))).
Defined.

(** X3.  [setChannel] keeps the low 7 bits of the channel, so that
    channel 128 + c is written as c; it writes RF_CH once and reads
    nothing.  [getChannel] masks what it reads the same way and always
    returns a value from 0 to 127. *)
Theorem channel_wraps_to_7_bits (h : Header) (channel : Z) (m : Machine) :
  exec (setChannel h channel) m =
    on_hw (framed [wcmd h (RF_CH h); channel mod 128]) m /\
  0 <= eval (getChannel h) m < 128 /\
  eval (getChannel h) m = answer m 1 mod 128.
Proof.
  assert (H7 : forall x, x .& 0x7F = x mod 128).
  { intros x. change 0x7F with (Z.ones 7). now rewrite Z.land_ones by lia. }
  unfold exec, eval, setChannel, getChannel, bind.
  rewrite writeRegister_run, readRegister_run. cbn [fst snd ret].
  rewrite !H7. split; [reflexivity|]. split; [|reflexivity].
  apply Z.mod_pos_bound. lia.
Qed.

(** Splits a checked pair of integer equalities. *)
Ltac from_check H Ha Hb :=
  cbv zeta in H; apply andb_prop in H; destruct H as [Ha Hb];
  apply Z.eqb_eq in Ha; apply Z.eqb_eq in Hb.

(** X4.  With the register map of the nRF24L01+: [setCRCMode] with
    NRF24_NO_CRC reads CONFIG and returns without writing it, so that the
    CRC setting stays what it was; with the 8-bit and 16-bit modes it
    writes CONFIG back with EN_CRC set and CRCO clear, respectively set,
    and every other bit as read. *)
Theorem setCRCMode_bits (mode : nrf24_crc_mode_e) (m : Machine) :
  let c := answer m 1 in
  let m1 := on_hw (framed [rcmd datasheet (CONFIG datasheet); NOP datasheet]) m in
  match mode with
  | NRF24_NO_CRC => exec (setCRCMode datasheet mode) m = m1
  | _ =>
      exists v,
        exec (setCRCMode datasheet mode) m =
          on_hw (framed [wcmd datasheet (CONFIG datasheet); v]) m1 /\
        v .& (EN_CRC datasheet .| CRCO datasheet) =
          (match mode with
           | NRF24_CRC_16BIT => EN_CRC datasheet .| CRCO datasheet
           | _ => EN_CRC datasheet
           end) /\
        v .& .~ (EN_CRC datasheet .| CRCO datasheet) =
          c .& .~ (EN_CRC datasheet .| CRCO datasheet)
  end.
Proof.
  intros c m1. pose proof (answer_range m 1) as Hc. fold c in Hc.
  destruct mode.
  - reflexivity.
  - eexists. split; [reflexivity|].
    pose proof (bytes256_forall
      (fun c => let v := u8 (u8 (u8 (c .& .~ 8) .& .~ 4) .| 8) in
                (v .& 12 =? 8) && (v .& .~ 12 =? c .& .~ 12))
      ltac:(vm_compute; reflexivity) c Hc) as H.
    from_check H Ha Hb. split; [exact Ha | exact Hb].
  - eexists. split; [reflexivity|].
    pose proof (bytes256_forall
      (fun c => let v := u8 (u8 (u8 (u8 (c .& .~ 8) .& .~ 4) .| 8) .| 4) in
                (v .& 12 =? 12) && (v .& .~ 12 =? c .& .~ 12))
      ltac:(vm_compute; reflexivity) c Hc) as H.
    from_check H Ha Hb. split; [exact Ha | exact Hb].
Qed.

(** X5.  With the register map of the nRF24L01+: [setDataRate]
    reads RF_SETUP and writes it back with the two rate bits set for the
    rate asked for (RF_DR_LOW alone for 250 kbps, neither for 1 Mbps,
    RF_DR_HIGH alone for 2 Mbps) and every other bit as read. *)
Theorem setDataRate_bits (dataRate : nrf24_datarate_e) (m : Machine) :
  let c := answer m 1 in
  let dr := RF_DR_HIGH datasheet .| RF_DR_LOW datasheet in
  exists v,
    exec (setDataRate datasheet dataRate) m =
      on_hw (framed [wcmd datasheet (RF_SETUP datasheet); v])
        (on_hw (framed [rcmd datasheet (RF_SETUP datasheet); NOP datasheet]) m) /\
    v .& dr = (match dataRate with
               | NRF24_250KBPS => RF_DR_LOW datasheet
               | NRF24_1MBPS => 0
               | NRF24_2MBPS => RF_DR_HIGH datasheet
               end) /\
    v .& .~ dr = c .& .~ dr.
Proof.
  intros c dr. pose proof (answer_range m 1) as Hc. fold c in Hc.
  destruct dataRate; (eexists; split; [reflexivity|]).
  - pose proof (bytes256_forall
      (fun c => let v := u8 (u8 (c .& .~ 40) .| 32) in
                (v .& 40 =? 32) && (v .& .~ 40 =? c .& .~ 40))
      ltac:(vm_compute; reflexivity) c Hc) as H.
    from_check H Ha Hb. split; [exact Ha | exact Hb].
  - pose proof (bytes256_forall
      (fun c => let v := u8 (c .& .~ 40) in
                (v .& 40 =? 0) && (v .& .~ 40 =? c .& .~ 40))
      ltac:(vm_compute; reflexivity) c Hc) as H.
    from_check H Ha Hb. split; [exact Ha | exact Hb].
  - pose proof (bytes256_forall
      (fun c => let v := u8 (u8 (c .& .~ 40) .| 8) in
                (v .& 40 =? 8) && (v .& .~ 40 =? c .& .~ 40))
      ltac:(vm_compute; reflexivity) c Hc) as H.
    from_check H Ha Hb. split; [exact Ha | exact Hb].
Qed.

(** X6.  With the register map of the nRF24L01+:
    [setPowerAmplificationLevel] reads RF_SETUP and writes it back with
    only bits 1 and 2 changed, and [getPowerAmplificationLevel] reading
    that byte back returns the code of the level that was set (0 for MIN
    up to 3 for MAX). *)
Theorem pa_level_round_trip (level : nrf24_pa_level_e) (m : Machine) :
  exists v,
    exec (setPowerAmplificationLevel datasheet level) m =
      on_hw (framed [wcmd datasheet (RF_SETUP datasheet); v])
        (on_hw (framed [rcmd datasheet (RF_SETUP datasheet); NOP datasheet]) m) /\
    v .& .~ 0x6 = answer m 1 .& .~ 0x6 /\
    forall m', answer m' 1 = v ->
      eval (getPowerAmplificationLevel datasheet) m' = pa_code level.
Proof.
  pose proof (answer_range m 1) as Hc.
  assert (Hget : forall m', eval (getPowerAmplificationLevel datasheet) m' =
                            (answer m' 1 .>> 1) .& 3) by reflexivity.
  destruct level; (eexists; split; [reflexivity|]).
  - pose proof (bytes256_forall
      (fun c => let v := u8 (c .& .~ 6) in
                ((v .>> 1) .& 3 =? 0) && (v .& .~ 6 =? c .& .~ 6))
      ltac:(vm_compute; reflexivity) _ Hc) as H.
    from_check H Ha Hb. split; [exact Hb|].
    intros m' Hm'. rewrite Hget, Hm'. exact Ha.
  - pose proof (bytes256_forall
      (fun c => let v := u8 (u8 (c .& .~ 6) .| 2) in
                ((v .>> 1) .& 3 =? 1) && (v .& .~ 6 =? c .& .~ 6))
      ltac:(vm_compute; reflexivity) _ Hc) as H.
    from_check H Ha Hb. split; [exact Hb|].
    intros m' Hm'. rewrite Hget, Hm'. exact Ha.
  - pose proof (bytes256_forall
      (fun c => let v := u8 (u8 (c .& .~ 6) .| 4) in
                ((v .>> 1) .& 3 =? 2) && (v .& .~ 6 =? c .& .~ 6))
      ltac:(vm_compute; reflexivity) _ Hc) as H.
    from_check H Ha Hb. split; [exact Hb|].
    intros m' Hm'. rewrite Hget, Hm'. exact Ha.
  - pose proof (bytes256_forall
      (fun c => let v := u8 (u8 (c .& .~ 6) .| (2 .| 4)) in
                ((v .>> 1) .& 3 =? 3) && (v .& .~ 6 =? c .& .~ 6))
      ltac:(vm_compute; reflexivity) _ Hc) as H.
    from_check H Ha Hb. split; [exact Hb|].
    intros m' Hm'. rewrite Hget, Hm'. exact Ha.
Qed.

(** X7.  With the register map of the nRF24L01+: [setActive] reads
    CONFIG, writes it back with only PWR_UP changed and waits 1500
    microseconds; [getActive] reading that byte back returns the value
    that was set. *)
Theorem setActive_getActive (active : bool) (m : Machine) :
  exists v,
    exec (setActive datasheet active) m =
      on_hw (fun w =>
        emit (EvDelayMicroseconds 1500)
          (framed [wcmd datasheet (CONFIG datasheet); v]
             (framed [rcmd datasheet (CONFIG datasheet); NOP datasheet] w))) m /\
    v .& .~ PWR_UP datasheet = answer m 1 .& .~ PWR_UP datasheet /\
    forall m', answer m' 1 = v -> eval (getActive datasheet) m' = active.
Proof.
  pose proof (answer_range m 1) as Hc.
  assert (Hget : forall m', eval (getActive datasheet) m' =
                            to_bool (answer m' 1 .& 2)) by reflexivity.
  destruct active; (eexists; split; [reflexivity|]).
  - pose proof (bytes256_forall
      (fun c => let v := u8 (u8 (c .& .~ 2) .| 2) in
                (v .& 2 =? 2) && (v .& .~ 2 =? c .& .~ 2))
      ltac:(vm_compute; reflexivity) _ Hc) as H.
    from_check H Ha Hb. split; [exact Hb|].
    intros m' Hm'. rewrite Hget, Hm'.
    change (to_bool (u8 (u8 (answer m 1 .& .~ 2) .| 2) .& 2) = true).
    now rewrite Ha.
  - pose proof (bytes256_forall
      (fun c => let v := u8 (c .& .~ 2) in
                (v .& 2 =? 0) && (v .& .~ 2 =? c .& .~ 2))
      ltac:(vm_compute; reflexivity) _ Hc) as H.
    from_check H Ha Hb. split; [exact Hb|].
    intros m' Hm'. rewrite Hget, Hm'.
    change (to_bool (u8 (answer m 1 .& .~ 2) .& 2) = false).
    now rewrite Ha.
Qed.

(** X8.  With the register map of the nRF24L01+: [available] reads
    STATUS; with RX_DR clear it returns 0, stores no pipe number and reads
    nothing else; with RX_DR set it returns what R_RX_PL_WID answers and
    stores the pipe number.  The pipe number is the 3-bit field of STATUS
    cut to 2 bits, so it lies between 0 and 3: pipes 4 and 5 are reported
    as 0 and 1. *)
Theorem available_peek (m : Machine) :
  let status := answer m 1 in
  let m1 := on_hw (framed [rcmd datasheet (STATUS datasheet); NOP datasheet]) m in
  let pipe := (status .>> 1) .& 0x3 in
  available datasheet m =
    (if flag (RX_DR datasheet) status
     then (answer m 3, Some pipe,
           on_hw (framed [rcmd datasheet (R_RX_PL_WID datasheet); NOP datasheet]) m1)
     else (0, None, m1)) /\
  pipe = ((status .>> 1) .& 0x7) mod 4 /\
  0 <= pipe <= 3.
Proof.
  intros status m1 pipe. split.
  - unfold available, bind. rewrite readRegister_run. fold status m1.
    fold (flag (RX_DR datasheet) status).
    destruct (flag (RX_DR datasheet) status); [|reflexivity].
    rewrite readRegister_run. reflexivity.
  - pose proof (bytes256_forall
      (fun s => ((s .>> 1) .& 3 =? ((s .>> 1) .& 7) mod 4)
                && ((0 <=? (s .>> 1) .& 3) && ((s .>> 1) .& 3 <=? 3)))
      ltac:(vm_compute; reflexivity) status (answer_range m 1)) as H.
    apply andb_prop in H. destruct H as [Ha Hb].
    apply andb_prop in Hb. destruct Hb as [Hb Hc].
    apply Z.eqb_eq in Ha. apply Z.leb_le in Hb, Hc. subst pipe. lia.
Qed.

(** ** Entering and leaving receive mode *)

(** X9.  With the register map of the nRF24L01+:
    [startListening] writes CONFIG with PRIM_RX and PWR_UP set and every
    other bit as read, clears the three interrupt flags in STATUS, raises
    the enable line, flushes the receive and then the transmit queue last
    of all, and marks the driver as listening.  A chip that holds the
    CONFIG byte written is then reported by [getCurrentMode] as being in
    receive mode. *)
Theorem startListening_enters_rx (m : Machine) :
  let c := answer m 1 in
  let v := u8 (c .| PRIM_RX datasheet .| PWR_UP datasheet) in
  let m' := exec (startListening datasheet) m in
  written datasheet (CONFIG datasheet) m' = Some v /\
  v .& 3 = 3 /\ v .& .~ 3 = c .& .~ 3 /\
  written datasheet (STATUS datasheet) m' = Some 0x70 /\
  firstn 2 (log (hw m')) =
    [EvFrame [FLUSH_TX datasheet]; EvFrame [FLUSH_RX datasheet]] /\
  ce (hw m') = true /\ listening (obj m') = true /\
  forall m2, answer m2 1 = v -> ce (hw m2) = ce (hw m') ->
    eval (getCurrentMode datasheet) m2 = NRF24_MODE_RX.
Proof.
  intros c v m'.
  pose proof (bytes256_forall
    (fun c => let v := u8 (c .| 1 .| 2) in
              (v .& 3 =? 3) && ((v .& .~ 3 =? c .& .~ 3) && (v .& 1 =? 1)))
    ltac:(vm_compute; reflexivity) c (answer_range m 1)) as H.
  cbv zeta in H. apply andb_prop in H. destruct H as [Ha H].
  apply andb_prop in H. destruct H as [Hb Hc].
  apply Z.eqb_eq in Ha, Hb, Hc.
  assert (Hm' : m' = {| obj := listening_obj (obj m);
                        hw := listening_hw datasheet (obj m) c (hw m) |}).
  { subst m'. unfold exec. now rewrite startListening_run. }
  assert (Hce : ce (hw m') = true) by (rewrite Hm'; reflexivity).
  split; [|split; [exact Ha|split; [exact Hb|split; [|split; [|split; [|split]]]]]].
  - rewrite Hm'. unfold written, programmed, listening_hw. cbn [hw].
    destruct (negb _); reflexivity.
  - rewrite Hm'. unfold written, programmed, listening_hw. cbn [hw].
    destruct (negb _); reflexivity.
  - rewrite Hm'. reflexivity.
  - exact Hce.
  - rewrite Hm'. reflexivity.
  - intros m2 Hv Hce2.
    assert (Hprx : to_bool (answer m2 1 .& PRIM_RX datasheet) = true).
    { rewrite Hv. change (to_bool (u8 (c .| 1 .| 2) .& 1) = true).
      now rewrite Hc. }
    rewrite (getCurrentMode_falls_through datasheet m2 eq_refl).
    rewrite Hce2, Hce, Hprx. reflexivity.
Qed.

(** X10.  With the register map of the nRF24L01+:
    [stopListening] writes CONFIG with PRIM_RX and PWR_UP cleared and every
    other bit as read - it powers the chip down, not only leaves receive
    mode -, lowers the enable line, flushes the receive and then the
    transmit queue, and clears the listening flag; no other member of the
    driver changes. *)
Theorem stopListening_powers_down (m : Machine) :
  let c := answer m 1 in
  let v := u8 (c .& .~ PRIM_RX datasheet .& .~ PWR_UP datasheet) in
  let m' := exec (stopListening datasheet) m in
  written datasheet (CONFIG datasheet) m' = Some v /\
  v .& 3 = 0 /\ v .& .~ 3 = c .& .~ 3 /\
  firstn 3 (log (hw m')) =
    [EvFrame [FLUSH_TX datasheet]; EvFrame [FLUSH_RX datasheet]; EvCE false] /\
  ce (hw m') = false /\
  obj m' = set_listening false (obj m).
Proof.
  intros c v m'.
  pose proof (bytes256_forall
    (fun c => let v := u8 (c .& .~ 1 .& .~ 2) in
              (v .& 3 =? 0) && (v .& .~ 3 =? c .& .~ 3))
    ltac:(vm_compute; reflexivity) c (answer_range m 1)) as H.
  from_check H Ha Hb.
  split; [reflexivity|]. split; [exact Ha|]. split; [exact Hb|].
  repeat split.
Qed.

(** ** Pipes *)

(** X11.  While a pipe is free, [listenToAddress] programs pipe
    [numPipes + 1]: the first extra pipe gets the full 5-byte address,
    every later one the node byte alone; it then sets that pipe's bit in
    EN_RXADDR on top of what it read there, starts listening and counts the
    pipe; the driver ends up listening with the enable line high. *)
Theorem listenToAddress_layout (h : Header) (address : Z) (m : Machine) :
  0 <= numPipes (obj m) < 5 ->
  let pipeIndex := numPipes (obj m) + 1 in
  let first := pipeIndex =? 1 in
  let en := answer m (if first then 7 else 3) in
  let m1 :=
    on_hw (framed (wcmd h (RX_ADDR_P0 h + pipeIndex)
                     :: (if first
                         then assembleFullAddress (netmask (obj m)) address
                         else [address]))) m in
  let m2 :=
    on_hw (framed [wcmd h (EN_RXADDR h); u8 (en .| (1 .<< pipeIndex))])
      (on_hw (framed [rcmd h (EN_RXADDR h); NOP h]) m1) in
  let m' := exec (listenToAddress h address) m in
  m' = on_obj (set_numPipes pipeIndex) (exec (startListening h) m2) /\
  listening (obj m') = true /\ ce (hw m') = true.
Proof.
  intros Hn pipeIndex first en m1 m2 m'.
  assert (Hm' : m' = on_obj (set_numPipes pipeIndex) (exec (startListening h) m2)).
  { assert (Hnp : numPipes (obj (exec (startListening h) m2)) = numPipes (obj m)).
    { unfold exec. rewrite startListening_run. cbn [snd obj].
      apply numPipes_listening_obj. }
    subst m'. unfold exec at 1, listenToAddress.
    unfold bind at 1. unfold get_obj at 1. cbv beta iota.
    destruct (Z.leb_spec 5 (numPipes (obj m))); [lia|].
    unfold bind at 1.
    assert (Hfirst : (if u8 (numPipes (obj m) + 1) <=? 1
                      then buf <- assembleFullAddressM address ;;
                           writeRegisterN h (RX_ADDR_P0 h + u8 (numPipes (obj m) + 1)) buf 5
                      else writeRegister h (RX_ADDR_P0 h + u8 (numPipes (obj m) + 1)) address) m
                     = (tt, m1)).
    { subst m1 first pipeIndex.
      assert (Hk : numPipes (obj m) = 0 \/ numPipes (obj m) = 1 \/
                   numPipes (obj m) = 2 \/ numPipes (obj m) = 3 \/
                   numPipes (obj m) = 4) by lia.
      destruct Hk as [Hk | [Hk | [Hk | [Hk | Hk]]]]; rewrite Hk;
        match goal with
        | |- context [u8 ?x] =>
            let v := eval vm_compute in (u8 x) in change (u8 x) with v
        end;
        cbv beta iota delta [Z.leb Z.eqb Z.add Z.compare Pos.compare
                             Pos.compare_cont Pos.add Pos.eqb Pos.succ];
        [ cbv beta iota delta [bind assembleFullAddressM get_obj ret];
          rewrite writeRegisterN_run; reflexivity
        | rewrite writeRegister_run; reflexivity .. ]. }
    rewrite Hfirst. unfold bind at 1. rewrite readRegister_run.
    unfold bind at 1. rewrite writeRegister_run.
    assert (Hu : u8 (numPipes (obj m) + 1) = pipeIndex)
      by (subst pipeIndex; unfold u8; rewrite Z.mod_small; lia).
    rewrite Hu.
    assert (Hen : answer m1 1 = en).
    { subst m1 en first. unfold answer. cbn [on_hw hw framed miso xfers length].
      destruct (pipeIndex =? 1); cbn [length]; reflexivity. }
    rewrite Hen. unfold bind at 1.
    match goal with
    | |- context [startListening h ?X] => change X with m2
    end.
    unfold exec in Hnp |- *.
    destruct (startListening h m2) as [[] ms]. cbn [snd] in Hnp |- *.
    cbv beta iota delta [bind get_obj assign ret]. cbn [snd].
    unfold on_obj. rewrite Hnp. reflexivity. }
  split; [exact Hm'|]. rewrite Hm'. unfold exec. rewrite startListening_run.
  split; reflexivity.
Qed.

Lemma listenToAddress_layout_witness :
  let m := exec (begin datasheet 9 10 0xAABBCCDD) (bench (fun _ => 0) (fun _ => 0)) in
  hd (EvCE false)
     (skipn 8 (log (hw (exec (listenToAddress datasheet 2) m)))) =
  EvFrame [0x2B; 0x02; 0xDD; 0xCC; 0xBB; 0xAA].
Proof.
  intros m.
  rewrite (proj1 (listenToAddress_layout datasheet 2 m
                    ltac:(vm_compute; split; [discriminate | reflexivity]))).
  vm_compute. reflexivity.
Defined.

(** X12.  [setAddress] stores the node byte as the driver's own
    address, programs pipe 0 with the 5-byte address built from it, records
    it as the address pipe 0 now holds, and last writes EN_RXADDR back with
    bit 0, the enable bit of pipe 0, set. *)
Theorem setAddress_programs_pipe0 (h : Header) (address : Z) (m : Machine) :
  pipe0_command_apart h = true ->
  let m' := exec (setAddress h address) m in
  pipe0_is_own h m' /\
  obj m' = set_previousRXAddress address (set_ownAddress address (obj m)) /\
  hd (EvCE false) (log (hw m')) =
    EvFrame [wcmd h (EN_RXADDR h); u8 (answer m 7 .| 0x01)] /\
  Z.testbit (u8 (answer m 7 .| 0x01)) 0 = true.
Proof.
  intros Hapart m'.
  split; [exact (proj1 (setAddress_own h Hapart address m))|].
  split; [reflexivity|]. split; [reflexivity|].
  unfold u8. change 256 with (2 ^ 8).
  rewrite Z.mod_pow2_bits_low by lia.
  rewrite Z.lor_spec. apply orb_true_r.
Qed.

Lemma setAddress_programs_pipe0_witness :
  let m := bench (fun _ => 0) (fun _ => 0) in
  programmed datasheet (RX_ADDR_P0 datasheet)
    (log (hw (exec (setAddress datasheet 7) m))) =
  Some (assembleFullAddress (netmask (obj (exec (setAddress datasheet 7) m))) 7).
Proof.
  intros m.
  exact (proj1 (proj1 (setAddress_programs_pipe0 datasheet 7 m eq_refl))).
Defined.

(** ** What a transmission leaves behind *)

Section TransmitEffects.

Variable h : Header.
Variable p : Z -> bool.

Hypothesis p_read_config : p (R_REGISTER h .| CONFIG h) = false.
Hypothesis p_write_config :
  p (W_REGISTER h .| (REGISTER_MASK h .& CONFIG h)) = false.
Hypothesis p_read_status : p (R_REGISTER h .| STATUS h) = false.
Hypothesis p_write_status :
  p (W_REGISTER h .| (REGISTER_MASK h .& STATUS h)) = false.
Hypothesis p_nop : p (NOP h) = false.
Hypothesis p_flush_rx : p (FLUSH_RX h) = false.
Hypothesis p_flush_tx : p (FLUSH_TX h) = false.

(** The frames selected by [p] that a completed transmission adds. *)
Lemma transmit_frames (fuel : nat) (t : Z) (data : list Z) (len : Z)
    (ack : bool) (m : Machine) (result : bool) (m' : Machine) :
  len <> 0 ->
  transmit h fuel t data len ack m = Some (result, m') ->
  let d1 := setup_obj t ack (obj m) in
  frames_where p (log (hw m')) =
    (if was_active h t ack m && listening (obj m)
        && negb (previousRXAddress d1 =? ownAddress d1)
        && p (wcmd h (RX_ADDR_P0 h))
     then [assembleFullAddress (netmask d1) (ownAddress d1)] else [])
    ++ (if p (if ack then W_TX_PAYLOAD h else W_TX_PAYLOAD_NO_ACK h)
        then [fetch (Z.to_nat (if 32 <? len then 32 else len)) data] else [])
    ++ (if ack && negb (previousRXAddress (obj m) =? t)
           && p (wcmd h (RX_ADDR_P0 h))
        then [assembleFullAddress (netmask (obj m)) t] else [])
    ++ (if negb (previousTXAddress (obj m) =? t) && p (wcmd h (TX_ADDR h))
        then [assembleFullAddress (netmask (obj m)) t] else [])
    ++ frames_where p (log (hw m)).
Proof.
  intros Hlen Hrun d1.
  destruct (transmit_run h fuel t data len ack m result m' Hlen Hrun)
    as (n & cause & _ & _ & _ & ->).
  unfold was_active. rewrite transmit_setup_run. cbn [fst].
  rewrite transmit_restore_frames by assumption.
  rewrite after_poll_frames by assumption.
  cbn [on_hw hw obj log tick after_poll].
  rewrite loaded_hw_frames, setup_mode_frames by assumption.
  rewrite setup_addresses_frames. reflexivity.
Qed.

End TransmitEffects.

(** The driver object and the enable line after a completed
    transmission. *)
Lemma transmit_object (h : Header) (fuel : nat) (t : Z) (data : list Z)
    (len : Z) (ack : bool) (m : Machine) (result : bool) (m' : Machine) :
  len <> 0 ->
  transmit h fuel t data len ack m = Some (result, m') ->
  obj m' = transmitted_obj t ack (was_active h t ack m) (listening (obj m)) (obj m) /\
  ce (hw m') = was_active h t ack m && listening (obj m).
Proof.
  intros Hlen Hrun.
  destruct (transmit_run h fuel t data len ack m result m' Hlen Hrun)
    as (n & cause & _ & _ & _ & ->).
  unfold was_active, transmitted_obj. rewrite transmit_setup_run. cbn [fst].
  rewrite transmit_restore_run.
  destruct (to_bool _); cbn [negb andb]; [destruct (listening (obj m))|];
    split; reflexivity.
Qed.

(** A transmission keeps the listening flag, the pipes in use, the own
    address, the network mask and the acknowledgment setting. *)
Lemma transmit_members (h : Header) (fuel : nat) (t : Z) (data : list Z)
    (len : Z) (ack : bool) (m : Machine) (result : bool) (m' : Machine) :
  transmit h fuel t data len ack m = Some (result, m') ->
  same_settings (obj m) (obj m').
Proof.
  intros Hrun. unfold same_settings.
  destruct (Z.eq_dec len 0) as [-> | Hlen].
  { injection Hrun as _ <-. repeat split. }
  rewrite (proj1 (transmit_object h fuel t data len ack m result m' Hlen Hrun)).
  unfold transmitted_obj, listening_obj, setup_obj.
  destruct (was_active h t ack m); destruct (listening (obj m)) eqn:Hl;
    destruct (negb (previousTXAddress (obj m) =? t));
    destruct (ack && negb (previousRXAddress (obj m) =? t));
    cbn [andb]; repeat (destruct (negb _)); cbn;
    repeat split; auto.
Qed.

(** Turns a checked list of distinct command bytes into rewriting facts. *)
Ltac split_apart H :=
  cbn [forallb] in H;
  repeat (let Hc := fresh "Hc" in
          apply andb_prop in H; destruct H as [Hc H];
          apply negb_true_iff in Hc);
  clear H.

(** The writes to TX_ADDR that a completed transmission adds. *)
Lemma transmit_tx_frames (h : Header) (fuel : nat) (t : Z) (data : list Z)
    (len : Z) (ack : bool) (m : Machine) (result : bool) (m' : Machine) :
  tx_addr_command_apart h = true ->
  transmit h fuel t data len ack m = Some (result, m') ->
  frames_where (fun c => c =? wcmd h (TX_ADDR h)) (log (hw m')) =
    (if (len =? 0) || (previousTXAddress (obj m) =? t) then []
     else [assembleFullAddress (netmask (obj m)) t])
    ++ frames_where (fun c => c =? wcmd h (TX_ADDR h)) (log (hw m)).
Proof.
  intros Hapart Hrun.
  destruct (Z.eqb_spec len 0) as [-> | Hlen].
  { now injection Hrun as _ <-. }
  unfold tx_addr_command_apart, wcmd, rcmd in Hapart. split_apart Hapart.
  rewrite (transmit_frames h _ Hc2 Hc3 Hc0 Hc1 Hc4 Hc5 Hc6
             fuel t data len ack m result m' Hlen Hrun).
  unfold wcmd. rewrite Hc, Z.eqb_refl, !andb_false_r, andb_true_r.
  assert (Hcmd : ((if ack then W_TX_PAYLOAD h else W_TX_PAYLOAD_NO_ACK h)
                  =? W_REGISTER h .| (REGISTER_MASK h .& TX_ADDR h)) = false)
    by (destruct ack; assumption).
  rewrite Hcmd. cbn [app orb].
  destruct (previousTXAddress (obj m) =? t); reflexivity.
Qed.

(** X13.  [transmit] writes TX_ADDR only when the target differs
    from the one it remembers: a completed transmission of a non-empty
    payload leaves the target remembered, writes the target's 5-byte
    address exactly when it was not, and any later transmission to the same
    target writes TX_ADDR no more. *)
Theorem transmit_caches_tx_address (h : Header) (fuel : nat) (t : Z)
    (data : list Z) (len : Z) (ack : bool) (m : Machine)
    (result : bool) (m' : Machine) :
  tx_addr_command_apart h = true ->
  len <> 0 ->
  transmit h fuel t data len ack m = Some (result, m') ->
  let tx_writes := frames_where (fun c => c =? wcmd h (TX_ADDR h)) in
  previousTXAddress (obj m') = t /\
  tx_writes (log (hw m')) =
    (if previousTXAddress (obj m) =? t then []
     else [assembleFullAddress (netmask (obj m)) t])
    ++ tx_writes (log (hw m)) /\
  forall fuel2 data2 len2 ack2 result2 m2,
    transmit h fuel2 t data2 len2 ack2 m' = Some (result2, m2) ->
    tx_writes (log (hw m2)) = tx_writes (log (hw m')).
Proof.
  intros Hapart Hlen Hrun tx_writes.
  assert (Hprev : previousTXAddress (obj m') = t).
  { rewrite (proj1 (transmit_object h fuel t data len ack m result m' Hlen Hrun)).
    unfold transmitted_obj, listening_obj, setup_obj.
    destruct (Z.eqb_spec (previousTXAddress (obj m)) t) as [Heq | Hne];
      destruct (was_active h t ack m && listening (obj m));
      destruct (ack && negb (previousRXAddress (obj m) =? t));
      cbn [negb]; repeat (destruct (negb _)); cbn; auto. }
  split; [exact Hprev|]. split.
  - subst tx_writes.
    rewrite (transmit_tx_frames h fuel t data len ack m result m' Hapart Hrun).
    destruct (Z.eqb_spec len 0) as [|_]; [contradiction | reflexivity].
  - intros fuel2 data2 len2 ack2 result2 m2 Hrun2. subst tx_writes.
    rewrite (transmit_tx_frames h fuel2 t data2 len2 ack2 m' result2 m2
               Hapart Hrun2).
    now rewrite Hprev, Z.eqb_refl, orb_true_r.
Qed.

Lemma transmit_caches_tx_address_witness :
  let m := bench (fun _ => 0x20) (fun _ => 0) in
  frames_where (fun c => c =? wcmd datasheet (TX_ADDR datasheet))
    (log (hw (machine_of (transmit datasheet 4 9 [1; 2; 3] 3 true m) m))) =
  [[9; 0; 0; 0; 0]].
Proof.
  intros m.
  destruct (transmit datasheet 4 9 [1; 2; 3] 3 true m) as [[r m']|] eqn:E;
    [|vm_compute in E; discriminate].
  exact (proj1 (proj2 (transmit_caches_tx_address datasheet 4 9 [1; 2; 3] 3
                         true m r m' eq_refl ltac:(discriminate) E))).
Defined.

(** X14.  [broadcast] never touches pipe 0: when pipe 0 holds the
    driver's own address, it still does afterwards, and no write to
    RX_ADDR_P0 went over the bus. *)
Theorem broadcast_keeps_pipe0 (h : Header) (fuel : nat) (data : list Z)
    (len : Z) (m : Machine) (result : bool) (m' : Machine) :
  pipe0_command_apart h = true ->
  pipe0_is_own h m ->
  broadcast h fuel data len m = Some (result, m') ->
  frames_where (is_pipe0_write h) (log (hw m')) =
    frames_where (is_pipe0_write h) (log (hw m)) /\
  pipe0_is_own h m'.
Proof.
  intros Hapart [Hprog Hown] Hrun. unfold broadcast in Hrun.
  destruct (Z.eq_dec len 0) as [-> | Hlen].
  { injection Hrun as _ <-. split; [reflexivity | split; assumption]. }
  assert (Hframes : frames_where (is_pipe0_write h) (log (hw m')) =
                    frames_where (is_pipe0_write h) (log (hw m))).
  { pose proof (apart_all h Hapart) as F.
    unfold other_commands, wcmd, rcmd in F.
    repeat (apply Forall_cons_iff in F; destruct F as [?F F]). clear F.
    unfold is_pipe0_write, wcmd.
    rewrite (transmit_frames h _ F0 F1 F2 F3 F14 F15 F16
               fuel _ data len false m result m' Hlen Hrun).
    unfold wcmd. rewrite F13, F18.
    unfold setup_obj. cbn [andb].
    destruct (negb (previousTXAddress (obj m) =? ownAddress (obj m)));
      cbn [set_previousTXAddress previousRXAddress ownAddress];
      rewrite Hown, Z.eqb_refl, !andb_false_r; reflexivity. }
  split; [exact Hframes|].
  destruct (transmit_object h fuel _ data len false m result m' Hlen Hrun)
    as [Hobj _].
  unfold pipe0_is_own, programmed. fold (is_pipe0_write h). rewrite Hframes.
  unfold programmed in Hprog. fold (is_pipe0_write h) in Hprog.
  rewrite Hobj. unfold transmitted_obj, listening_obj, setup_obj. cbn [andb].
  destruct (was_active h _ false m && listening (obj m));
    destruct (negb (previousTXAddress (obj m) =? ownAddress (obj m)));
    cbn [set_previousTXAddress set_previousRXAddress set_listening
         previousRXAddress ownAddress netmask];
    try (rewrite Hown, Z.eqb_refl; cbn [negb]);
    cbn [set_previousTXAddress set_previousRXAddress set_listening
         previousRXAddress ownAddress netmask];
    split; assumption.
Qed.

Lemma broadcast_keeps_pipe0_witness :
  let m := exec (setAddress datasheet 7)
             (exec (begin datasheet 9 10 0xA1B2C3D4)
                (bench (fun _ => 0x20) (fun _ => 0))) in
  pipe0_is_own datasheet
    (machine_of (broadcast datasheet 4 [1; 2; 3] 3 m) m).
Proof.
  intros m.
  destruct (broadcast datasheet 4 [1; 2; 3] 3 m) as [[r m']|] eqn:E;
    [|vm_compute in E; discriminate].
  exact (proj2 (broadcast_keeps_pipe0 datasheet 4 [1; 2; 3] 3 m r m'
                  eq_refl
                  ltac:(split; vm_compute; reflexivity) E)).
Defined.

(** X15.  An acknowledged transmission by a driver that is not
    listening leaves pipe 0 programmed with the target's address in place
    of the driver's own, and remembers it so; the own address and the
    listening flag are as before. *)
Theorem transmit_diverts_pipe0 (h : Header) (fuel : nat) (t : Z)
    (data : list Z) (len : Z) (m : Machine) (result : bool) (m' : Machine) :
  pipe0_command_apart h = true ->
  pipe0_in_sync h m ->
  listening (obj m) = false ->
  len <> 0 ->
  transmit h fuel t data len true m = Some (result, m') ->
  programmed h (RX_ADDR_P0 h) (log (hw m')) =
    Some (assembleFullAddress (netmask (obj m)) t) /\
  previousRXAddress (obj m') = t /\
  ownAddress (obj m') = ownAddress (obj m) /\
  listening (obj m') = false.
Proof.
  intros Hapart Hsync Hidle Hlen Hrun.
  destruct (transmit_object h fuel t data len true m result m' Hlen Hrun)
    as [Hobj _].
  unfold transmitted_obj in Hobj. rewrite Hidle, andb_false_r in Hobj.
  split.
  - pose proof (apart_all h Hapart) as F.
    unfold other_commands, wcmd, rcmd in F.
    repeat (apply Forall_cons_iff in F; destruct F as [?F F]). clear F.
    unfold programmed.
    rewrite (transmit_frames h _ F0 F1 F2 F3 F14 F15 F16
               fuel t data len true m result m' Hlen Hrun).
    unfold wcmd. rewrite F13, F17, Z.eqb_refl, Hidle.
    rewrite !andb_false_r, !andb_true_r. cbn [andb app].
    unfold pipe0_in_sync, programmed, wcmd in Hsync.
    destruct (Z.eqb_spec (previousRXAddress (obj m)) t) as [Heq | Hne];
      cbn [negb app hd_error]; [|reflexivity].
    rewrite Hsync, Heq. reflexivity.
  - rewrite Hobj. unfold setup_obj. cbn [andb].
    destruct (Z.eqb_spec (previousRXAddress (obj m)) t) as [Heq | Hne];
      destruct (negb (previousTXAddress (obj m) =? t)); cbn;
      repeat split; auto.
Qed.

Lemma transmit_diverts_pipe0_witness :
  let m := exec (setAddress datasheet 7)
             (exec (begin datasheet 9 10 0xA1B2C3D4)
                (bench (fun _ => 0x20) (fun _ => 0))) in
  programmed datasheet (RX_ADDR_P0 datasheet)
    (log (hw (machine_of (transmit datasheet 4 9 [1; 2; 3] 3 true m) m))) =
  Some [9; 0xD4; 0xC3; 0xB2; 0xA1].
Proof.
  intros m.
  destruct (transmit datasheet 4 9 [1; 2; 3] 3 true m) as [[r m']|] eqn:E;
    [|vm_compute in E; discriminate].
  exact (proj1 (transmit_diverts_pipe0 datasheet 4 9 [1; 2; 3] 3 m r m'
                  eq_refl
                  ltac:(vm_compute; reflexivity)
                  ltac:(vm_compute; reflexivity)
                  ltac:(discriminate) E)).
Defined.



(** X17.  The payload of a transmission goes out with
    W_TX_PAYLOAD when an acknowledgment is asked for and with
    W_TX_PAYLOAD_NO_ACK when not, never with both: each completed
    transmission of a non-empty payload adds one frame under the one
    command and none under the other. *)
Theorem transmit_payload_command (h : Header) (fuel : nat) (t : Z)
    (data : list Z) (len : Z) (ack : bool) (m : Machine)
    (result : bool) (m' : Machine) :
  payload_commands_apart h = true ->
  W_TX_PAYLOAD h <> W_TX_PAYLOAD_NO_ACK h ->
  len <> 0 ->
  transmit h fuel t data len ack m = Some (result, m') ->
  let body := fetch (Z.to_nat (if 32 <? len then 32 else len)) data in
  frames_where (fun c => c =? W_TX_PAYLOAD h) (log (hw m')) =
    (if ack then [body] else [])
    ++ frames_where (fun c => c =? W_TX_PAYLOAD h) (log (hw m)) /\
  frames_where (fun c => c =? W_TX_PAYLOAD_NO_ACK h) (log (hw m')) =
    (if ack then [] else [body])
    ++ frames_where (fun c => c =? W_TX_PAYLOAD_NO_ACK h) (log (hw m)).
Proof.
  intros Hapart Hne Hlen Hrun body.
  unfold payload_commands_apart, transmit_commands, is_tx_payload, wcmd, rcmd
    in Hapart.
  split_apart Hapart.
  repeat match goal with
         | H : (_ || _) = false |- _ =>
             apply orb_false_elim in H; destruct H as [? ?]
         end.
  apply Z.eqb_neq in Hne.
  split.
  - rewrite (transmit_frames h (fun c => c =? W_TX_PAYLOAD h)
               ltac:(assumption) ltac:(assumption) ltac:(assumption)
               ltac:(assumption) ltac:(assumption) ltac:(assumption)
               ltac:(assumption) fuel t data len ack m result m' Hlen Hrun).
    unfold wcmd.
    repeat match goal with
           | H : (?x =? ?y) = false |- context [?x =? ?y] => rewrite H
           end.
    rewrite !andb_false_r. cbn [app]. fold body.
    destruct ack; [rewrite Z.eqb_refl; reflexivity|].
    rewrite Z.eqb_sym, Hne. reflexivity.
  - rewrite (transmit_frames h (fun c => c =? W_TX_PAYLOAD_NO_ACK h)
               ltac:(assumption) ltac:(assumption) ltac:(assumption)
               ltac:(assumption) ltac:(assumption) ltac:(assumption)
               ltac:(assumption) fuel t data len ack m result m' Hlen Hrun).
    unfold wcmd.
    repeat match goal with
           | H : (?x =? ?y) = false |- context [?x =? ?y] => rewrite H
           end.
    rewrite !andb_false_r. cbn [app]. fold body.
    destruct ack; [rewrite Hne; reflexivity|].
    rewrite Z.eqb_refl. reflexivity.
Qed.

Lemma transmit_payload_command_witness :
  let m := bench (fun _ => 0x20) (fun _ => 0) in
  let m' := machine_of (transmit datasheet 4 9 [1; 2; 3] 2 false m) m in
  frames_where (fun c => c =? W_TX_PAYLOAD datasheet) (log (hw m')) = [] /\
  frames_where (fun c => c =? W_TX_PAYLOAD_NO_ACK datasheet) (log (hw m')) =
    [[1; 2]].
Proof.
  intros m.
  destruct (transmit datasheet 4 9 [1; 2; 3] 2 false m) as [[r m']|] eqn:E;
    [|vm_compute in E; discriminate].
  exact (transmit_payload_command datasheet 4 9 [1; 2; 3] 2 false m r m'
           eq_refl ltac:(discriminate) ltac:(discriminate) E).
Defined.

(** X18.  [transmit] returns as soon as the loop condition
    fails: if it fails at some poll, there is a first such poll k, and
    with fuel for more than k polls the call returns, its result being the
    TX_DS flag of the status read at poll k. *)
Theorem transmit_returns_at_first_stop (h : Header) (t : Z) (data : list Z)
    (len : Z) (ack : bool) (m : Machine) (n : nat) :
  len <> 0 ->
  let entry := poll_entry h t data (if 32 <? len then 32 else len) ack m in
  stops h (snd entry) (fst entry) n = true ->
  exists k m',
    (k <= n)%nat /\
    (forall i, (i < k)%nat -> stops h (snd entry) (fst entry) i = false) /\
    stops h (snd entry) (fst entry) k = true /\
    forall fuel, (k < fuel)%nat ->
      transmit h fuel t data len ack m =
      Some (flag (TX_DS h) (status_at (snd entry) k), m').
Proof.
  intros Hlen entry Hstop.
  destruct (pollStatus_terminates h (snd entry) (fst entry) n Hstop)
    as (k & Hk & Hbefore & Hat & Hpoll).
  subst entry. unfold poll_entry in *.
  destruct (transmit_setup h t ack m) as [[wa wl] m1] eqn:Esetup.
  cbn [snd] in *.
  destruct (millis _) as [t0 m3] eqn:Emillis. cbn [fst snd] in *.
  exists k, (exec (transmit_restore h wa wl) (after_poll h k (cause_at h m3 k) m3)).
  split; [exact Hk|]. split; [exact Hbefore|]. split; [exact Hat|].
  intros fuel Hfuel. unfold transmit.
  destruct (Z.eqb_spec len 0) as [|_]; [contradiction|].
  rewrite Esetup, Emillis, (Hpoll fuel Hfuel).
  unfold cause_at. destruct (flag (TX_DS h) (status_at m3 k)); [reflexivity|].
  destruct (flag (MAX_RT h) (status_at m3 k)); reflexivity.
Qed.

Lemma transmit_returns_at_first_stop_witness :
  let m := bench (fun k => if (k <? 9)%nat then 0 else 0x10) (fun _ => 0) in
  exists k m', (k <= 3)%nat /\
    transmit datasheet 4 9 [1; 2; 3] 3 true m = Some (false, m').
Proof.
  intros m.
  destruct (transmit_returns_at_first_stop datasheet 9 [1; 2; 3] 3 true m 3
              ltac:(discriminate) ltac:(vm_compute; reflexivity))
    as (k & m' & Hk & _ & Hstop & Hrun).
  exists k, m'. split; [exact Hk|].
  rewrite (Hrun 4%nat ltac:(lia)). repeat f_equal.
  assert (Hk' : (k = 0 \/ k = 1 \/ k = 2 \/ k = 3)%nat) by lia.
  destruct Hk' as [-> | [-> | [-> | ->]]]; vm_compute in Hstop |- *;
    first [reflexivity | discriminate].
Defined.

(** ** Pipes in use *)

(** [send] with a response buffer keeps the members a transmission
    keeps. *)
Lemma send_response_members (h : Header) (fuel : nat) (t : Z)
    (data : list Z) (len bufferSize : Z) (m : Machine)
    (r : Z * list Z) (m' : Machine) :
  send_response h fuel t data len bufferSize m = Some (r, m') ->
  same_settings (obj m) (obj m').
Proof.
  unfold send_response, send. intros Hrun.
  destruct (transmit h fuel t data len _ (exec (flushRX h) m))
    as [[sent m1]|] eqn:Hsend; [|discriminate].
  pose proof (transmit_members h _ _ _ _ _ _ _ _ Hsend) as H1.
  change (obj (exec (flushRX h) m)) with (obj m) in H1.
  destruct sent; cbn [negb] in Hrun; [|now injection Hrun as _ <-].
  destruct (ackEnabled (obj m1)); [|now injection Hrun as _ <-].
  rewrite pollOnce_run in Hrun.
  destruct (negb _); [now injection Hrun as _ <-|].
  rewrite read_run in Hrun. now injection Hrun as _ <-.
Qed.

(** What one call does to the count of pipes in use. *)
Lemma call_numPipes (h : Header) (c : Call) (m m' : Machine) :
  call h c m = Some m' ->
  numPipes (obj m') =
  match c with
  | CallListenToAddress _ =>
      if 5 <=? numPipes (obj m) then numPipes (obj m) else numPipes (obj m) + 1
  | CallBegin _ _ _ => 0
  | _ => numPipes (obj m)
  end.
Proof.
  intros Hcall.
  assert (Htx : forall fuel t data len ack,
            option_map snd (transmit h fuel t data len ack m) = Some m' ->
            numPipes (obj m') = numPipes (obj m)).
  { intros fuel t data len ack H.
    destruct (transmit h fuel t data len ack m) as [[r m1]|] eqn:Hrun;
      [|discriminate].
    apply some_eq in H. cbn [snd] in H. subst m'.
    exact (proj1 (proj2 (transmit_members h fuel t data len ack m r m1 Hrun))). }
  destruct c; cbn [call] in Hcall.
  1, 3-7, 9-14, 19:
    apply some_eq in Hcall; subst m'; unfold_calls; split_ifs; reflexivity.
  - apply some_eq in Hcall. subst m'.
    destruct (Z.leb_spec 5 (numPipes (obj m))) as [Hfull | Hfree].
    + unfold exec. now rewrite listenToAddress_full.
    + destruct (listenToAddress_free h address m Hfree) as (m1 & E & Hn).
      unfold exec. rewrite E. exact Hn.
  - apply some_eq in Hcall. subst m'.
    destruct mode; unfold_calls; split_ifs; reflexivity.
  - exact (Htx _ _ _ _ _ Hcall).
  - exact (Htx _ _ _ _ _ Hcall).
  - exact (Htx _ _ _ _ _ Hcall).
  - apply some_eq in Hcall. subst m'. unfold exec. rewrite queueResponse_run.
    assert (He : numPipes (obj (queue_entry h m)) = numPipes (obj m)).
    { unfold queue_entry. destruct (listening (obj m)); [reflexivity|].
      unfold exec. rewrite startListening_run. apply numPipes_listening_obj. }
    destruct (flag _ _); cbn [snd]; [exact He|].
    destruct (negb _); [|exact He].
    unfold exec. rewrite stopListening_run. exact He.
  - apply some_eq in Hcall. subst m'. unfold exec. rewrite read_run. reflexivity.
  - apply some_eq in Hcall. subst m'. now rewrite begin_obj.
  - apply some_eq in Hcall. subst m'.
    unfold exec, getPowerAmplificationLevel, bind. rewrite readRegister_run.
    reflexivity.
  - exact (Htx _ _ _ _ _ Hcall).
  - exact (Htx _ _ _ _ _ Hcall).
  - destruct (send_attempts h fuel targetAddress data length m)
      as [[[sent n] m1]|] eqn:Hrun; [|discriminate].
    apply some_eq in Hcall. cbn [snd] in Hcall. subst m'.
    unfold send_attempts in Hrun.
    destruct (transmit h fuel targetAddress data length _ m) as [[s1 m2]|] eqn:Htr;
      [|discriminate].
    rewrite readRegister_run in Hrun. apply some_eq in Hrun.
    injection Hrun as _ _ <-. cbn [on_hw obj].
    exact (proj1 (proj2 (transmit_members h _ _ _ _ _ _ _ _ Htr))).
  - destruct (send_response h fuel targetAddress data length bufferSize m)
      as [[r m1]|] eqn:Hrun; [|discriminate].
    apply some_eq in Hcall. cbn [snd] in Hcall. subst m'.
    exact (proj1 (proj2 (send_response_members h _ _ _ _ _ _ _ _ Hrun))).
  - exact (Htx _ _ _ _ _ Hcall).
  - apply some_eq in Hcall. subst m'. unfold exec, read_str, bind.
    rewrite read_run. reflexivity.
Qed.

(** X19.  Whatever sequence of calls the program makes, [begin]
    included, the number of pipes in use is the number of
    [listenToAddress] calls made since the last [begin], capped at 5; when
    the sequence holds no [begin] it is the number the driver started
    with plus the number of [listenToAddress] calls, capped at 5.  Only
    [begin] lowers the count, to 0, and only [listenToAddress] raises
    it. *)
Theorem pipes_in_use_counted (h : Header) (cs : list Call) (m m' : Machine) :
  0 <= numPipes (obj m) <= 5 ->
  calls h cs m = Some m' ->
  numPipes (obj m') =
  match since_begin cs with
  | Some rest => Z.min 5 (listen_calls rest)
  | None => Z.min 5 (numPipes (obj m) + listen_calls cs)
  end.
Proof.
  assert (Hcount : forall l, 0 <= listen_calls l).
  { induction l as [|[] l IH]; cbn [listen_calls]; lia. }
  revert m. induction cs as [|c cs IH]; intros m Hn Hcalls; cbn [calls] in Hcalls.
  - apply some_eq in Hcalls. subst m'. cbn [since_begin listen_calls]. lia.
  - destruct (call h c m) as [m1|] eqn:Hcall; [|discriminate].
    pose proof (call_numPipes h c m m1 Hcall) as H1.
    assert (Hn1 : 0 <= numPipes (obj m1) <= 5).
    { destruct c; try (rewrite H1; exact Hn); [|lia].
      destruct (Z.leb_spec 5 (numPipes (obj m))); lia. }
    rewrite (IH m1 Hn1 Hcalls). cbn [since_begin].
    destruct (since_begin cs) as [rest|]; [reflexivity|].
    pose proof (Hcount cs).
    destruct c; cbn [listen_calls]; rewrite H1; try reflexivity.
    destruct (Z.leb_spec 5 (numPipes (obj m))); lia.
Qed.

Lemma pipes_in_use_counted_witness :
  let m := bench (fun _ => 0) (fun _ => 0) in
  numPipes (obj (after_calls datasheet
                   [CallListenToAddress 1; CallBegin 9 10 0xA1B2C3D4;
                    CallListenToAddress 2; CallStopListening;
                    CallListenToAddress 3; CallSetChannel 3] m)) = 2.
Proof.
  intros m. unfold after_calls.
  destruct (calls datasheet _ m) as [m'|] eqn:E; [|vm_compute in E; discriminate].
  exact (pipes_in_use_counted datasheet _ m m'
           ltac:(vm_compute; split; discriminate) E).
Defined.

(** ** Reading a string *)

Lemma store_at_length (i : nat) (v : Z) (l : list Z) :
  length (store_at i v l) = length l.
Proof.
  revert i. induction l as [|x l IH]; intros [|i]; cbn; auto.
Qed.

Lemma nth_store_at_same (i : nat) (v : Z) (l : list Z) (d : Z) :
  (i < length l)%nat -> nth i (store_at i v l) d = v.
Proof.
  revert i. induction l as [|x l IH]; intros [|i] Hi; cbn in *; try lia.
  apply IH. lia.
Qed.

Lemma nth_store_at_other (i j : nat) (v : Z) (l : list Z) (d : Z) :
  i <> j -> nth j (store_at i v l) d = nth j l d.
Proof.
  revert i j. induction l as [|x l IH]; intros [|i] [|j] Hij; cbn;
    try reflexivity; try contradiction.
  apply IH. lia.
Qed.

Lemma overlay_length (stored buf : list Z) :
  (length stored <= length buf)%nat ->
  length (overlay stored buf) = length buf.
Proof.
  intros H. unfold overlay.
  rewrite length_app, length_firstn, length_skipn. lia.
Qed.

Lemma nth_overlay (stored buf : list Z) (i : nat) (d : Z) :
  (length stored <= length buf)%nat ->
  nth i (overlay stored buf) d =
  if (i <? length stored)%nat then nth i stored d else nth i buf d.
Proof.
  intros H. unfold overlay. rewrite firstn_all2 by exact H.
  destruct (Nat.ltb_spec i (length stored)) as [Hi | Hi].
  - now rewrite app_nth1.
  - rewrite app_nth2 by exact Hi. rewrite nth_skipn. f_equal. lia.
Qed.

Lemma read_xfers (h : Header) (bufferSize : Z) (m : Machine) :
  let n := Z.to_nat (if answer m 1 <? bufferSize then answer m 1 else bufferSize) in
  xfers (hw (snd (read h bufferSize m))) = (n + 7 + xfers (hw m))%nat.
Proof.
  intros n. rewrite read_run. fold n.
  cbn [snd on_hw hw framed drive_ce xfers length].
  rewrite repeat_length. lia.
Qed.

(** X20.  [read] into a string buffer of [bufferSize] bytes
    asks for at most [bufferSize - 1] bytes, stores what it received from
    the start of the buffer and a zero in the last byte of the buffer,
    leaves the bytes between untouched and returns the declared width of
    the payload, not the number of bytes stored.  With [bufferSize] 0 the capacity wraps
    to 255, and the whole payload is clocked out. *)
Theorem read_str_terminated (h : Header) (buf : list Z) (bufferSize : Z)
    (m : Machine) :
  0 <= bufferSize <= 255 ->
  let width := answer m 1 in
  let capacity := u8 (bufferSize - 1) in
  let k := Z.to_nat (Z.min width capacity) in
  let out := read_str h buf bufferSize m in
  fst (fst out) = width /\
  xfers (hw (snd out)) = (k + 7 + xfers (hw m))%nat /\
  (bufferSize = 0 -> capacity = 255 /\ k = Z.to_nat width) /\
  (1 <= bufferSize <= Z.of_nat (length buf) ->
   let buf' := snd (fst out) in
   length buf' = length buf /\
   nth (Z.to_nat (bufferSize - 1)) buf' 1 = 0 /\
   (forall i, (i < k)%nat -> nth i buf' 1 = answer m (3 + i)) /\
   (forall i d, (k <= i)%nat -> i <> Z.to_nat (bufferSize - 1) ->
                nth i buf' d = nth i buf d)).
Proof.
  intros Hsize width capacity k out.
  pose proof (answer_range m 1) as Hw. fold width in Hw.
  assert (Hn : Z.to_nat (if width <? capacity then width else capacity) = k).
  { subst k. destruct (Z.ltb_spec width capacity); f_equal; lia. }
  assert (Hout : out =
            (width,
             (if 0 <=? bufferSize - 1
              then store_at (Z.to_nat (bufferSize - 1)) 0
                     (overlay (map (answer m) (seq 3 k)) buf)
              else overlay (map (answer m) (seq 3 k)) buf),
             snd (read h capacity m))).
  { subst out. unfold read_str, bind, ret. fold capacity. rewrite read_run.
    cbn [fst snd]. fold width. rewrite Hn. reflexivity. }
  split; [now rewrite Hout|]. split.
  { rewrite Hout. cbn [snd]. rewrite read_xfers. fold width. now rewrite Hn. }
  split.
  { intros ->. subst k capacity. change (u8 (0 - 1)) with 255.
    split; [reflexivity | f_equal; lia]. }
  intros Hbuf buf'. subst buf'. rewrite Hout. cbn [fst snd].
  destruct (Z.leb_spec 0 (bufferSize - 1)) as [_|]; [|lia].
  assert (Hcap : capacity = bufferSize - 1).
  { subst capacity. unfold u8. apply Z.mod_small. lia. }
  set (stored := map (answer m) (seq 3 k)).
  assert (Hk : length stored = k) by (subst stored; now rewrite length_map, length_seq).
  assert (Hfit : (length stored <= length buf)%nat) by lia.
  split; [now rewrite store_at_length, overlay_length|]. split.
  { apply nth_store_at_same. rewrite overlay_length by exact Hfit. lia. }
  split.
  - intros i Hi. rewrite nth_store_at_other by lia.
    rewrite nth_overlay by exact Hfit.
    destruct (Nat.ltb_spec i (length stored)); [|lia].
    subst stored.
    rewrite (nth_indep _ 1 (answer m 0)) by (rewrite length_map, length_seq; lia).
    rewrite map_nth, seq_nth by lia. reflexivity.
  - intros i d Hi Hne. rewrite nth_store_at_other by lia.
    rewrite nth_overlay by exact Hfit.
    destruct (Nat.ltb_spec i (length stored)); [lia | reflexivity].
Qed.

Lemma read_str_terminated_witness :
  let m := bench (fun k => if (k =? 1)%nat then 5 else Z.of_nat k) (fun _ => 0) in
  let out := read_str datasheet [9; 9; 9; 9] 4 m in
  fst (fst out) = answer m 1 /\
  length (snd (fst out)) = 4%nat /\
  nth 3 (snd (fst out)) 1 = 0.
Proof.
  intros m out.
  destruct (read_str_terminated datasheet [9; 9; 9; 9] 4 m ltac:(lia))
    as (Hwidth & _ & _ & Hbuf).
  destruct (Hbuf ltac:(cbn; lia)) as (Hlen & Hzero & _).
  split; [exact Hwidth|]. split; [exact Hlen | exact Hzero].
Defined.

(** ** Sending with a report *)

Lemma land_15 (x : Z) : x .& 0xF = x mod 16.
Proof. exact (Z.land_ones x 4 ltac:(lia)). Qed.

Lemma to_int8_range (x : Z) : -128 <= to_int8 x <= 127.
Proof.
  unfold to_int8. pose proof (u8_range x).
  destruct (Z.ltb_spec (u8 x) 128); lia.
Qed.

Lemma answer_after_frame (c : Z) (m : Machine) (k : nat) :
  answer (on_hw (framed [c]) m) k = answer m (S k).
Proof.
  unfold answer. cbn [on_hw hw framed miso xfers length]. do 2 f_equal. lia.
Qed.

(** X21.  [send] with a place for the number of attempts
    transmits as [send] without one, then reads OBSERVE_TX once and stores
    its low 4 bits, a number from 0 to 15; the read changes no member of
    the driver. *)
Theorem send_attempts_counts (h : Header) (fuel : nat) (t : Z)
    (data : list Z) (len : Z) (m : Machine)
    (sent : bool) (attempts : Z) (m' : Machine) :
  send_attempts h fuel t data len m = Some (sent, attempts, m') ->
  exists m1,
    send h fuel t data len m = Some (sent, m1) /\
    attempts = answer m1 1 mod 16 /\
    0 <= attempts <= 15 /\
    obj m' = obj m1 /\
    log (hw m') = EvFrame [rcmd h (OBSERVE_TX h); NOP h] :: log (hw m1).
Proof.
  unfold send_attempts, send. intros Hrun.
  destruct (transmit h fuel t data len (ackEnabled (obj m)) m)
    as [[sent1 m1]|]; [|discriminate].
  rewrite readRegister_run in Hrun. injection Hrun as <- <- <-.
  exists m1. split; [reflexivity|].
  assert (E : u8 (answer m1 1 .& 0xF) = answer m1 1 mod 16).
  { rewrite land_15. unfold u8. apply Z.mod_small.
    pose proof (Z.mod_pos_bound (answer m1 1) 16). lia. }
  rewrite E. split; [reflexivity|].
  split; [pose proof (Z.mod_pos_bound (answer m1 1) 16); lia|].
  split; reflexivity.
Qed.

Lemma send_attempts_counts_witness :
  let m := bench (fun _ => 0x3A) (fun _ => 0) in
  exists sent attempts m',
    send_attempts datasheet 4 9 [1; 2; 3] 3 m = Some (sent, attempts, m') /\
    0 <= attempts <= 15.
Proof.
  intros m.
  destruct (send_attempts datasheet 4 9 [1; 2; 3] 3 m) as [[[sent n] m']|] eqn:E;
    [|vm_compute in E; discriminate].
  destruct (send_attempts_counts datasheet 4 9 [1; 2; 3] 3 m sent n m' E)
    as (m1 & _ & _ & Hn & _).
  exists sent, n, m'. split; [reflexivity | exact Hn].
Defined.

(** X22.  [send] with a response buffer flushes the receive
    queue and transmits.  It returns -1 when the transmission failed, 0
    without looking at the chip when acknowledgments are switched off, 0
    after one status poll that shows RX_DR clear, and otherwise the declared
    width of the acknowledgment payload, converted to a signed byte, after
    reading the payload into the buffer.  The result always lies between
    -128 and 127. *)
Theorem send_response_outcomes (h : Header) (fuel : nat) (t : Z)
    (data : list Z) (len bufferSize : Z) (m : Machine)
    (r : Z) (stored : list Z) (m' : Machine) :
  send_response h fuel t data len bufferSize m = Some (r, stored, m') ->
  exists sent m1,
    send h fuel t data len (exec (flushRX h) m) = Some (sent, m1) /\
    -128 <= r <= 127 /\
    (sent = false -> r = -1 /\ stored = [] /\ m' = m1) /\
    (sent = true -> ackEnabled (obj m) = false ->
     r = 0 /\ stored = [] /\ m' = m1) /\
    (sent = true -> ackEnabled (obj m) = true ->
     if flag (RX_DR h) (answer m1 0)
     then r = to_int8 (answer m1 2) /\
          stored = map (answer m1)
                     (seq 4 (Z.to_nat (if answer m1 2 <? bufferSize
                                       then answer m1 2 else bufferSize)))
     else r = 0 /\ stored = [] /\
          log (hw m') = EvFrame [NOP h] :: log (hw m1)).
Proof.
  unfold send_response. intros Hrun.
  destruct (send h fuel t data len (exec (flushRX h) m)) as [[sent m1]|] eqn:Hsend;
    [|discriminate].
  assert (Hack : ackEnabled (obj m1) = ackEnabled (obj m)).
  { unfold send in Hsend.
    exact (proj2 (proj2 (proj2 (proj2
             (transmit_members h _ _ _ _ _ _ _ _ Hsend))))). }
  exists sent, m1. split; [reflexivity|].
  rewrite Hack in Hrun.
  destruct sent; cbn [negb] in Hrun.
  - destruct (ackEnabled (obj m)) eqn:Hen.
    + rewrite pollOnce_run in Hrun. fold (flag (RX_DR h) (answer m1 0)) in Hrun.
      destruct (flag (RX_DR h) (answer m1 0)); cbn [negb] in Hrun.
      * rewrite read_run in Hrun. rewrite !answer_after_frame in Hrun.
        injection Hrun as <- <- <-.
        split; [apply to_int8_range|].
        split; [discriminate|]. split; [discriminate|].
        intros _ _. split; [reflexivity|].
        rewrite <- (seq_shift _ 3), map_map.
        apply map_ext. intros k. apply answer_after_frame.
      * injection Hrun as <- <- <-.
        split; [lia|]. split; [discriminate|]. split; [discriminate|].
        intros _ _. repeat split.
    + injection Hrun as <- <- <-.
      split; [lia|]. split; [discriminate|].
      split; [intros _ _; repeat split | discriminate].
  - injection Hrun as <- <- <-.
    split; [lia|]. split; [intros _; repeat split|].
    split; discriminate.
Qed.

Lemma send_response_outcomes_witness :
  let m := on_obj (set_ackEnabled true) (bench (fun _ => 0x10) (fun _ => 0)) in
  exists m', send_response datasheet 4 9 [1; 2; 3] 3 8 m = Some (-1, [], m').
Proof.
  intros m.
  destruct (send_response datasheet 4 9 [1; 2; 3] 3 8 m) as [[[r stored] m']|] eqn:E;
    [|vm_compute in E; discriminate].
  destruct (send_response_outcomes datasheet 4 9 [1; 2; 3] 3 8 m r stored m' E)
    as (sent & m1 & Hsend & _ & Hfail & _).
  assert (Hsent : sent = false).
  { vm_compute in Hsend. now injection Hsend as <- _. }
  destruct (Hfail Hsent) as (-> & -> & _).
  exists m'. reflexivity.
Defined.

(** ** Sending a string *)

Lemma strlen_terminated (chars rest : list Z) :
  Forall (fun c => c <> 0) chars ->
  strlen (chars ++ 0 :: rest) = Z.of_nat (length chars).
Proof.
  induction 1 as [|c chars Hc _ IH]; [reflexivity|].
  cbn [app strlen length]. apply Z.eqb_neq in Hc. rewrite Hc, IH. lia.
Qed.

Lemma string_payload (chars rest : list Z) (len : Z) :
  len = Z.of_nat (length chars) + 1 ->
  fetch (Z.to_nat (if 32 <? len then 32 else len)) (chars ++ 0 :: rest) =
  firstn 32 (chars ++ [0]).
Proof.
  intros ->.
  replace (chars ++ 0 :: rest) with ((chars ++ [0]) ++ rest)
    by now rewrite <- app_assoc.
  assert (Hlen : length (chars ++ [0]) = S (length chars))
    by (rewrite length_app; cbn; lia).
  rewrite fetch_firstn
    by (rewrite length_app, Hlen; destruct (Z.ltb_spec 32 (Z.of_nat (length chars) + 1)); lia).
  destruct (Z.ltb_spec 32 (Z.of_nat (length chars) + 1)) as [Hlong | Hshort].
  - change (Z.to_nat 32) with 32%nat.
    rewrite firstn_app.
    replace (32 - length (chars ++ [0%Z]))%nat with 0%nat by lia.
    rewrite firstn_O. now rewrite app_nil_r.
  - rewrite firstn_app.
    replace (Z.to_nat (Z.of_nat (length chars) + 1) - length (chars ++ [0%Z]))%nat
      with 0%nat by lia.
    rewrite firstn_O, app_nil_r.
    rewrite !firstn_all2 by lia. reflexivity.
Qed.

(** X23.  [send] and [broadcast] of a C string of fewer
    than 255 characters load the first 32 bytes of the string with its
    terminating zero: up to 31 characters go out whole, zero included;
    longer strings are cut to 32 characters, without zero.  A string of
    exactly 255 characters has its length wrap to 0: nothing is sent and
    the call returns [false]. *)
Theorem string_sent_with_terminator (h : Header) (fuel : nat) (t : Z)
    (chars rest : list Z) (m : Machine) :
  payload_commands_apart h = true ->
  Forall (fun c => c <> 0) chars ->
  let message := chars ++ 0 :: rest in
  ((length chars < 255)%nat ->
   (forall result m',
      send_str h fuel t message m = Some (result, m') ->
      payloads h (log (hw m')) =
        firstn 32 (chars ++ [0]) :: payloads h (log (hw m))) /\
   (forall result m',
      broadcast_str h fuel message m = Some (result, m') ->
      payloads h (log (hw m')) =
        firstn 32 (chars ++ [0]) :: payloads h (log (hw m)))) /\
  (length chars = 255%nat ->
   send_str h fuel t message m = Some (false, m) /\
   broadcast_str h fuel message m = Some (false, m)).
Proof.
  intros Hapart Hchars message.
  assert (Hstr : strlen message = Z.of_nat (length chars))
    by exact (strlen_terminated chars rest Hchars).
  unfold send_str, broadcast_str, send, broadcast. rewrite Hstr.
  split.
  - intros Hshort.
    assert (Hlen : u8 (Z.of_nat (length chars) + 1) = Z.of_nat (length chars) + 1)
      by (unfold u8; apply Z.mod_small; lia).
    rewrite Hlen.
    assert (Hnz : Z.of_nat (length chars) + 1 <> 0) by lia.
    split; intros result m' Hrun;
      rewrite (transmit_payloads h _ _ _ _ _ _ _ _ Hapart Hnz Hrun);
      f_equal; now apply string_payload.
  - intros ->. change (u8 (Z.of_nat 255 + 1)) with 0. split; reflexivity.
Qed.

Lemma string_sent_with_terminator_witness :
  let m := bench (fun _ => 0x20) (fun _ => 0) in
  payloads datasheet
    (log (hw (machine_of (send_str datasheet 4 9 [104; 105; 0; 7] m) m))) =
  [[104; 105; 0]].
Proof.
  intros m.
  destruct (send_str datasheet 4 9 [104; 105; 0; 7] m) as [[r m']|] eqn:E;
    [|vm_compute in E; discriminate].
  destruct (string_sent_with_terminator datasheet 4 9 [104; 105] [7] m
              eq_refl
              ltac:(repeat constructor; discriminate)) as [Hshort _].
  exact (proj1 (Hshort ltac:(cbn; lia)) r m' E).
Defined.

(** ** Queueing a response while idle *)

(** X24.  [queueResponse] called while the driver is not
    listening, with room in the queue, returns [true] and leaves the driver
    not listening and the enable line low; the last frames on the bus are a
    CONFIG write with PRIM_RX and PWR_UP cleared, FLUSH_RX and FLUSH_TX, all
    sent after the payload was queued. *)
Theorem queueResponse_idle_flushes (h : Header) (data : list Z) (len : Z)
    (m : Machine) :
  listening (obj m) = false ->
  flag (TX_FULL_FIFO h) (answer (exec (startListening h) m) 1) = false ->
  let m' := exec (queueResponse h data len) m in
  eval (queueResponse h data len) m = true /\
  listening (obj m') = false /\
  ce (hw m') = false /\
  exists config older,
    log (hw m') =
      EvFrame [FLUSH_TX h] :: EvFrame [FLUSH_RX h] :: EvCE false
      :: EvFrame [wcmd h (CONFIG h); u8 (config .& .~ PRIM_RX h .& .~ PWR_UP h)]
      :: EvFrame [rcmd h (CONFIG h); NOP h]
      :: EvFrame (W_ACK_PAYLOAD h
                    :: fetch (Z.to_nat (if 32 <? len then 32 else len)) data)
      :: older.
Proof.
  intros Hidle Hroom m'. subst m'. unfold eval, exec.
  rewrite queueResponse_run. unfold queue_entry. rewrite Hidle.
  rewrite Hroom. cbn [negb fst snd].
  unfold exec at 1 2 3. rewrite stopListening_run. cbn [snd obj hw].
  split; [reflexivity|]. split; [reflexivity|]. split; [reflexivity|].
  eexists _, _. reflexivity.
Qed.

Lemma queueResponse_idle_flushes_witness :
  let m := bench (fun _ => 0) (fun _ => 0) in
  eval (queueResponse datasheet [1; 2; 3] 3) m = true /\
  hd (EvCE true) (log (hw (exec (queueResponse datasheet [1; 2; 3] 3) m))) =
    EvFrame [FLUSH_TX datasheet].
Proof.
  intros m.
  destruct (queueResponse_idle_flushes datasheet [1; 2; 3] 3 m
              eq_refl ltac:(vm_compute; reflexivity))
    as (Htrue & _ & _ & config & older & Hlog).
  split; [exact Htrue|]. rewrite Hlog. reflexivity.
Defined.

(** ** The first transmission after [begin] *)

(** X25.  With the register map of the nRF24L01+, and no bus
    transaction open: the feature unlock of [begin] does not go out under
    the ACTIVATE command byte.  [writeRegister] masks it as a register
    number, and the byte 0x73 is written to TX_ADDR instead. *)
Theorem begin_unlock_is_masked (cePin_ csnPin_ netmask_ : Z) (m : Machine) :
  sel (hw m) = [] ->
  let m' := exec (begin datasheet cePin_ csnPin_ netmask_) m in
  frames_where (fun c => c =? ACTIVATE datasheet) (log (hw m')) =
    frames_where (fun c => c =? ACTIVATE datasheet) (log (hw m)) /\
  frames_where (fun c => c =? wcmd datasheet (TX_ADDR datasheet)) (log (hw m')) =
    [0x73] :: frames_where (fun c => c =? wcmd datasheet (TX_ADDR datasheet))
                (log (hw m)).
Proof.
  intros Hsel m'. subst m'.
  destruct m as [d [ce0 csn0 sel0 log0 miso0 xfers0 clock0 ticks0]].
  cbn [hw sel] in Hsel. subst sel0.
  split; vm_compute; reflexivity.
Qed.

Lemma begin_unlock_is_masked_witness :
  let m := bench (fun _ => 0) (fun _ => 0) in
  frames_where (fun c => c =? wcmd datasheet (TX_ADDR datasheet))
    (log (hw (exec (begin datasheet 9 10 0xA1B2C3D4) m))) = [[0x73]].
Proof.
  intros m.
  exact (proj2 (begin_unlock_is_masked 9 10 0xA1B2C3D4 m eq_refl)).
Defined.

(** X26.  [begin] sets the remembered target to 0, the value [transmit]
    compares its target with, so the first transmission to node 0 on a
    freshly initialised driver adds no write to TX_ADDR: the register
    keeps what [begin] left in it.  With the register map of the
    nRF24L01+, and no bus transaction open before [begin], that is the
    byte 0x73 of the masked feature unlock. *)
Theorem first_transmit_to_zero :
  (forall (h : Header) (cePin_ csnPin_ netmask_ : Z) (m0 : Machine)
          (fuel : nat) (data : list Z) (len : Z) (ack : bool)
          (result : bool) (m' : Machine),
     tx_addr_command_apart h = true ->
     let fresh := exec (begin h cePin_ csnPin_ netmask_) m0 in
     transmit h fuel 0 data len ack fresh = Some (result, m') ->
     previousTXAddress (obj fresh) = 0 /\
     frames_where (fun c => c =? wcmd h (TX_ADDR h)) (log (hw m')) =
       frames_where (fun c => c =? wcmd h (TX_ADDR h)) (log (hw fresh)) /\
     programmed h (TX_ADDR h) (log (hw m')) =
       programmed h (TX_ADDR h) (log (hw fresh))) /\
  (forall (cePin_ csnPin_ netmask_ : Z) (m0 : Machine)
          (fuel : nat) (data : list Z) (len : Z) (ack : bool)
          (result : bool) (m' : Machine),
     sel (hw m0) = [] ->
     transmit datasheet fuel 0 data len ack
       (exec (begin datasheet cePin_ csnPin_ netmask_) m0) = Some (result, m') ->
     programmed datasheet (TX_ADDR datasheet) (log (hw m')) = Some [0x73]).
Proof.
  assert (Hgen : forall h cePin_ csnPin_ netmask_ m0 fuel data len ack result m',
            tx_addr_command_apart h = true ->
            transmit h fuel 0 data len ack
              (exec (begin h cePin_ csnPin_ netmask_) m0) = Some (result, m') ->
            frames_where (fun c => c =? wcmd h (TX_ADDR h)) (log (hw m')) =
            frames_where (fun c => c =? wcmd h (TX_ADDR h))
              (log (hw (exec (begin h cePin_ csnPin_ netmask_) m0)))).
  { intros h cePin_ csnPin_ netmask_ m0 fuel data len ack result m' Hapart Hrun.
    rewrite (transmit_tx_frames h fuel 0 data len ack _ result m' Hapart Hrun).
    rewrite begin_obj. cbn [previousTXAddress].
    now rewrite Z.eqb_refl, orb_true_r. }
  split.
  - intros h cePin_ csnPin_ netmask_ m0 fuel data len ack result m' Hapart
           fresh Hrun.
    split; [subst fresh; now rewrite begin_obj|].
    pose proof (Hgen h cePin_ csnPin_ netmask_ m0 fuel data len ack result m'
                  Hapart Hrun) as Hframes.
    split; [exact Hframes|]. unfold programmed. now rewrite Hframes.
  - intros cePin_ csnPin_ netmask_ m0 fuel data len ack result m' Hidle Hrun.
    unfold programmed.
    rewrite (Hgen datasheet cePin_ csnPin_ netmask_ m0 fuel data len ack
               result m' eq_refl Hrun).
    rewrite begin_log, Hidle. vm_compute. reflexivity.
Qed.

Lemma first_transmit_to_zero_witness :
  let m0 := bench (fun _ => 0x20) (fun _ => 0) in
  let fresh := exec (begin datasheet 9 10 0xA1B2C3D4) m0 in
  let m' := machine_of (transmit datasheet 4 0 [1; 2; 3] 3 true fresh) fresh in
  programmed datasheet (TX_ADDR datasheet) (log (hw m')) = Some [0x73].
Proof.
  intros m0 fresh.
  destruct (transmit datasheet 4 0 [1; 2; 3] 3 true fresh) as [[r m1]|] eqn:E;
    [|vm_compute in E; discriminate].
  unfold machine_of.
  exact (proj2 first_transmit_to_zero 9 10 0xA1B2C3D4 m0 4%nat [1; 2; 3] 3
           true r m1 eq_refl E).
Defined.
